(** * GCPCVS: the long-running-operation layer of the Cloud Volumes client

    A shallow embedding of the two client classes of the repository,
    [GCPCVS] (GCPCVS.py) and [gcpcvs] (gcpcvs/gcpcvs.py): the retrying
    request executor ([_do_api_post], [_do_api_delete], [createVolume]),
    the completion polls ([createBackup], [breakVolumeReplicationByID]),
    the backup rotation ([rotateBackup]) and the service-level translators.

    Conventions of the embedding.
    - The remote service, the wall clock and the random generator are an
      environment [Env]: each answers as a function of the history of
      events so far, so a statement over every [Env] covers every service
      behaviour.
    - A method is a computation [M A]: given the history it yields an
      outcome (a value, a Python exception, or [OutOfFuel] when a
      [while True] loop was cut) and the events it emitted.
    - Text is ASCII [string]; a URL is kept as the f-string template with
      its holes ([endpoint]); [logging] calls change neither control flow
      nor the service and are left out, but any subscript evaluated inside
      a logged f-string is kept where it can raise.
    - Where Python's behaviour is not modelled (a volume name that is not
      a [str] or that holds a regex metacharacter, a timestamp outside the
      plain ISO forms) the outcome is [OutsideModel]: such a run says
      nothing about the program. *)

From Stdlib Require Import ZArith List String Ascii Bool Lia.
From Stdlib Require Import Permutation.
Import ListNotations.
Set Warnings "-register-all".
Open Scope string_scope.
Open Scope Z_scope.

(** ** Python values and exceptions *)

Module Py.

(** The result of [Response.json()]: a parsed JSON document.  The client
    never computes with a number, so integers stand for all of them. *)
Inductive json : Type :=
| JNull
| JBool (b : bool)
| JNum (n : Z)
| JStr (s : string)
| JList (l : list json)
| JDict (d : list (string * json)).

Inductive exn : Type :=
| AttributeError
| KeyError
| IndexError
| TypeError
| ValueError
| OverflowError
| UnboundLocalError
| JSONDecodeError
| ConnectionError
| HTTPError (status : Z)
| RuntimeError (detail : json)
| TimeoutError
| OutsideModel.   (* not a Python exception: the input leaves the modelled fragment *)

Inductive outcome (A : Type) : Type :=
| Ret (a : A)
| Raise (e : exn)
| OutOfFuel.
Arguments Ret {A} a.
Arguments Raise {A} e.
Arguments OutOfFuel {A}.

Definition obind {A B} (o : outcome A) (k : A -> outcome B) : outcome B :=
  match o with
  | Ret a => k a
  | Raise e => Raise e
  | OutOfFuel => OutOfFuel
  end.

Fixpoint assoc (k : string) (d : list (string * json)) : option json :=
  match d with
  | [] => None
  | (k', v) :: d' => if String.eqb k k' then Some v else assoc k d'
  end.

(** [needle in hay] for two [str]. *)
Fixpoint substring_in (needle hay : string) : bool :=
  if String.prefix needle hay then true
  else match hay with
       | EmptyString => false
       | String _ hay' => substring_in needle hay'
       end.

Definition is_str (s : string) (v : json) : bool :=
  match v with
  | JStr t => String.eqb t s
  | _ => false
  end.

Fixpoint chars (s : string) : list json :=
  match s with
  | EmptyString => []
  | String c s' => JStr (String c EmptyString) :: chars s'
  end.

(** [v[k]] with a [str] key. *)
Definition getitem (v : json) (k : string) : outcome json :=
  match v with
  | JDict d => match assoc k d with Some x => Ret x | None => Raise KeyError end
  | _ => Raise TypeError
  end.

(** [v[0]]. *)
Definition getitem0 (v : json) : outcome json :=
  match v with
  | JList (x :: _) => Ret x
  | JList [] => Raise IndexError
  | JStr (String c _) => Ret (JStr (String c EmptyString))
  | JStr EmptyString => Raise IndexError
  | JDict _ => Raise KeyError
  | _ => Raise TypeError
  end.

(** [k in v] with a [str] on the left. *)
Definition contains (k : string) (v : json) : outcome bool :=
  match v with
  | JDict d => Ret (match assoc k d with Some _ => true | None => false end)
  | JList l => Ret (existsb (is_str k) l)
  | JStr s => Ret (substring_in k s)
  | _ => Raise TypeError
  end.

(** [len(v)]. *)
Definition len (v : json) : outcome Z :=
  match v with
  | JList l => Ret (Z.of_nat (List.length l))
  | JDict d => Ret (Z.of_nat (List.length d))
  | JStr s => Ret (Z.of_nat (String.length s))
  | _ => Raise TypeError
  end.

(** The items a [for] over [v] visits. *)
Definition iter (v : json) : outcome (list json) :=
  match v with
  | JList l => Ret l
  | JDict d => Ret (map (fun kv => JStr (fst kv)) d)
  | JStr s => Ret (chars s)
  | _ => Raise TypeError
  end.

(** [v.startswith(p)]: only [str] has the attribute. *)
Definition startswith (v : json) (p : string) : outcome bool :=
  match v with
  | JStr s => Ret (String.prefix p s)
  | _ => Raise AttributeError
  end.

(** [s.strip("Z")]. *)
Fixpoint lstripZ (s : string) : string :=
  match s with
  | String "Z"%char s' => lstripZ s'
  | _ => s
  end.

Fixpoint rstripZ (s : string) : string :=
  match s with
  | EmptyString => EmptyString
  | String c s' =>
      match rstripZ s' with
      | EmptyString => if Ascii.eqb c "Z" then EmptyString else String c EmptyString
      | t => String c t
      end
  end.

Definition stripZ (v : json) : outcome string :=
  match v with
  | JStr s => Ret (rstripZ (lstripZ s))
  | _ => Raise AttributeError
  end.

(** A value interpolated into an f-string; only [str] is modelled. *)
Definition fstr (v : json) : outcome string :=
  match v with
  | JStr s => Ret s
  | _ => Raise OutsideModel
  end.

End Py.
Export Py.

(** ** The fragment of [re] the rotation pattern lives in *)

Module Re.

(** Ordinary characters, [.] and [\d]; any other metacharacter in the
    pattern text is outside the fragment. *)
Inductive atom : Type :=
| Lit (c : ascii)
| Dot
| Digit.

Definition metachars : list ascii :=
  ["\"; "^"; "$"; "."; "|"; "?"; "*"; "+"; "("; ")"; "["; "]"; "{"; "}"]%char.

Definition is_meta (c : ascii) : bool := existsb (Ascii.eqb c) metachars.

Definition is_digit (c : ascii) : bool :=
  let n := nat_of_ascii c in (48 <=? n)%nat && (n <=? 57)%nat.

(** [re.compile(s)]. *)
Fixpoint compile (s : string) : outcome (list atom) :=
  match s with
  | EmptyString => Ret []
  | String "\"%char (String "d"%char s') => obind (compile s') (fun p => Ret (Digit :: p))
  | String "."%char s' => obind (compile s') (fun p => Ret (Dot :: p))
  | String c s' =>
      if is_meta c then Raise OutsideModel
      else obind (compile s') (fun p => Ret (Lit c :: p))
  end.

Definition atom_accepts (a : atom) (c : ascii) : bool :=
  match a with
  | Lit x => Ascii.eqb x c
  | Dot => negb (Ascii.eqb c "010")
  | Digit => is_digit c
  end.

(** Truth value of [p.match(s)]: the pattern matches a prefix of [s]. *)
Fixpoint prefix_match (p : list atom) (s : string) : bool :=
  match p with
  | [] => true
  | a :: p' =>
      match s with
      | EmptyString => false
      | String c s' => atom_accepts a c && prefix_match p' s'
      end
  end.

Definition pmatch (p : list atom) (v : json) : outcome bool :=
  match v with
  | JStr s => Ret (prefix_match p s)
  | _ => Raise TypeError
  end.

End Re.

(** ** [datetime] *)

Module Datetime.

Definition us_per_day : Z := 86400000000.

(** Microseconds from 0001-01-01T00:00 to the end of 9999-12-31. *)
Definition span : Z := 3652059 * us_per_day.

(** [timedelta(seconds=s)], in microseconds. *)
Definition timedelta_seconds (s : Z) : outcome Z :=
  if (-999999999 <=? s / 86400) && (s / 86400 <=? 999999999)
  then Ret (s * 1000000)
  else Raise OverflowError.

(** [t + d] for a datetime [t] and a timedelta [d]. *)
Definition add (t d : Z) : outcome Z :=
  if (0 <=? t + d) && (t + d <? span) then Ret (t + d) else Raise OverflowError.

(** Year, month, day of the day number [n] (0 is 0001-01-01). *)
Definition civil_of_days (n : Z) : Z * Z * Z :=
  let z := n + 306 in
  let era := z / 146097 in
  let doe := z - era * 146097 in
  let yoe := (doe - doe / 1460 + doe / 36524 - doe / 146096) / 365 in
  let doy := doe - (365 * yoe + yoe / 4 - yoe / 100) in
  let mp := (5 * doy + 2) / 153 in
  let d := doy - (153 * mp + 2) / 5 + 1 in
  let m := if mp <? 10 then mp + 3 else mp - 9 in
  let y := yoe + era * 400 + (if m <=? 2 then 1 else 0) in
  (y, m, d).

Definition digit (n : Z) : ascii := ascii_of_nat (48 + Z.to_nat (n mod 10)).

Definition pad2 (n : Z) : string :=
  String (digit (n / 10)) (String (digit n) EmptyString).

Definition pad4 (n : Z) : string := (pad2 (n / 100) ++ pad2 n)%string.

(** [t.isoformat(timespec='minutes')]. *)
Definition isoformat_minutes (t : Z) : string :=
  let '(y, m, d) := civil_of_days (t / us_per_day) in
  let secs := (t mod us_per_day) / 1000000 in
  (pad4 y ++ "-" ++ pad2 m ++ "-" ++ pad2 d ++ "T"
   ++ pad2 (secs / 3600) ++ ":" ++ pad2 ((secs / 60) mod 60))%string.

Definition digit_val (c : ascii) : option Z :=
  if Re.is_digit c then Some (Z.of_nat (nat_of_ascii c) - 48) else None.

(** Reads exactly [n] decimal digits. *)
Fixpoint digits (n : nat) (acc : Z) (s : string) : option (Z * string) :=
  match n with
  | O => Some (acc, s)
  | S n' =>
      match s with
      | String c s' =>
          match digit_val c with
          | Some d => digits n' (acc * 10 + d) s'
          | None => None
          end
      | EmptyString => None
      end
  end.

Definition expect (c : ascii) (s : string) : option string :=
  match s with
  | String c' s' => if Ascii.eqb c c' then Some s' else None
  | EmptyString => None
  end.

Definition is_leap (y : Z) : bool :=
  (y mod 4 =? 0) && (negb (y mod 100 =? 0) || (y mod 400 =? 0)).

Definition days_in_month (y m : Z) : Z :=
  if m =? 2 then (if is_leap y then 29 else 28)
  else if (m =? 4) || (m =? 6) || (m =? 9) || (m =? 11) then 30
  else 31.

(** [HH[:MM[:SS[.fff[fff]]]]] up to the end of the text. *)
Definition parse_time (s : string) : option (Z * Z * Z * Z) :=
  match digits 2 0 s with
  | None => None
  | Some (hh, EmptyString) => Some (hh, 0, 0, 0)
  | Some (hh, s1) =>
      match expect ":" s1 with
      | None => None
      | Some s2 =>
          match digits 2 0 s2 with
          | None => None
          | Some (mi, EmptyString) => Some (hh, mi, 0, 0)
          | Some (mi, s3) =>
              match expect ":" s3 with
              | None => None
              | Some s4 =>
                  match digits 2 0 s4 with
                  | None => None
                  | Some (ss, EmptyString) => Some (hh, mi, ss, 0)
                  | Some (ss, s5) =>
                      match expect "." s5 with
                      | None => None
                      | Some s6 =>
                          match digits 3 0 s6 with
                          | None => None
                          | Some (ms, EmptyString) => Some (hh, mi, ss, ms * 1000)
                          | Some (ms, s7) =>
                              match digits 3 ms s7 with
                              | Some (us, EmptyString) => Some (hh, mi, ss, us)
                              | _ => None
                              end
                          end
                      end
                  end
              end
          end
      end
  end.

(** [YYYY-MM-DD] then, optionally, one separator character and a time. *)
Definition parse_fields (s : string) : option (Z * Z * Z * (Z * Z * Z * Z)) :=
  match digits 4 0 s with
  | None => None
  | Some (y, s1) =>
      match expect "-" s1 with
      | None => None
      | Some s2 =>
          match digits 2 0 s2 with
          | None => None
          | Some (m, s3) =>
              match expect "-" s3 with
              | None => None
              | Some s4 =>
                  match digits 2 0 s4 with
                  | None => None
                  | Some (d, EmptyString) => Some (y, m, d, (0, 0, 0, 0))
                  | Some (d, String _ EmptyString) => None
                  | Some (d, String _ s5) =>
                      match parse_time s5 with
                      | Some t => Some (y, m, d, t)
                      | None => None
                      end
                  end
              end
          end
      end
  end.

(** [datetime.fromisoformat(s)] as a sort key: naive datetimes compare
    field by field, which this number preserves.  Texts of the shape
    above with a field out of range raise [ValueError]; every other text
    (time-zone offsets, forms only newer Python versions read) is outside
    the fragment. *)
Definition fromisoformat (s : string) : outcome Z :=
  match parse_fields s with
  | None => Raise OutsideModel
  | Some (y, m, d, (hh, mi, ss, us)) =>
      if (1 <=? y) && (1 <=? m) && (m <=? 12) && (1 <=? d) && (d <=? days_in_month y m)
         && (hh <? 24) && (mi <? 60) && (ss <? 60)
      then Ret ((((((y * 100 + m) * 100 + d) * 100 + hh) * 100 + mi) * 100 + ss) * 1000000 + us)
      else Raise ValueError
  end.

End Datetime.

(** ** The world: requests, events, environment *)

Inductive verb : Type := GET | POST | DELETE.

(** [f"{self.baseurl}/locations/{region}/..."], one constructor per
    template used by the modelled methods. *)
Inductive endpoint : Type :=
| Volumes (region : string)
| Volume (region : string) (volumeID : json)
| VolumeBackups (region volumeID : string)
| Backups (region : string)
| Backup (region : string) (backupID : json)
| VolumeReplication (region relationshipID : string)
| VolumeReplicationBreak (region relationshipID : string).

Record request : Type := mkRequest
  { req_verb : verb; req_url : endpoint; req_json : option json }.

(** [body = None]: the body is not JSON and [r.json()] raises. *)
Record response : Type := mkResponse
  { status_code : Z; body : option json }.

Inductive event : Type :=
| Sent (q : request)
| Slept (seconds : Z).

Definition trace := list event.

(** What the client cannot decide, each as a function of the events so
    far.  [respond] is [None] when the transport raises instead of
    answering; [clock] is in microseconds on the proleptic Gregorian time
    line starting 0001-01-01T00:00 and stays in the range of [datetime];
    [entropy] feeds the random generator. *)
Record Env : Type := mkEnv
  { respond : trace -> request -> option response;
    clock : trace -> Z;
    entropy : trace -> Z;
    clock_range : forall h, 0 <= clock h < Datetime.span }.

(** A computation: from the history to its outcome and the events it
    emitted, oldest first. *)
Definition M (A : Type) : Type := trace -> outcome A * trace.

Definition ret {A} (a : A) : M A := fun _ => (Ret a, []).
Definition raise {A} (e : exn) : M A := fun _ => (Raise e, []).
Definition out_of_fuel {A} : M A := fun _ => (OutOfFuel, []).
Definition lift {A} (o : outcome A) : M A := fun _ => (o, []).

Definition bind {A B} (m : M A) (k : A -> M B) : M B :=
  fun h =>
    match m h with
    | (Ret a, es) => let (o, es') := k a (h ++ es)%list in (o, (es ++ es')%list)
    | (Raise e, es) => (Raise e, es)
    | (OutOfFuel, es) => (OutOfFuel, es)
    end.

Declare Scope py_scope.
Delimit Scope py_scope with py.
Notation "x <- m ;; k" := (bind m (fun x => k))
  (at level 100, m at next level, right associativity) : py_scope.
Notation "m ;;; k" := (bind m (fun _ => k))
  (at level 100, right associativity) : py_scope.
Open Scope py_scope.

Definition is_delete (e : event) : bool :=
  match e with
  | Sent (mkRequest DELETE _ _) => true
  | _ => false
  end.

Definition in_codes (s : Z) (codes : list Z) : bool := existsb (Z.eqb s) codes.

(** [r.json()]. *)
Definition json_of (r : response) : outcome json :=
  match body r with
  | Some v => Ret v
  | None => Raise JSONDecodeError
  end.

(** [r.raise_for_status()]: HTTPError for 4xx and 5xx. *)
Definition raise_for_status (r : response) : outcome unit :=
  if (400 <=? status_code r) && (status_code r <? 600)
  then Raise (HTTPError (status_code r))
  else Ret tt.

Section Primitives.
Variable E : Env.

(** [requests.get/post/delete]. *)
Definition send (q : request) : M response :=
  fun h =>
    match respond E h q with
    | Some r => (Ret r, [Sent q])
    | None => (Raise ConnectionError, [Sent q])
    end.

Definition requests_get (u : endpoint) : M response := send (mkRequest GET u None).
Definition requests_post (u : endpoint) (p : json) : M response := send (mkRequest POST u (Some p)).
Definition requests_delete (u : endpoint) : M response := send (mkRequest DELETE u None).

(** [time.sleep(n)]. *)
Definition sleep (n : Z) : M unit := fun _ => (Ret tt, [Slept n]).

(** [datetime.now()] and [time.time()], both read off [clock]. *)
Definition now : M Z := fun h => (Ret (clock E h), []).

(** [random.randrange(lo, hi)]. *)
Definition randrange (lo hi : Z) : M Z :=
  fun h => (Ret (lo + entropy E h mod (hi - lo)), []).

End Primitives.


(** ** What a client instance offers to [rotateBackup] *)

(** An attribute found on [self]: a method taking [(region, backupID)],
    or anything else bound in the class. *)
Inductive attribute : Type :=
| Method2 (f : string -> json -> M bool)
| Other.

(** [self] as [rotateBackup] sees it: the three methods it names that the
    class defines, and the attribute table every other name goes through. *)
Record instance : Type := mkInstance
  { self_getBackupsByVolumeID : string -> string -> M json;
    self_getVolumesByVolumeID : string -> string -> M json;
    self_createBackup : string -> string -> string -> M bool;
    self_getattr : string -> option attribute }.

(** How one pass of a [while] loop ends. *)
Inductive ctl : Type := Break | Continue.

(** A [return False] taken early, or the value the method goes on with. *)
Inductive early (A : Type) : Type :=
| Return (b : bool)
| Go (a : A).
Arguments Return {A} b.
Arguments Go {A} a.

Fixpoint filterM {A} (f : A -> outcome bool) (l : list A) : outcome (list A) :=
  match l with
  | [] => Ret []
  | x :: l' =>
      obind (f x) (fun keep =>
      obind (filterM f l') (fun r => Ret (if keep then x :: r else r)))
  end.

Fixpoint mapM {A B} (f : A -> outcome B) (l : list A) : outcome (list B) :=
  match l with
  | [] => Ret []
  | x :: l' => obind (f x) (fun y => obind (mapM f l') (fun r => Ret (y :: r)))
  end.

(** [sorted(l, key=..., reverse=True)] on items paired with their keys:
    descending, and items with equal keys keep their listing order. *)
Fixpoint insert_desc (x : Z * json) (l : list (Z * json)) : list (Z * json) :=
  match l with
  | [] => [x]
  | y :: l' => if fst x <? fst y then y :: insert_desc x l' else x :: y :: l'
  end.

Fixpoint sort_desc (l : list (Z * json)) : list (Z * json) :=
  match l with
  | [] => []
  | x :: l' => insert_desc x (sort_desc l')
  end.

(** ** [rotateBackup], the same text in both classes
    (GCPCVS.py 431-475, gcpcvs.py 878-922) *)

Section Rotation.
Variable E : Env.
Variable self : instance.

Definition max_backups : Z := 32.

(** The text of the pattern compiled for a volume name. *)
Definition pattern_text (volumename : string) : string :=
  (volumename ++ "-......-\d\d\d\d-\d\d-\d\dT\d\d:\d\d")%string.

(** [datetime.fromisoformat(b['created'].strip("Z"))]. *)
Definition created_key (b : json) : outcome Z :=
  obind (getitem b "created") (fun c =>
  obind (stripZ c) Datetime.fromisoformat).

(** [p.match(backup["name"])]. *)
Definition name_matches (p : list Re.atom) (b : json) : outcome bool :=
  obind (getitem b "name") (Re.pmatch p).

(** From the bound check to the return of [createBackup]
    (GCPCVS.py 434-457, gcpcvs.py 881-904). *)
Definition rotateBackup_create (region volumeID : string) (count : Z) : M (early string) :=
  if negb ((1 <=? count) && (count <=? max_backups - 2)) then ret (Return false)
  else
    backups <- self_getBackupsByVolumeID self region volumeID ;;
    n <- lift (len backups) ;;
    if n =? max_backups then ret (Return false)
    else
      vols <- self_getVolumesByVolumeID self region volumeID ;;
      v0 <- lift (getitem0 vols) ;;
      nm <- lift (getitem v0 "name") ;;
      let volumehash := substring 0 6 volumeID in
      volumename <- lift (fstr nm) ;;
      t <- now E ;;
      let backupname :=
        (volumename ++ "-" ++ volumehash ++ "-" ++ Datetime.isoformat_minutes t)%string in
      ok <- self_createBackup self region volumeID backupname ;;
      if ok then ret (Go volumename) else ret (Return false).

(** The second listing, filtered by the pattern and sorted newest first
    (GCPCVS.py 458-463, gcpcvs.py 905-910). *)
Definition rotateBackup_select (region volumeID volumename : string) : M (list json) :=
  p <- lift (Re.compile (pattern_text volumename)) ;;
  listing <- self_getBackupsByVolumeID self region volumeID ;;
  items <- lift (iter listing) ;;
  backups <- lift (filterM (name_matches p) items) ;;
  keys <- lift (mapM created_key backups) ;;
  ret (map snd (sort_desc (combine keys backups))).

(** [self.deleteBackupbyBackupID(region, backupToDelete["backupId"])]:
    the attribute is looked up, then the argument is evaluated, then the
    call is made. *)
Definition call_deleteBackupbyBackupID (region : string) (backupToDelete : json) : M bool :=
  match self_getattr self "deleteBackupbyBackupID" with
  | None => raise AttributeError
  | Some a =>
      backupID <- lift (getitem backupToDelete "backupId") ;;
      match a with
      | Method2 f => f region backupID
      | Other => raise TypeError
      end
  end.

(** [while i < len(sortedbackups)] (GCPCVS.py 470-474, gcpcvs.py
    917-921): at most [steps] passes.  [i] starts at [count], which the
    bound check has made positive. *)
Fixpoint prune_loop (steps : nat) (region : string) (sortedbackups : list json) (i : Z) : M unit :=
  match steps with
  | O => ret tt
  | S steps' =>
      if i <? Z.of_nat (List.length sortedbackups) then
        match nth_error sortedbackups (Z.to_nat i) with
        | None => raise IndexError
        | Some backupToDelete =>
            call_deleteBackupbyBackupID region backupToDelete ;;;
            prune_loop steps' region sortedbackups (i + 1)
        end
      else ret tt
  end.

(** The loop with enough passes to reach its exit test. *)
Definition rotateBackup_prune (region : string) (count : Z) (sortedbackups : list json) : M unit :=
  prune_loop (S (List.length sortedbackups)) region sortedbackups count.

Definition rotateBackup (region volumeID : string) (count : Z) : M bool :=
  c <- rotateBackup_create region volumeID count ;;
  match c with
  | Return b => ret b
  | Go volumename =>
      sortedbackups <- rotateBackup_select region volumeID volumename ;;
      rotateBackup_prune region count sortedbackups ;;;
      ret true
  end.

End Rotation.

(** Names bound in both class bodies besides the [def]s. *)
Definition class_fields : list string :=
  ["project"; "projectId"; "service_account"; "token"; "baseurl"; "headers"].

(** The four-entry dictionaries of the translators. *)
Fixpoint dict_get (k : string) (d : list (string * string)) : option string :=
  match d with
  | [] => None
  | (k', v) :: d' => if String.eqb k k' then Some v else dict_get k d'
  end.

(** [x["name"] == name], the test of the by-name list comprehensions. *)
Definition named (name : string) (x : json) : outcome bool :=
  obind (getitem x "name") (fun n => Ret (is_str name n)).

(** ** Class [GCPCVS] (GCPCVS.py) *)

Module GCPCVS.

Definition class_defs : list string :=
  ["__init__"; "__str__"; "getProjectNumber"; "getProjectID"; "_log_response";
   "_do_api_get"; "getVolumesByRegion"; "getVolumesByName"; "getVolumesByVolumeID";
   "_modifyVolumeByVolumeID"; "resizeVolumeByVolumeID"; "setServiceLevelByVolumeID";
   "createVolume"; "deleteVolumeByVolumeID"; "translateServiceLevelAPI2UI";
   "translateServiceLevelUI2API"; "getSnapshotsByRegion"; "deleteSnapshotBySnapshotID";
   "getVolumeReplicationByRegion"; "getBackups"; "getBackupsByVolumeID"; "createBackup";
   "rotateBackup"; "deleteBackupByBackupID"; "deleteBackupByName";
   "deleteAllBackupsByVolumeID"; "getKMSConfigurationByRegion"; "getKMSConfigurationByID";
   "deleteKMSConfigurationByID"; "getActiveDirectoryConfigurationByRegion";
   "getActiveDirectoryConfigurationByID"].

Section Client.
Variable E : Env.

(** GCPCVS.py 76-79. *)
Definition _do_api_get (u : endpoint) : M response :=
  r <- requests_get E u ;;
  lift (raise_for_status r) ;;;
  ret r.

(** GCPCVS.py 114-127. *)
Definition getVolumesByVolumeID (region volumeID : string) : M json :=
  r <- _do_api_get (Volume region (JStr volumeID)) ;;
  lift (json_of r).

(** The test made on the body of a 500: it has a "message" and the
    message starts with the job-queue phrase of volume creation. *)
Definition job_queue_full (reason : json) : outcome bool :=
  obind (contains "message" reason) (fun has =>
  if has then
    obind (getitem reason "message") (fun msg =>
    startswith msg "Error creating volume - Cannot spawn additional jobs")
  else Ret false).

(** [while retries > 0] (GCPCVS.py 189-206); [r] is unbound until the
    first pass assigns it. *)
Fixpoint createVolume_loop (retries : nat) (region : string) (payload : json)
  (r : option response) : M (option response) :=
  match retries with
  | O => ret r
  | S retries' =>
      r' <- requests_post E (Volumes region) payload ;;
      if status_code r' =? 500 then
        reason <- lift (json_of r') ;;
        full <- lift (job_queue_full reason) ;;
        if full then
          sleep 60 ;;;
          createVolume_loop retries' region payload (Some r')
        else ret (Some r')
      else ret (Some r')
  end.

(** The 202 branch: poll every 20 s until the state is not "creating". *)
Fixpoint createVolume_wait (fuel : nat) (region : string) (volumeID : json) : M response :=
  match fuel with
  | O => out_of_fuel
  | S fuel' =>
      sleep 20 ;;;
      r <- _do_api_get (Volume region volumeID) ;;
      v <- lift (json_of r) ;;
      state <- lift (getitem v "lifeCycleState") ;;
      if negb (is_str "creating" state) then ret r
      else createVolume_wait fuel' region volumeID
  end.

(** GCPCVS.py 175-228. *)
Definition createVolume (fuel : nat) (region : string) (payload : json) (timeout : Z) : M json :=
  last <- createVolume_loop (Z.to_nat timeout) region payload None ;;
  match last with
  | None => raise UnboundLocalError
  | Some r =>
      lift (raise_for_status r) ;;;
      v <- lift (json_of r) ;;
      a <- lift (getitem v "response") ;;
      b <- lift (getitem a "AnyValue") ;;
      volumeID <- lift (getitem b "volumeId") ;;
      if status_code r =? 200 then
        r1 <- _do_api_get (Volume region volumeID) ;;
        lift (json_of r1)
      else if status_code r =? 202 then
        r2 <- createVolume_wait fuel region volumeID ;;
        lift (json_of r2)
      else ret (JDict [])
  end.

(** GCPCVS.py 266-308. *)
Definition serviceLevelsAPI : list (string * string) :=
  [("basic", "standard"); ("standard", "premium"); ("extreme", "extreme");
   ("standard-sw", "standard-sw")].

Definition translateServiceLevelAPI2UI (serviceLevel : string) : option string :=
  dict_get serviceLevel serviceLevelsAPI.

Definition serviceLevelsUI : list (string * string) :=
  [("standard", "basic"); ("premium", "standard"); ("extreme", "extreme");
   ("standard-sw", "standard-sw")].

Definition translateServiceLevelUI2API (serviceLevel : string) : option string :=
  dict_get serviceLevel serviceLevelsUI.

(** GCPCVS.py 379-392. *)
Definition getBackupsByVolumeID (region volumeID : string) : M json :=
  r <- _do_api_get (VolumeBackups region volumeID) ;;
  lift (json_of r).

(** Poll every 5 s until the state is "available" (GCPCVS.py 416-423). *)
Fixpoint createBackup_wait (fuel : nat) (region : string) (backupID : json) : M unit :=
  match fuel with
  | O => out_of_fuel
  | S fuel' =>
      sleep 5 ;;;
      r <- _do_api_get (Backup region backupID) ;;
      v <- lift (json_of r) ;;
      status <- lift (getitem v "lifeCycleState") ;;
      if is_str "available" status then ret tt
      else createBackup_wait fuel' region backupID
  end.

(** GCPCVS.py 395-428. *)
Definition createBackup (fuel : nat) (region volumeID name : string) : M bool :=
  let body := JDict [("name", JStr name); ("volumeId", JStr volumeID)] in
  r <- requests_post E (Backups region) body ;;
  if (status_code r =? 201) || (status_code r =? 202) then
    v <- lift (json_of r) ;;
    a <- lift (getitem v "response") ;;
    b <- lift (getitem a "AnyValue") ;;
    backupID <- lift (getitem b "backupId") ;;
    createBackup_wait fuel region backupID ;;;
    ret true
  else ret false.

(** Keep trying while the status is 429 (GCPCVS.py 480-485). *)
Fixpoint deleteBackup_loop (fuel : nat) (region : string) (backupID : json) : M response :=
  match fuel with
  | O => out_of_fuel
  | S fuel' =>
      r <- requests_delete E (Backup region backupID) ;;
      if negb (status_code r =? 429) then ret r
      else sleep 5 ;;; deleteBackup_loop fuel' region backupID
  end.

(** GCPCVS.py 478-492. *)
Definition deleteBackupByBackupID (fuel : nat) (region : string) (backupID : json) : M bool :=
  r <- deleteBackup_loop fuel region backupID ;;
  ret ((status_code r =? 200) || (status_code r =? 202)).

(** Attribute lookup on an instance of the class. *)
Definition getattr (fuel : nat) (name : string) : option attribute :=
  if String.eqb name "deleteBackupByBackupID" then Some (Method2 (deleteBackupByBackupID fuel))
  else if existsb (String.eqb name) (class_defs ++ class_fields) then Some Other
  else None.

Definition self (fuel : nat) : instance :=
  mkInstance getBackupsByVolumeID getVolumesByVolumeID (createBackup fuel) (getattr fuel).

Definition rotateBackup (fuel : nat) (region volumeID : string) (count : Z) : M bool :=
  rotateBackup E (self fuel) region volumeID count.

(** GCPCVS.py 85-97. *)
Definition getVolumesByRegion (region : string) : M json :=
  r <- _do_api_get (Volumes region) ;;
  lift (json_of r).

(** GCPCVS.py 99-112. *)
Definition getVolumesByName (region volname : string) : M (list json) :=
  r <- _do_api_get (Volumes region) ;;
  listing <- lift (json_of r) ;;
  items <- lift (iter listing) ;;
  lift (filterM (named volname) items).

(** The test [deleteVolumeByVolumeID] makes on the body of a 500. *)
Definition delete_queue_full (reason : json) : outcome bool :=
  obind (contains "message" reason) (fun has =>
  if has then
    obind (getitem reason "message") (fun msg =>
    startswith msg "Error deleting volume - Cannot spawn additional jobs")
  else Ret false).

(** [while retries > 0] (GCPCVS.py 242-257). *)
Fixpoint deleteVolume_loop (retries : nat) (region volumeID : string) (r : option response)
  : M (option response) :=
  match retries with
  | O => ret r
  | S retries' =>
      r' <- requests_delete E (Volume region (JStr volumeID)) ;;
      if status_code r' =? 500 then
        reason <- lift (json_of r') ;;
        full <- lift (delete_queue_full reason) ;;
        if full then
          sleep 60 ;;;
          deleteVolume_loop retries' region volumeID (Some r')
        else ret (Some r')
      else ret (Some r')
  end.

(** GCPCVS.py 230-259. *)
Definition deleteVolumeByVolumeID (region volumeID : string) : M json :=
  last <- deleteVolume_loop 10 region volumeID None ;;
  match last with
  | None => raise UnboundLocalError
  | Some r =>
      lift (raise_for_status r) ;;;
      lift (json_of r)
  end.

(** GCPCVS.py 365-377. *)
Definition getBackups (region : string) : M json :=
  r <- _do_api_get (Backups region) ;;
  lift (json_of r).

End Client.
End GCPCVS.

(** ** Class [gcpcvs] (gcpcvs/gcpcvs.py) *)

Module gcpcvs.

Definition class_defs : list string :=
  ["__init__"; "__str__"; "getProjectNumber"; "getProjectID"; "_log_response";
   "_do_api_get"; "_API_getAll"; "_do_api_post"; "_do_api_delete"; "is_type_cvs";
   "is_type_cvs_performance"; "getVersionByRegion"; "getPoolsByRegion"; "getPoolsByName";
   "getPoolsByPoolID"; "createPool"; "_modifyPoolByPoolID"; "resizePoolByPoolID";
   "deletePoolByPoolID"; "getVolumesByRegion"; "getVolumesByName"; "getVolumesByVolumeID";
   "_modifyVolumeByVolumeID"; "resizeVolumeByVolumeID"; "setServiceLevelByVolumeID";
   "createVolume"; "deleteVolumeByVolumeID"; "translateServiceLevelAPI2UI";
   "translateServiceLevelUI2API"; "getSnapshotsByRegion"; "deleteSnapshotBySnapshotID";
   "getVolumeReplicationByRegion"; "getVolumeReplicationByID"; "getVolumeReplicationByName";
   "createVolumeReplication"; "breakVolumeReplicationByID"; "resyncVolumeReplicationByID";
   "createReverseVolumeReplicationByID"; "deleteVolumeReplicationByID"; "getBackups";
   "getBackupsByVolumeID"; "createBackup"; "rotateBackup"; "deleteBackupByBackupID";
   "deleteBackupByName"; "deleteAllBackupsByVolumeID"; "getKMSConfigurationByRegion";
   "getKMSConfigurationByID"; "deleteKMSConfigurationByID";
   "getActiveDirectoryConfigurationByRegion"; "getActiveDirectoryConfigurationByID"].

Section Client.
Variable E : Env.

(** gcpcvs.py 82-85. *)
Definition _do_api_get (u : endpoint) : M response :=
  r <- requests_get E u ;;
  lift (raise_for_status r) ;;;
  ret r.

(** The test made on the body of a 500: [msg] is its "message" if it has
    one and "error" otherwise, and the queue is full when [msg] contains
    "Cannot spawn additional jobs". *)
Definition job_queue_full (reason : json) : outcome bool :=
  obind (contains "message" reason) (fun has =>
  obind (if has then getitem reason "message" else Ret (JStr "error")) (fun msg =>
  contains "Cannot spawn additional jobs" msg)).

(** One pass of the [while True] of [_do_api_post] (gcpcvs.py 104-144)
    and of [_do_api_delete] (157-197); the two bodies differ only in the
    request [q] they send. *)
Definition retry_pass (q : request) (timeout_seconds target_time : Z) : M (response * ctl) :=
  r <- send E q ;;
  reason <- lift (json_of r) ;;
  if timeout_seconds =? 0 then ret (r, Break)
  else if in_codes (status_code r) [200; 202] then ret (r, Break)
  else
    stop <-
      (if in_codes (status_code r) [429; 409; 500] then
         leave <-
           (if status_code r =? 500 then
              full <- lift (job_queue_full reason) ;;
              ret (negb full)
            else ret false) ;;
         if leave then ret true
         else
           d <- randrange E 50 70 ;;
           sleep d ;;;
           ret false
       else ret true) ;;
    if stop then ret (r, Break)
    else
      t <- now E ;;
      if target_time <=? t then ret (r, Break) else ret (r, Continue).

Fixpoint retry_loop (fuel : nat) (q : request) (timeout_seconds target_time : Z) : M response :=
  match fuel with
  | O => out_of_fuel
  | S fuel' =>
      rc <- retry_pass q timeout_seconds target_time ;;
      match snd rc with
      | Break => ret (fst rc)
      | Continue => retry_loop fuel' q timeout_seconds target_time
      end
  end.

(** The common body of the two methods: deadline, loop,
    [raise_for_status]. *)
Definition retrying (fuel : nat) (q : request) (timeout_seconds : Z) : M response :=
  t0 <- now E ;;
  delta <- lift (Datetime.timedelta_seconds timeout_seconds) ;;
  target_time <- lift (Datetime.add t0 delta) ;;
  r <- retry_loop fuel q timeout_seconds target_time ;;
  lift (raise_for_status r) ;;;
  ret r.

(** gcpcvs.py 100-146. *)
Definition _do_api_post (fuel : nat) (u : endpoint) (payload : json) (timeout_seconds : Z)
  : M response :=
  retrying fuel (mkRequest POST u (Some payload)) timeout_seconds.

(** gcpcvs.py 153-199. *)
Definition _do_api_delete (fuel : nat) (u : endpoint) (timeout_seconds : Z) : M response :=
  retrying fuel (mkRequest DELETE u None) timeout_seconds.

(** gcpcvs.py 417-430. *)
Definition getVolumesByVolumeID (region volumeID : string) : M json :=
  r <- _do_api_get (Volume region (JStr volumeID)) ;;
  lift (json_of r).

(** gcpcvs.py 537-579. *)
Definition serviceLevelsAPI : list (string * string) :=
  [("basic", "standard"); ("standard", "premium"); ("extreme", "extreme");
   ("standard-sw", "standard-sw")].

Definition translateServiceLevelAPI2UI (serviceLevel : string) : option string :=
  dict_get serviceLevel serviceLevelsAPI.

Definition serviceLevelsUI : list (string * string) :=
  [("standard", "basic"); ("premium", "standard"); ("extreme", "extreme");
   ("standard-sw", "standard-sw")].

Definition translateServiceLevelUI2API (serviceLevel : string) : option string :=
  dict_get serviceLevel serviceLevelsUI.

(** The wait of [breakVolumeReplicationByID] (gcpcvs.py 720-734): poll
    every 15 s; leave on "available", raise on "error", give up 5 minutes
    after [start]. *)
Fixpoint break_wait (fuel : nat) (destination_region relationshipID : string) (start : Z)
  : M json :=
  match fuel with
  | O => out_of_fuel
  | S fuel' =>
      sleep 15 ;;;
      res <- _do_api_get (VolumeReplication destination_region relationshipID) ;;
      v <- lift (json_of res) ;;
      state <- lift (getitem v "lifeCycleState") ;;
      if is_str "available" state then ret v
      else if is_str "error" state then
        details <- lift (getitem v "lifeCycleStateDetails") ;;
        raise (RuntimeError details)
      else
        t <- now E ;;
        if start + 5 * 60 * 1000000 <? t then raise TimeoutError
        else break_wait fuel' destination_region relationshipID start
  end.

(** gcpcvs.py 703-735. *)
Definition breakVolumeReplicationByID (fuel : nat) (destination_region relationshipID : string)
  (force : bool) : M json :=
  let payload := JDict [("force", JBool force)] in
  _do_api_post fuel (VolumeReplicationBreak destination_region relationshipID) payload 600 ;;;
  start <- now E ;;
  break_wait fuel destination_region relationshipID start.

(** gcpcvs.py 826-839. *)
Definition getBackupsByVolumeID (region volumeID : string) : M json :=
  r <- _do_api_get (VolumeBackups region volumeID) ;;
  lift (json_of r).

(** Poll every 5 s until the state is "available" (gcpcvs.py 863-870). *)
Fixpoint createBackup_wait (fuel : nat) (region : string) (backupID : json) : M unit :=
  match fuel with
  | O => out_of_fuel
  | S fuel' =>
      sleep 5 ;;;
      r <- _do_api_get (Backup region backupID) ;;
      v <- lift (json_of r) ;;
      status <- lift (getitem v "lifeCycleState") ;;
      if is_str "available" status then ret tt
      else createBackup_wait fuel' region backupID
  end.

(** gcpcvs.py 842-875. *)
Definition createBackup (fuel : nat) (region volumeID name : string) : M bool :=
  let body := JDict [("name", JStr name); ("volumeId", JStr volumeID)] in
  r <- _do_api_post fuel (Backups region) body (10 * 60) ;;
  if (status_code r =? 201) || (status_code r =? 202) then
    v <- lift (json_of r) ;;
    a <- lift (getitem v "response") ;;
    b <- lift (getitem a "AnyValue") ;;
    backupID <- lift (getitem b "backupId") ;;
    createBackup_wait fuel region backupID ;;;
    ret true
  else ret false.

(** gcpcvs.py 925-934. *)
Definition deleteBackupByBackupID (fuel : nat) (region : string) (backupID : json) : M bool :=
  r <- _do_api_delete fuel (Backup region backupID) (10 * 60) ;;
  ret (in_codes (status_code r) [200; 202]).

(** Attribute lookup on an instance of the class. *)
Definition getattr (fuel : nat) (name : string) : option attribute :=
  if String.eqb name "deleteBackupByBackupID" then Some (Method2 (deleteBackupByBackupID fuel))
  else if existsb (String.eqb name) (class_defs ++ class_fields) then Some Other
  else None.

Definition self (fuel : nat) : instance :=
  mkInstance getBackupsByVolumeID getVolumesByVolumeID (createBackup fuel) (getattr fuel).

Definition rotateBackup (fuel : nat) (region volumeID : string) (count : Z) : M bool :=
  rotateBackup E (self fuel) region volumeID count.

(** gcpcvs.py 201-215. *)
Definition available_sw_regions : list string :=
  ["asia-east2"; "asia-northeast2"; "asia-northeast3"; "asia-south1"; "asia-south2";
   "asia-southeast2"; "australia-southeast2"; "europe-central2"; "europe-north1";
   "europe-west1"; "europe-west6"; "southamerica-east1"; "us-east1"; "us-west1"].

Definition is_type_cvs (region : string) : bool :=
  existsb (String.eqb region) available_sw_regions.

(** gcpcvs.py 217-231. *)
Definition available_hw_regions : list string :=
  ["asia-northeast1"; "asia-southeast1"; "australia-southeast1"; "europe-west2";
   "europe-west3"; "europe-west4"; "europe-southwest1"; "northamerica-northeast1";
   "northamerica-northeast2"; "us-central1"; "us-east4"; "us-west2"; "us-west3"; "us-west4"].

Definition is_type_cvs_performance (region : string) : bool :=
  existsb (String.eqb region) available_hw_regions.

(** gcpcvs.py 382-394. *)
Definition getVolumesByRegion (region : string) : M json :=
  r <- _do_api_get (Volumes region) ;;
  lift (json_of r).

(** [getVolumesByVolumeID] (gcpcvs.py 417-430) called with an id read
    from a listing. *)
Definition volume_by_id (region : string) (volumeID : json) : M json :=
  r <- _do_api_get (Volume region volumeID) ;;
  lift (json_of r).

(** gcpcvs.py 396-415. *)
Definition getVolumesByName (region name : string) : M (list json) :=
  r <- _do_api_get (Volumes region) ;;
  listing <- lift (json_of r) ;;
  items <- lift (iter listing) ;;
  vols <- lift (filterM (named name) items) ;;
  if (List.length vols =? 1)%nat then
    match vols with
    | v0 :: _ =>
        volumeId <- lift (getitem v0 "volumeId") ;;
        volume <- volume_by_id region volumeId ;;
        ret [volume]
    | [] => raise IndexError
    end
  else ret [].

(** gcpcvs.py 518-530. *)
Definition deleteVolumeByVolumeID (fuel : nat) (region volumeID : string) : M json :=
  r <- _do_api_delete fuel (Volume region (JStr volumeID)) (10 * 60) ;;
  lift (json_of r).

(** gcpcvs.py 631-644. *)
Definition getVolumeReplicationByID (region relationshipID : string) : M json :=
  r <- _do_api_get (VolumeReplication region relationshipID) ;;
  lift (json_of r).

(** gcpcvs.py 793-806. *)
Definition deleteVolumeReplicationByID (fuel : nat) (region relationshipID : string) : M json :=
  r <- _do_api_delete fuel (VolumeReplication region relationshipID) (10 * 60) ;;
  lift (json_of r).

(** gcpcvs.py 812-824. *)
Definition getBackups (region : string) : M json :=
  r <- _do_api_get (Backups region) ;;
  lift (json_of r).

End Client.
End gcpcvs.

(** ** The two classes side by side *)

Inductive client : Type := OldClient | NewClient.   (* GCPCVS.py, gcpcvs/gcpcvs.py *)

Definition self_of (c : client) (E : Env) (fuel : nat) : instance :=
  match c with
  | OldClient => GCPCVS.self E fuel
  | NewClient => gcpcvs.self E fuel
  end.

Definition rotateBackup_of (c : client) (E : Env) (fuel : nat) : string -> string -> Z -> M bool :=
  match c with
  | OldClient => GCPCVS.rotateBackup E fuel
  | NewClient => gcpcvs.rotateBackup E fuel
  end.

Definition createBackup_of (c : client) (E : Env) (fuel : nat) : string -> string -> string -> M bool :=
  match c with
  | OldClient => GCPCVS.createBackup E fuel
  | NewClient => gcpcvs.createBackup E fuel
  end.

(** An instance of the class whose attribute table is [ga]: the class's
    own table for a plain instance, another one for an instance or
    subclass that binds further names. *)
Definition with_attrs (s : instance) (ga : string -> option attribute) : instance :=
  mkInstance (self_getBackupsByVolumeID s) (self_getVolumesByVolumeID s)
             (self_createBackup s) ga.

(** Runs [f] on the items of [l] in list order, stopping at the first
    that does not return. *)
Fixpoint for_each {A B} (f : A -> M B) (l : list A) : M unit :=
  match l with
  | [] => ret tt
  | x :: l' => f x ;;; for_each f l'
  end.

Definition deletes (es : trace) : list event := filter is_delete es.

Fixpoint descending (l : list Z) : Prop :=
  match l with
  | [] => True
  | x :: l' => Forall (fun y => y <= x) l' /\ descending l'
  end.

(** The name [rotateBackup] gives a new backup of the volume: the volume
    name, the first six characters of the volume id and a timestamp
    [YYYY-MM-DDTHH:MM]. *)
Definition timestamp_shape : list Re.atom :=
  [Re.Digit; Re.Digit; Re.Digit; Re.Digit; Re.Lit "-"; Re.Digit; Re.Digit; Re.Lit "-";
   Re.Digit; Re.Digit; Re.Lit "T"; Re.Digit; Re.Digit; Re.Lit ":"; Re.Digit; Re.Digit]%char.

Definition is_timestamp (s : string) : bool :=
  (String.length s =? 16)%nat && Re.prefix_match timestamp_shape s.

Definition generated_name (volumename volumeID name : string) : Prop :=
  exists ts, is_timestamp ts = true /\
    name = (volumename ++ "-" ++ substring 0 6 volumeID ++ "-" ++ ts)%string.

(** The events [es], emitted after the history [h], end with a read of a
    backup that the service answered with the state "available". *)
Definition saw_available (E : Env) (region : string) (h es : trace) : Prop :=
  exists es' backupID last v,
    es = (es' ++ [Sent (mkRequest GET (Backup region backupID) None)])%list
    /\ respond E (h ++ es')%list (mkRequest GET (Backup region backupID) None) = Some last
    /\ body last = Some v
    /\ getitem v "lifeCycleState" = Ret (JStr "available").

(** ** Scripted services used as concrete inputs *)

Module Fixture.

Definition noon : Z := 63850674612000005.   (* 2024-05-07T10:30:12.000005 *)

Definition noon_in_range (_ : trace) : 0 <= noon < Datetime.span :=
  conj (proj1 (Z.leb_le 0 noon) eq_refl) (proj1 (Z.ltb_lt noon Datetime.span) eq_refl).

Definition ok (v : json) : option response := Some (mkResponse 200 (Some v)).

Definition backup (name id created : string) : json :=
  JDict [("name", JStr name); ("backupId", JStr id); ("created", JStr created)].

Definition region : string := "us-east1".
Definition volumeID : string := "abcdef12-0000".

Definition b1 := backup "vol1-abcdef-2024-05-01T02:00" "b1" "2024-05-01T02:00:41.000Z".
Definition b2 := backup "vol1-abcdef-2024-05-02T02:00" "b2" "2024-05-02T02:00:40.000Z".
Definition b3 := backup "vol1-abcdef-2024-05-03T02:00" "b3" "2024-05-03T02:00:43.000Z".
Definition b4 := backup "vol1-abcdef-2024-05-04T02:00" "b4" "2024-05-04T02:00:39.000Z".
Definition b5 := backup "vol1-abcdef-2024-05-05T02:00" "b5" "2024-05-05T02:00:44.000Z".
Definition b6 := backup "vol1-abcdef-2024-05-06T02:00" "b6" "2024-05-06T02:00:40.000Z".
Definition b7 := backup "vol1-abcdef-2024-05-07T10:30" "b7" "2024-05-07T10:30:13.000Z".
Definition m1 := backup "before-upgrade" "m1" "2024-04-30T09:00:00.000Z".
Definition m2 := backup "vol1-manual-copy" "m2" "2024-05-06T15:00:00.000Z".

Definition posted (e : event) : bool :=
  match e with
  | Sent (mkRequest POST (Backups _) _) => true
  | _ => false
  end.

(** A volume "vol1" with six rotation backups and two manual ones; a POST
    to Backups is accepted (202) and adds [b7], which is available at the
    first poll; a DELETE answers 200. *)
Definition rotation_service (h : trace) (q : request) : option response :=
  match q with
  | mkRequest GET (VolumeBackups _ _) _ =>
      if existsb posted h
      then ok (JList [b3; m1; b7; b1; b5; m2; b2; b6; b4])
      else ok (JList [b3; m1; b1; b5; m2; b2; b6; b4])
  | mkRequest GET (Volume _ _) _ =>
      ok (JList [JDict [("name", JStr "vol1"); ("volumeId", JStr volumeID)]])
  | mkRequest POST (Backups _) _ =>
      Some (mkResponse 202
              (Some (JDict [("response", JDict [("AnyValue", JDict [("backupId", JStr "b7")])])])))
  | mkRequest GET (Backup _ _) _ => ok (JDict [("lifeCycleState", JStr "available")])
  | mkRequest DELETE (Backup _ _) _ => ok (JDict [])
  | _ => Some (mkResponse 404 (Some (JDict [("message", JStr "not found")])))
  end.

Definition rotation_env : Env :=
  mkEnv rotation_service (fun _ => noon) (fun _ => 0) noon_in_range.

(** Every request is answered with the same response. *)
Definition constant_env (r : response) : Env :=
  mkEnv (fun _ _ => Some r) (fun _ => noon) (fun _ => 0) noon_in_range.

Definition message (s : string) : json := JDict [("message", JStr s)].

(** A backup is accepted (202) and then reports the state "error" at
    every poll; so does a replication relationship after its break. *)
Definition failing_service (h : trace) (q : request) : option response :=
  match q with
  | mkRequest POST _ _ =>
      Some (mkResponse 202
              (Some (JDict [("response", JDict [("AnyValue", JDict [("backupId", JStr "b9")])])])))
  | _ =>
      ok (JDict [("lifeCycleState", JStr "error");
                 ("lifeCycleStateDetails", JStr "Backup failed")])
  end.

Definition failing_env : Env :=
  mkEnv failing_service (fun _ => noon) (fun _ => 0) noon_in_range.

(** [n] rounds of the backup wait: sleep 5 s, read the backup. *)
Fixpoint polls (n : nat) : trace :=
  match n with
  | O => []
  | S n' => Slept 5 :: Sent (mkRequest GET (Backup region (JStr "b9")) None) :: polls n'
  end.

Definition queue_full_500 : response :=
  mkResponse 500 (Some (message "Error creating volume - Cannot spawn additional jobs")).

Definition other_500 : response :=
  mkResponse 500 (Some (message "Internal error")).

End Fixture.

(** ** Reference behaviours the executor is compared with *)

(** One exchange and nothing else: the transport's failure, an unreadable
    body, [HTTPError] for a 4xx or 5xx status, the response otherwise. *)
Definition single_attempt (E : Env) (h : trace) (q : request) : outcome response :=
  match respond E h q with
  | None => Raise ConnectionError
  | Some r =>
      match body r with
      | None => Raise JSONDecodeError
      | Some _ =>
          if (400 <=? status_code r) && (status_code r <? 600)
          then Raise (HTTPError (status_code r))
          else Ret r
      end
  end.

(** The keys of the two translators. *)
Definition api_names : list string := ["basic"; "standard"; "extreme"; "standard-sw"].
Definition ui_names : list string := ["standard"; "premium"; "extreme"; "standard-sw"].

(** No event of [es] is a DELETE request. *)
Definition quiet (e : event) : bool := negb (is_delete e).

(** [m] only ever emits events accepted by [P]. *)
Definition emits {A} (P : event -> bool) (m : M A) : Prop :=
  forall h, forallb P (snd (m h)) = true.

(** ** Backup methods with the same text in both classes *)

Section BackupsByName.
Variable self : instance.

(** [deleteBackupByName] (GCPCVS.py 495-503, gcpcvs.py 937-945).  The
    listing is asked of [self.getBackupsByVolume], a name that goes through
    the attribute table; what a [(region, id)] method of the table returns
    is a [bool], which the comprehension then iterates over. *)
Definition deleteBackupByName (region volumeID name : string) : M bool :=
  match self_getattr self "getBackupsByVolume" with
  | None => raise AttributeError
  | Some Other => raise TypeError
  | Some (Method2 f) =>
      backups <- f region (JStr volumeID) ;;
      items <- lift (iter (JBool backups)) ;;
      backupID <- lift (filterM (named name) items) ;;
      if (List.length backupID =? 1)%nat then
        match backupID with
        | b0 :: _ => call_deleteBackupbyBackupID self region b0
        | [] => raise IndexError
        end
      else ret false
  end.

(** [deleteAllBackupsByVolumeID] (GCPCVS.py 507-511, gcpcvs.py 949-953). *)
Definition deleteAllBackupsByVolumeID (region volumeID : string) : M unit :=
  listing <- self_getBackupsByVolumeID self region volumeID ;;
  items <- lift (iter listing) ;;
  for_each (call_deleteBackupbyBackupID self region) items.

End BackupsByName.

(** ** Measures of a run *)

(** The seconds slept in a run. *)
Fixpoint slept (es : trace) : Z :=
  match es with
  | [] => 0
  | Slept d :: es' => d + slept es'
  | Sent _ :: es' => slept es'
  end.

Definition is_sent (e : event) : bool :=
  match e with
  | Sent _ => true
  | Slept _ => false
  end.

(** The number of requests sent in a run. *)
Definition attempts (es : trace) : nat := List.length (filter is_sent es).

(** An event that is not a request. *)
Definition silent (e : event) : bool := negb (is_sent e).

(** ** A service under load, with a clock that runs *)

(** The clock starts at [Fixture.noon] and advances by the time slept. *)
Definition ticking (h : trace) : Z :=
  Z.max 0 (Z.min (Fixture.noon + 1000000 * slept h) (Datetime.span - 1)).

Definition ticking_in_range (h : trace) : 0 <= ticking h < Datetime.span :=
  conj (Z.le_max_l 0 _)
       (Z.max_lub_lt _ _ _ (proj1 (Z.ltb_lt 0 Datetime.span) eq_refl)
          (Z.le_lt_trans _ _ _ (Z.le_min_r _ _)
             (proj1 (Z.ltb_lt (Datetime.span - 1) Datetime.span) eq_refl))).

(** Every request is answered with [r]; time passes while the client
    sleeps. *)
Definition busy_env (r : response) : Env :=
  mkEnv (fun _ _ => Some r) ticking (fun _ => 0) ticking_in_range.

Definition too_many_requests : response :=
  mkResponse 429 (Some (Fixture.message "Too many requests")).

(** [n] rounds of a loop that sends [q] and then sleeps [d] seconds. *)
Fixpoint rounds (n : nat) (q : request) (d : Z) : trace :=
  match n with
  | O => []
  | S n' => Sent q :: Slept d :: rounds n' q d
  end.

(** The service has no job slot: every request is answered with a 500
    whose message is [msg]. *)
Definition no_job_slot (msg : string) : Env :=
  Fixture.constant_env (mkResponse 500 (Some (Fixture.message msg))).

(** ** Names the rotation pattern is built from *)

(** A text without a regex metacharacter. *)
Fixpoint plain (s : string) : bool :=
  match s with
  | EmptyString => true
  | String c s' => negb (Re.is_meta c) && plain s'
  end.

(** The pattern a plain text compiles to: itself, character by character. *)
Fixpoint literal (s : string) : list Re.atom :=
  match s with
  | EmptyString => []
  | String c s' => Re.Lit c :: literal s'
  end.

(** A text without a line feed. *)
Fixpoint one_line (s : string) : bool :=
  match s with
  | EmptyString => true
  | String c s' => negb (Ascii.eqb c "010") && one_line s'
  end.

(** ** Services whose long-running operations do not succeed *)

(** Every read reports the state [state]; a POST is accepted (202) and
    names the volume "v9". *)
Definition stuck_service (state : string) (h : trace) (q : request) : option response :=
  match q with
  | mkRequest POST _ _ =>
      Some (mkResponse 202
              (Some (JDict [("response", JDict [("AnyValue", JDict [("volumeId", JStr "v9")])])])))
  | _ => Fixture.ok (JDict [("lifeCycleState", JStr state)])
  end.

Definition stuck_env (state : string) : Env :=
  mkEnv (stuck_service state) ticking (fun _ => 0) ticking_in_range.

(** ** The methods that read one object or one listing *)

Inductive read : Type :=
| VolumesOf (c : client) (region : string)
| VolumeOf (c : client) (region volumeID : string)
| BackupsOf (c : client) (region : string)
| BackupsOfVolume (c : client) (region volumeID : string)
| ReplicationOf (region relationshipID : string).

Definition read_call (E : Env) (x : read) : M json :=
  match x with
  | VolumesOf OldClient region => GCPCVS.getVolumesByRegion E region
  | VolumesOf NewClient region => gcpcvs.getVolumesByRegion E region
  | VolumeOf OldClient region volumeID => GCPCVS.getVolumesByVolumeID E region volumeID
  | VolumeOf NewClient region volumeID => gcpcvs.getVolumesByVolumeID E region volumeID
  | BackupsOf OldClient region => GCPCVS.getBackups E region
  | BackupsOf NewClient region => gcpcvs.getBackups E region
  | BackupsOfVolume OldClient region volumeID => GCPCVS.getBackupsByVolumeID E region volumeID
  | BackupsOfVolume NewClient region volumeID => gcpcvs.getBackupsByVolumeID E region volumeID
  | ReplicationOf region relationshipID => gcpcvs.getVolumeReplicationByID E region relationshipID
  end.

(** The URL each of them reads. *)
Definition read_url (x : read) : endpoint :=
  match x with
  | VolumesOf _ region => Volumes region
  | VolumeOf _ region volumeID => Volume region (JStr volumeID)
  | BackupsOf _ region => Backups region
  | BackupsOfVolume _ region volumeID => VolumeBackups region volumeID
  | ReplicationOf region relationshipID => VolumeReplication region relationshipID
  end.

(** The deletions of the newer class that go through [_do_api_delete]
    and hand back the body of its response. *)
Inductive removal : Type :=
| RemoveVolume (region volumeID : string)
| RemoveReplication (region relationshipID : string).

Definition removal_call (E : Env) (fuel : nat) (x : removal) : M json :=
  match x with
  | RemoveVolume region volumeID => gcpcvs.deleteVolumeByVolumeID E fuel region volumeID
  | RemoveReplication region relationshipID =>
      gcpcvs.deleteVolumeReplicationByID E fuel region relationshipID
  end.

(** ** Entries of a listing by name *)

(** [v["name"] == volname] on an entry that has a "name". *)
Definition has_name (volname : string) (v : json) : bool :=
  match getitem v "name" with
  | Ret n => is_str volname n
  | _ => false
  end.

(** ** The names the rotation pattern accepts *)


(** ** An instance on which the pruning call is bound *)

(** The instance of class [c] with one more attribute: the name the
    pruning loop asks for, [deleteBackupbyBackupID], bound to the class's
    own [deleteBackupByBackupID]. *)
Definition bound (c : client) (E : Env) (fuel : nat) : instance :=
  with_attrs (self_of c E fuel)
    (fun name =>
       if String.eqb name "deleteBackupbyBackupID"
       then self_getattr (self_of c E fuel) "deleteBackupByBackupID"
       else self_getattr (self_of c E fuel) name).


(** ** A volume with a backup made by hand *)




(** * Properties *)

Open Scope list_scope.

(** ** Running computations *)

Lemma bind_ret_run {A B} (m : M A) (k : A -> M B) h a es :
  m h = (Ret a, es) ->
  bind m k h = (fst (k a (h ++ es)%list), (es ++ snd (k a (h ++ es)%list))%list).
Proof.
  intros H. unfold bind. rewrite H. destruct (k a (h ++ es)%list); reflexivity.
Qed.

Lemma bind_raise_run {A B} (m : M A) (k : A -> M B) h e es :
  m h = (Raise e, es) -> bind m k h = (Raise e, es).
Proof. intros H. unfold bind. rewrite H. reflexivity. Qed.

Lemma bind_fuel_run {A B} (m : M A) (k : A -> M B) h es :
  m h = (OutOfFuel, es) -> bind m k h = (OutOfFuel, es).
Proof. intros H. unfold bind. rewrite H. reflexivity. Qed.

Lemma bind_lift_ret {A B} (a : A) (k : A -> M B) h :
  bind (lift (Ret a)) k h = k a h.
Proof.
  unfold bind, lift. rewrite app_nil_r. destruct (k a h); reflexivity.
Qed.

Lemma bind_ret {A B} (a : A) (k : A -> M B) h : bind (ret a) k h = k a h.
Proof. apply (bind_lift_ret a k h). Qed.

Lemma bind_lift_raise {A B} (e : exn) (k : A -> M B) h :
  bind (lift (Raise e)) k h = (Raise e, []).
Proof. reflexivity. Qed.

Lemma bind_now {A} E (k : Z -> M A) h : bind (now E) k h = k (clock E h) h.
Proof.
  unfold bind, now. rewrite app_nil_r. destruct (k (clock E h) h); reflexivity.
Qed.

Lemma bind_prefix {A B} (m : M A) (k : A -> M B) h :
  exists rest, snd (bind m k h) = (snd (m h) ++ rest)%list.
Proof.
  unfold bind. destruct (m h) as [[a | e |] es]; simpl;
    try (exists []; rewrite app_nil_r; reflexivity).
  destruct (k a (h ++ es)%list) as [o es']. exists es'. reflexivity.
Qed.

Lemma bind_sleep {A} n (k : unit -> M A) h :
  bind (sleep n) k h = (fst (k tt (h ++ [Slept n])), Slept n :: snd (k tt (h ++ [Slept n]))).
Proof. unfold bind, sleep. destruct (k tt (h ++ [Slept n])); reflexivity. Qed.

(** ** Which events a computation can emit *)

Section Emits.
Context {P : event -> bool}.

Lemma emits_ret {A} (a : A) : emits P (ret a).
Proof. intro h. reflexivity. Qed.

Lemma emits_raise {A} (e : exn) : emits P (@raise A e).
Proof. intro h. reflexivity. Qed.

Lemma emits_lift {A} (o : outcome A) : emits P (lift o).
Proof. intro h. reflexivity. Qed.

Lemma emits_out_of_fuel {A} : emits P (@out_of_fuel A).
Proof. intro h. reflexivity. Qed.

Lemma emits_bind {A B} (m : M A) (k : A -> M B) :
  emits P m -> (forall a, emits P (k a)) -> emits P (bind m k).
Proof.
  intros Hm Hk h. unfold bind. specialize (Hm h).
  destruct (m h) as [[a | e |] es]; simpl in *; auto.
  specialize (Hk a (h ++ es)%list).
  destruct (k a (h ++ es)%list) as [o es']; simpl in *.
  rewrite forallb_app, Hm, Hk. reflexivity.
Qed.

Lemma emits_send E q : P (Sent q) = true -> emits P (send E q).
Proof.
  intros H h. unfold send. destruct (respond E h q); simpl; rewrite H; reflexivity.
Qed.

Lemma emits_sleep n : P (Slept n) = true -> emits P (sleep n).
Proof. intros H h. simpl. rewrite H. reflexivity. Qed.

Lemma emits_now E : emits P (now E).
Proof. intro h. reflexivity. Qed.

Lemma emits_randrange E lo hi : emits P (randrange E lo hi).
Proof. intro h. reflexivity. Qed.

End Emits.

Create HintDb emits.
#[local] Hint Resolve emits_ret emits_raise emits_lift emits_out_of_fuel emits_now
  emits_randrange : emits.

(** Walks the shape of a method body, leaving the calls it does not know. *)
Ltac emits_step :=
  match goal with
  | |- emits _ (bind _ _) => apply emits_bind; [ | intro ]
  | |- emits _ (ret _) => apply emits_ret
  | |- emits _ (raise _) => apply emits_raise
  | |- emits _ (lift _) => apply emits_lift
  | |- emits _ out_of_fuel => apply emits_out_of_fuel
  | |- emits _ (now _) => apply emits_now
  | |- emits _ (randrange _ _ _) => apply emits_randrange
  | |- emits _ (sleep _) => apply emits_sleep; reflexivity
  | |- emits _ (send _ _) => apply emits_send; reflexivity
  | |- emits _ (requests_get _ _) => apply emits_send; reflexivity
  | |- emits _ (requests_post _ _ _) => apply emits_send; reflexivity
  | |- emits _ (if ?c then _ else _) => destruct c
  | |- emits _ (match ?x with _ => _ end) => destruct x
  | |- emits _ _ => assumption
  end.

Ltac emits_walk := repeat emits_step; eauto with emits.

Lemma get_quiet_old E u : emits quiet (GCPCVS._do_api_get E u).
Proof. unfold GCPCVS._do_api_get. emits_walk. Qed.

Lemma get_quiet_new E u : emits quiet (gcpcvs._do_api_get E u).
Proof. unfold gcpcvs._do_api_get. emits_walk. Qed.

#[local] Hint Resolve get_quiet_old get_quiet_new : emits.

Lemma createBackup_wait_quiet_old E fuel region b :
  emits quiet (GCPCVS.createBackup_wait E fuel region b).
Proof. induction fuel; simpl; emits_walk. Qed.

Lemma createBackup_wait_quiet_new E fuel region b :
  emits quiet (gcpcvs.createBackup_wait E fuel region b).
Proof. induction fuel; simpl; emits_walk. Qed.

Lemma retry_pass_quiet E q t tt' :
  quiet (Sent q) = true -> emits quiet (gcpcvs.retry_pass E q t tt').
Proof.
  intros Hq. unfold gcpcvs.retry_pass.
  apply emits_bind; [ apply emits_send; exact Hq | intro ]. emits_walk.
Qed.

Lemma retry_loop_quiet E fuel q t tt' :
  quiet (Sent q) = true -> emits quiet (gcpcvs.retry_loop E fuel q t tt').
Proof.
  intros Hq. induction fuel; simpl; [ emits_walk | ].
  apply emits_bind; [ apply retry_pass_quiet; exact Hq | intro rc ].
  destruct (snd rc); emits_walk.
Qed.

Lemma retrying_quiet E fuel q t :
  quiet (Sent q) = true -> emits quiet (gcpcvs.retrying E fuel q t).
Proof.
  intros Hq. unfold gcpcvs.retrying.
  do 3 (apply emits_bind; [ emits_walk | intro ]).
  apply emits_bind; [ apply retry_loop_quiet; exact Hq | intro ]. emits_walk.
Qed.

Lemma createBackup_quiet c E fuel region volumeID name :
  emits quiet (createBackup_of c E fuel region volumeID name).
Proof.
  destruct c; simpl.
  - unfold GCPCVS.createBackup. emits_walk. apply createBackup_wait_quiet_old.
  - unfold gcpcvs.createBackup, gcpcvs._do_api_post.
    apply emits_bind; [ apply retrying_quiet; reflexivity | intro ].
    emits_walk. apply createBackup_wait_quiet_new.
Qed.

(** ** Inverting a run that returned *)

Lemma bind_inv_ret {A B} (m : M A) (k : A -> M B) h (b : B) es :
  bind m k h = (Ret b, es) ->
  exists a es1 es2,
    m h = (Ret a, es1) /\ k a (h ++ es1)%list = (Ret b, es2) /\ es = (es1 ++ es2)%list.
Proof.
  unfold bind. destruct (m h) as [[a | e |] es1]; try discriminate.
  destruct (k a (h ++ es1)%list) as [o es2] eqn:Hk. intros H. inversion H; subst.
  exists a, es1, es2. auto.
Qed.

Lemma lift_inv_ret {A} (o : outcome A) h (a : A) es :
  lift o h = (Ret a, es) -> o = Ret a /\ es = [].
Proof. unfold lift. intros H. inversion H. auto. Qed.

Lemma ret_inv {A} (x a : A) h es : ret x h = (Ret a, es) -> x = a /\ es = [].
Proof. unfold ret. intros H. inversion H. auto. Qed.

Lemma now_inv E h t es : now E h = (Ret t, es) -> t = clock E h /\ es = [].
Proof. unfold now. intros H. inversion H. auto. Qed.

Lemma sleep_inv n h (u : unit) es : sleep n h = (Ret u, es) -> es = [Slept n].
Proof. unfold sleep. intros H. inversion H. reflexivity. Qed.

(** Splits a returned run of a method body into the runs of its calls. *)
Ltac inv_run :=
  repeat match goal with
  | H : bind _ _ _ = (Ret _, _) |- _ =>
      apply bind_inv_ret in H; destruct H as (? & ? & ? & ? & H & ->)
  | H : lift _ _ = (Ret _, _) |- _ => apply lift_inv_ret in H; destruct H as [H ->]
  | H : ret _ _ = (Ret _, _) |- _ => apply ret_inv in H; destruct H as [H ->]
  | H : now _ _ = (Ret _, _) |- _ => apply now_inv in H; destruct H as [H ->]
  | H : sleep _ _ = (Ret _, _) |- _ => apply sleep_inv in H; subst
  | H : raise _ _ = (Ret _, _) |- _ => discriminate H
  | H : (if ?c then _ else _) _ = (Ret _, _) |- _ => destruct c eqn:?
  end.

(** ** Lists: filtering, keys, sorting *)


Lemma mapM_combine {A B} (f : A -> outcome B) l r :
  mapM f l = Ret r ->
  List.length r = List.length l /\
  Forall (fun kb => f (snd kb) = Ret (fst kb)) (combine r l).
Proof.
  revert r. induction l as [| y l IH]; simpl; intros r H.
  - inversion H; subst. auto.
  - destruct (f y) as [k | |] eqn:Hf; simpl in H; try discriminate.
    destruct (mapM f l) as [r' | |]; simpl in H; try discriminate.
    inversion H; subst. destruct (IH r' eq_refl) as [Hl Hall]. simpl. split.
    + congruence.
    + constructor; auto.
Qed.

Lemma mapM_of_pairs {A B} (f : A -> outcome B) (l : list (B * A)) :
  Forall (fun kb => f (snd kb) = Ret (fst kb)) l ->
  mapM f (map snd l) = Ret (map fst l).
Proof.
  induction 1 as [| kb l Hkb _ IH]; simpl; [ reflexivity | ].
  rewrite Hkb. simpl. rewrite IH. reflexivity.
Qed.

Lemma insert_desc_In x l y : In y (insert_desc x l) <-> y = x \/ In y l.
Proof.
  induction l as [| z l IH]; simpl.
  - intuition.
  - destruct (fst x <? fst z); simpl; [ rewrite IH | ]; intuition.
Qed.

Lemma sort_desc_In l y : In y (sort_desc l) <-> In y l.
Proof.
  induction l as [| x l IH]; simpl; [ tauto | ].
  rewrite insert_desc_In, IH. intuition.
Qed.

Lemma sort_desc_Forall (P : Z * json -> Prop) l : Forall P l -> Forall P (sort_desc l).
Proof.
  rewrite !Forall_forall. intros H y Hy. apply H, sort_desc_In, Hy.
Qed.

Lemma sort_desc_length l : List.length (sort_desc l) = List.length l.
Proof.
  assert (Hi : forall x l, List.length (insert_desc x l) = S (List.length l)).
  { intros x. induction l0 as [| z l0 IH]; simpl; [ reflexivity | ].
    destruct (fst x <? fst z); simpl; [ rewrite IH | ]; reflexivity. }
  induction l as [| x l IH]; simpl; [ reflexivity | ]. rewrite Hi, IH. reflexivity.
Qed.

Lemma insert_desc_descending x l :
  descending (map fst l) -> descending (map fst (insert_desc x l)).
Proof.
  induction l as [| z l IH]; simpl; intros H.
  - split; [ constructor | exact I ].
  - destruct H as [Hz Hl]. destruct (fst x <? fst z) eqn:Hc; simpl.
    + apply Z.ltb_lt in Hc. split; [ | apply IH, Hl ].
      rewrite Forall_forall in *. intros k Hk. apply in_map_iff in Hk.
      destruct Hk as (kb & <- & Hin). apply insert_desc_In in Hin.
      destruct Hin as [-> | Hin]; [ lia | ]. apply Hz, in_map, Hin.
    + apply Z.ltb_ge in Hc. split; [ | split; assumption ].
      constructor; [ exact Hc | ].
      rewrite Forall_forall in *. intros k Hk. specialize (Hz k Hk). lia.
Qed.

Lemma sort_desc_descending l : descending (map fst (sort_desc l)).
Proof.
  induction l as [| x l IH]; simpl; [ exact I | ]. apply insert_desc_descending, IH.
Qed.

Lemma filterM_complete {A} (f : A -> outcome bool) l r :
  filterM f l = Ret r -> forall x, In x l -> f x = Ret true -> In x r.
Proof.
  revert r. induction l as [| y l IH]; simpl; intros r H x Hx Hfx; [ destruct Hx | ].
  destruct (f y) as [keep | |] eqn:Hf; simpl in H; try discriminate.
  destruct (filterM f l) as [r' | |]; simpl in H; try discriminate.
  inversion H; subst. destruct Hx as [-> | Hx].
  - rewrite Hfx in Hf. inversion Hf; subst. left. reflexivity.
  - destruct keep; [ right | ]; apply (IH r' eq_refl x Hx Hfx).
Qed.

Lemma insert_desc_perm x l : Permutation (insert_desc x l) (x :: l).
Proof.
  induction l as [| y l IH]; simpl; [ apply Permutation_refl | ].
  destruct (fst x <? fst y); [ | apply Permutation_refl ].
  apply perm_trans with (y :: x :: l); [ apply perm_skip, IH | apply perm_swap ].
Qed.

Lemma sort_desc_perm l : Permutation (sort_desc l) l.
Proof.
  induction l as [| x l IH]; simpl; [ apply perm_nil | ].
  apply perm_trans with (x :: sort_desc l); [ apply insert_desc_perm | apply perm_skip, IH ].
Qed.

Lemma map_snd_combine_same {A B} (ks : list A) (bs : list B) :
  List.length ks = List.length bs -> map snd (combine ks bs) = bs.
Proof.
  revert bs. induction ks as [| k ks IH]; intros [| b bs] H; simpl in *; try discriminate;
    [ reflexivity | ].
  rewrite IH by congruence. reflexivity.
Qed.

Lemma compile_plain s rest :
  plain s = true ->
  Re.compile (s ++ rest)%string
  = obind (Re.compile rest) (fun p => Ret (literal s ++ p)).
Proof.
  induction s as [| c s IH]; intros Hp.
  - simpl. destruct (Re.compile rest); reflexivity.
  - cbn [plain] in Hp. apply andb_prop in Hp. destruct Hp as [Hc Hs].
    apply negb_true_iff in Hc.
    assert (Hstep : Re.compile (String c (s ++ rest)%string)
                    = obind (Re.compile (s ++ rest)%string) (fun p => Ret (Re.Lit c :: p))).
    { destruct c as [[] [] [] [] [] [] [] []];
        try (vm_compute in Hc; discriminate Hc); reflexivity. }
    change (String c s ++ rest)%string with (String c (s ++ rest)%string).
    rewrite Hstep, (IH Hs). destruct (Re.compile rest); reflexivity.
Qed.

Lemma prefix_match_literal s p t :
  Re.prefix_match (literal s ++ p) (s ++ t)%string = Re.prefix_match p t.
Proof.
  induction s as [| c s IH]; [ reflexivity | ].
  simpl. rewrite Ascii.eqb_refl, IH. reflexivity.
Qed.

(** A comprehension that returned is the filter of its test: same
    entries, same order, same number of times. *)
Lemma filterM_filter {A} (f : A -> outcome bool) l r :
  filterM f l = Ret r ->
  Forall (fun x => exists b, f x = Ret b) l
  /\ r = filter (fun x => match f x with Ret true => true | _ => false end) l.
Proof.
  revert r. induction l as [| y l IH]; simpl; intros r H.
  - inversion H. split; [ constructor | reflexivity ].
  - destruct (f y) as [keep | |] eqn:Hf; simpl in H; try discriminate.
    destruct (filterM f l) as [r' | |]; simpl in H; try discriminate.
    destruct (IH r' eq_refl) as [Hall ->]. inversion H; subst. split.
    + constructor; [ eauto | exact Hall ].
    + destruct keep; reflexivity.
Qed.

(** ** The phases of [rotateBackup] *)

Lemma rotateBackup_of_eq c E fuel :
  rotateBackup_of c E fuel = rotateBackup E (self_of c E fuel).
Proof. destruct c; reflexivity. Qed.

Lemma with_attrs_self c E fuel :
  with_attrs (self_of c E fuel) (self_getattr (self_of c E fuel)) = self_of c E fuel.
Proof. destruct c; reflexivity. Qed.

Lemma createBackup_of_self c E fuel ga :
  self_createBackup (with_attrs (self_of c E fuel) ga) = createBackup_of c E fuel.
Proof. destruct c; reflexivity. Qed.

Lemma getBackups_quiet c E fuel ga region v :
  emits quiet (self_getBackupsByVolumeID (with_attrs (self_of c E fuel) ga) region v).
Proof.
  destruct c; simpl;
    [ unfold GCPCVS.getBackupsByVolumeID | unfold gcpcvs.getBackupsByVolumeID ]; emits_walk.
Qed.

Lemma getVolumes_quiet c E fuel ga region v :
  emits quiet (self_getVolumesByVolumeID (with_attrs (self_of c E fuel) ga) region v).
Proof.
  destruct c; simpl;
    [ unfold GCPCVS.getVolumesByVolumeID | unfold gcpcvs.getVolumesByVolumeID ]; emits_walk.
Qed.

Lemma create_quiet c E fuel ga region volumeID count :
  emits quiet (rotateBackup_create E (with_attrs (self_of c E fuel) ga) region volumeID count).
Proof.
  unfold rotateBackup_create.
  destruct (negb _); [ apply emits_ret | ].
  apply emits_bind; [ apply getBackups_quiet | intro ].
  apply emits_bind; [ apply emits_lift | intro ].
  destruct (_ =? _); [ apply emits_ret | ].
  apply emits_bind; [ apply getVolumes_quiet | intro ].
  do 4 (apply emits_bind; [ emits_walk | intro ]).
  apply emits_bind; [ rewrite createBackup_of_self; apply createBackup_quiet | intro ].
  emits_walk.
Qed.

Lemma select_quiet c E fuel ga region volumeID volumename :
  emits quiet (rotateBackup_select (with_attrs (self_of c E fuel) ga) region volumeID volumename).
Proof.
  unfold rotateBackup_select.
  apply emits_bind; [ apply emits_lift | intro ].
  apply emits_bind; [ apply getBackups_quiet | intro ].
  emits_walk.
Qed.

(** What a returned selection is made of. *)
Lemma select_inv s region volumeID volumename h sorted es :
  rotateBackup_select s region volumeID volumename h = (Ret sorted, es) ->
  exists p listing items backups keys,
    Re.compile (pattern_text volumename) = Ret p /\
    self_getBackupsByVolumeID s region volumeID h = (Ret listing, es) /\
    iter listing = Ret items /\
    filterM (name_matches p) items = Ret backups /\
    mapM created_key backups = Ret keys /\
    sorted = map snd (sort_desc (combine keys backups)).
Proof.
  unfold rotateBackup_select. intros H. inv_run.
  rewrite app_nil_r in *. simpl. rewrite ?app_nil_r.
  repeat eexists; eauto.
Qed.

Lemma bind_ext {A B} (m : M A) (k k' : A -> M B) h :
  (forall a h', k a h' = k' a h') -> bind m k h = bind m k' h.
Proof.
  intros H. unfold bind. destruct (m h) as [[a | e |] es]; auto. rewrite H. reflexivity.
Qed.

Lemma nth_error_skipn {A} (l : list A) n x :
  nth_error l n = Some x -> skipn n l = x :: skipn (S n) l.
Proof.
  revert n. induction l as [| y l IH]; intros [| n]; simpl; intros H; try discriminate.
  - inversion H. reflexivity.
  - apply IH in H. rewrite H. destruct l; reflexivity.
Qed.

(** The loop visits [sortedbackups[i:]] in list order. *)
Lemma prune_loop_for_each s region l steps :
  forall i h, 0 <= i -> (List.length l - Z.to_nat i < steps)%nat ->
    prune_loop s steps region l i h
    = for_each (call_deleteBackupbyBackupID s region) (skipn (Z.to_nat i) l) h.
Proof.
  induction steps as [| steps IH]; intros i h Hi Hsteps; [ lia | ].
  simpl. destruct (i <? Z.of_nat (List.length l)) eqn:Hlt.
  - apply Z.ltb_lt in Hlt.
    destruct (nth_error l (Z.to_nat i)) as [b |] eqn:Hnth.
    + rewrite (nth_error_skipn _ _ _ Hnth). cbn [for_each]. apply bind_ext. intros _ h'.
      replace (S (Z.to_nat i)) with (Z.to_nat (i + 1)) by lia.
      apply IH; lia.
    + apply nth_error_None in Hnth. lia.
  - apply Z.ltb_ge in Hlt. rewrite skipn_all2 by lia. reflexivity.
Qed.

Lemma prune_for_each s region count l h :
  0 <= count ->
  rotateBackup_prune s region count l h
  = for_each (call_deleteBackupbyBackupID s region) (skipn (Z.to_nat count) l) h.
Proof.
  intros H. unfold rotateBackup_prune. apply prune_loop_for_each; [ exact H | lia ].
Qed.

(** On a plain instance of either class the misspelt name is not bound. *)
Lemma misspelt_unbound c E fuel :
  self_getattr (self_of c E fuel) "deleteBackupbyBackupID" = None.
Proof. destruct c; reflexivity. Qed.

Lemma call_unbound c E fuel region b h :
  call_deleteBackupbyBackupID (self_of c E fuel) region b h = (Raise AttributeError, []).
Proof. unfold call_deleteBackupbyBackupID. rewrite misspelt_unbound. reflexivity. Qed.

Lemma prune_loop_quiet_plain c E fuel region l steps :
  forall i, emits quiet (prune_loop (self_of c E fuel) steps region l i).
Proof.
  induction steps as [| steps IH]; intros i; simpl; [ apply emits_ret | ].
  destruct (_ <? _); [ | apply emits_ret ].
  destruct (nth_error _ _); [ | apply emits_raise ].
  apply emits_bind; [ | intro; apply IH ].
  intro h. rewrite call_unbound. reflexivity.
Qed.

Lemma rotateBackup_quiet c E fuel region volumeID count :
  emits quiet (rotateBackup_of c E fuel region volumeID count).
Proof.
  rewrite rotateBackup_of_eq. unfold rotateBackup. apply emits_bind.
  - rewrite <- (with_attrs_self c E fuel). apply create_quiet.
  - intros [b | volumename]; [ apply emits_ret | ].
    apply emits_bind;
      [ rewrite <- (with_attrs_self c E fuel); apply select_quiet | intro ].
    apply emits_bind; [ apply prune_loop_quiet_plain | intro; apply emits_ret ].
Qed.

Lemma quiet_no_delete es q :
  forallb quiet es = true -> req_verb q = DELETE -> ~ In (Sent q) es.
Proof.
  intros H Hq Hin. rewrite forallb_forall in H. specialize (H _ Hin).
  destruct q as [v u p]. simpl in Hq. subst. discriminate.
Qed.

Lemma quiet_deletes es : forallb quiet es = true -> deletes es = [].
Proof.
  unfold deletes. induction es as [| e es IH]; simpl; [ reflexivity | ].
  intros H. apply andb_prop in H. destruct H as [He Hes].
  unfold quiet in He. destruct (is_delete e); [ discriminate | auto ].
Qed.

(** ** The model on small inputs *)

(** The class binds the name with a capital B and not the one the
    pruning loop asks for. *)
Example attribute_names_ex :
  forall c E fuel,
    self_getattr (self_of c E fuel) "deleteBackupByBackupID" <> None
    /\ self_getattr (self_of c E fuel) "deleteBackupbyBackupID" = None
    /\ self_getattr (self_of c E fuel) "createBackup" = Some Other.
Proof. intros [|] E fuel; repeat split; discriminate. Qed.

Example translate_ex :
  GCPCVS.translateServiceLevelAPI2UI "basic" = Some "standard"
  /\ gcpcvs.translateServiceLevelUI2API "premium" = Some "standard"
  /\ gcpcvs.translateServiceLevelAPI2UI "premium" = None.
Proof. repeat split. Qed.

Example fromisoformat_ex :
  created_key Fixture.b1 = Ret 20240501020041000000
  /\ Datetime.fromisoformat "2024-02-30T00:00" = Raise ValueError
  /\ Datetime.fromisoformat "2024-05-01T02:00:41+00:00" = Raise OutsideModel.
Proof. vm_compute. repeat split. Qed.

(** The compiled pattern accepts a generated name, and also any six
    characters in the place of the volume id and any text after the
    minutes. *)
Example pattern_ex :
  obind (Re.compile (pattern_text "vol1")) (fun p => name_matches p Fixture.b7) = Ret true
  /\ obind (Re.compile (pattern_text "vol1"))
       (fun p => Re.pmatch p (JStr "vol1-manual-2024-05-01T02:00 kept")) = Ret true
  /\ obind (Re.compile (pattern_text "vol1")) (fun p => name_matches p Fixture.m2) = Ret false
  /\ Re.compile (pattern_text "vol(1)") = Raise OutsideModel.
Proof. vm_compute. repeat split. Qed.

(** On an instance that binds [deleteBackupbyBackupID] to the class's
    [deleteBackupByBackupID], the same rotation sends its DELETE requests
    in the order of the loop: b4, b3, b2, b1. *)
Example pruning_order_when_bound :
  let E := Fixture.rotation_env in
  let bound := with_attrs (self_of NewClient E 5)
                 (fun _ => Some (Method2 (gcpcvs.deleteBackupByBackupID E 5))) in
  fst (rotateBackup E bound Fixture.region Fixture.volumeID 3 []) = Ret true
  /\ deletes (snd (rotateBackup E bound Fixture.region Fixture.volumeID 3 []))
     = map (fun id => Sent (mkRequest DELETE (Backup Fixture.region (JStr id)) None))
           ["b4"; "b3"; "b2"; "b1"].
Proof. vm_compute. repeat split. Qed.

Example zero_window_ex :
  gcpcvs._do_api_post (Fixture.constant_env Fixture.other_500) 3 (Backups Fixture.region)
    (JDict []) 0 []
  = (Raise (HTTPError 500),
     [Sent (mkRequest POST (Backups Fixture.region) (Some (JDict [])))]).
Proof. vm_compute. reflexivity. Qed.

(** * The claims *)

Lemma create_go_count E s region volumeID count h volumename es :
  rotateBackup_create E s region volumeID count h = (Ret (Go volumename), es) ->
  1 <= count <= 30.
Proof.
  unfold rotateBackup_create, max_backups.
  destruct (negb _) eqn:Hc; [ intros H; apply ret_inv in H; destruct H; discriminate | ].
  intros _. apply negb_false_iff, andb_prop in Hc. lia.
Qed.

Lemma prune_plain_raises c E fuel region count l h :
  0 <= count < Z.of_nat (List.length l) ->
  rotateBackup_prune (self_of c E fuel) region count l h = (Raise AttributeError, []).
Proof.
  intros Hc. unfold rotateBackup_prune. cbn [prune_loop].
  destruct (count <? Z.of_nat (List.length l)) eqn:Hlt; [ | apply Z.ltb_ge in Hlt; lia ].
  destruct (nth_error l (Z.to_nat count)) eqn:Hnth;
    [ | apply nth_error_None in Hnth; lia ].
  apply bind_raise_run, call_unbound.
Qed.

(** C1. In both client classes the pruning loop of rotateBackup calls
    [self.deleteBackupbyBackupID] while the class defines
    [deleteBackupByBackupID]: whenever the backup was created and the
    sorted list of matching backups is longer than [count], rotateBackup
    raises AttributeError at the first deletion and has sent no DELETE
    request. *)
Theorem C1_pruning_raises_AttributeError :
  forall c E fuel region volumeID count h volumename es1 sortedbackups es2,
    rotateBackup_create E (self_of c E fuel) region volumeID count h
      = (Ret (Go volumename), es1) ->
    rotateBackup_select (self_of c E fuel) region volumeID volumename (h ++ es1)%list
      = (Ret sortedbackups, es2) ->
    count < Z.of_nat (List.length sortedbackups) ->
    rotateBackup_of c E fuel region volumeID count h
      = (Raise AttributeError, (es1 ++ es2)%list)
    /\ deletes (es1 ++ es2)%list = [].
Proof.
  intros c E fuel region volumeID count h volumename es1 sorted es2 Hc Hs Hlen.
  assert (Hrun : rotateBackup_of c E fuel region volumeID count h
                 = (Raise AttributeError, (es1 ++ es2)%list)).
  { rewrite rotateBackup_of_eq. unfold rotateBackup.
    rewrite (bind_ret_run _ _ _ _ _ Hc). cbn match.
    rewrite (bind_ret_run _ _ _ _ _ Hs).
    pose proof (create_go_count _ _ _ _ _ _ _ _ Hc) as Hcount.
    rewrite bind_raise_run with (e := AttributeError) (es := [])
      by (apply prune_plain_raises; lia).
    simpl. rewrite app_nil_r. reflexivity. }
  split; [ exact Hrun | ].
  apply quiet_deletes.
  pose proof (rotateBackup_quiet c E fuel region volumeID count h) as Hq.
  rewrite Hrun in Hq. exact Hq.
Qed.

Lemma C1_witness :
  let E := Fixture.rotation_env in
  let s := self_of NewClient E 5 in
  let es1 := snd (rotateBackup_create E s Fixture.region Fixture.volumeID 3 []) in
  let es2 := snd (rotateBackup_select s Fixture.region Fixture.volumeID "vol1" es1) in
  rotateBackup_of NewClient E 5 Fixture.region Fixture.volumeID 3 []
    = (Raise AttributeError, (es1 ++ es2)%list)
  /\ deletes (es1 ++ es2)%list = [].
Proof.
  intros E s es1 es2.
  apply (C1_pruning_raises_AttributeError NewClient E 5 Fixture.region Fixture.volumeID 3 []
           "vol1" es1
           [Fixture.b7; Fixture.b6; Fixture.b5; Fixture.b4; Fixture.b3; Fixture.b2; Fixture.b1]
           es2).
  - vm_compute. reflexivity.
  - vm_compute. reflexivity.
  - vm_compute. reflexivity.
Defined.


(** C9. For a retention count outside 1..30 rotateBackup ends at the bound
    check: it returns [False] and has sent no request at all. *)
Theorem C9_retention_bound_checked_first :
  forall c E fuel region volumeID count h,
    count < 1 \/ 30 < count ->
    rotateBackup_of c E fuel region volumeID count h = (Ret false, []).
Proof.
  intros c E fuel region volumeID count h Hcount.
  rewrite rotateBackup_of_eq. unfold rotateBackup, rotateBackup_create, max_backups.
  replace (negb ((1 <=? count) && (count <=? 32 - 2))) with true; [ reflexivity | ].
  symmetry. apply negb_true_iff, andb_false_iff.
  destruct Hcount; [ left; apply Z.leb_gt | right; apply Z.leb_gt ]; lia.
Qed.

Lemma C9_witness :
  (0 < 1 \/ 30 < 0)
  /\ rotateBackup_of OldClient Fixture.rotation_env 5 Fixture.region Fixture.volumeID 0 []
     = (Ret false, [])
  /\ (31 < 1 \/ 30 < 31)
  /\ rotateBackup_of NewClient Fixture.rotation_env 5 Fixture.region Fixture.volumeID 31 []
     = (Ret false, []).
Proof.
  assert (H0 : 0 < 1 \/ 30 < 0) by (left; reflexivity).
  assert (H31 : 31 < 1 \/ 30 < 31) by (right; reflexivity).
  split; [ exact H0 | ].
  split; [ apply (C9_retention_bound_checked_first OldClient); exact H0 | ].
  split; [ exact H31 | ].
  apply (C9_retention_bound_checked_first NewClient); exact H31.
Defined.

(** C7, at its input: "premium" is outside the four names basic, standard,
    extreme, standard-sw, and translateServiceLevelUI2API translates it,
    to one of those names. *)
Lemma C7_counterexample :
  ~ In "premium" api_names
  /\ GCPCVS.translateServiceLevelUI2API "premium" = Some "standard"
  /\ gcpcvs.translateServiceLevelUI2API "premium" = Some "standard"
  /\ In "standard" api_names.
Proof.
  split; [ | repeat split; simpl; tauto ].
  simpl. intros [H | [H | [H | [H | []]]]]; discriminate H.
Qed.

Lemma dict_get_outside k d :
  ~ In k (map fst d) -> dict_get k d = None.
Proof.
  induction d as [| [k' v] d IH]; simpl; intros H; [ reflexivity | ].
  destruct (String.eqb_spec k k') as [-> | Hne]; [ exfalso; apply H; auto | ].
  apply IH. intros Hin. apply H. auto.
Qed.

(** C7, amended. In both classes, for each of the API names basic,
    standard, extreme, standard-sw, API2UI then UI2API gives the name back
    and API2UI of that is again API2UI of the name; each translator
    returns None for every input that is not a key of its own dictionary
    (API2UI: basic, standard, extreme, standard-sw; UI2API: standard,
    premium, extreme, standard-sw). *)
Theorem C7_service_level_round_trip :
  forall x,
    (In x api_names ->
       exists u,
         GCPCVS.translateServiceLevelAPI2UI x = Some u
         /\ GCPCVS.translateServiceLevelUI2API u = Some x
         /\ gcpcvs.translateServiceLevelAPI2UI x = Some u
         /\ gcpcvs.translateServiceLevelUI2API u = Some x)
    /\ (~ In x api_names ->
          GCPCVS.translateServiceLevelAPI2UI x = None
          /\ gcpcvs.translateServiceLevelAPI2UI x = None)
    /\ (~ In x ui_names ->
          GCPCVS.translateServiceLevelUI2API x = None
          /\ gcpcvs.translateServiceLevelUI2API x = None).
Proof.
  intros x. split; [ | split ].
  - intros [<- | [<- | [<- | [<- | []]]]]; eexists; repeat split; reflexivity.
  - intros H. split; apply dict_get_outside; exact H.
  - intros H. split; apply dict_get_outside; exact H.
Qed.

Lemma C7_witness :
  (In "basic" api_names /\
     exists u,
       GCPCVS.translateServiceLevelAPI2UI "basic" = Some u
       /\ GCPCVS.translateServiceLevelUI2API u = Some "basic"
       /\ gcpcvs.translateServiceLevelAPI2UI "basic" = Some u
       /\ gcpcvs.translateServiceLevelUI2API u = Some "basic")
  /\ (~ In "premium" api_names /\ GCPCVS.translateServiceLevelAPI2UI "premium" = None)
  /\ (~ In "basic" ui_names /\ gcpcvs.translateServiceLevelUI2API "basic" = None).
Proof.
  assert (H1 : In "basic" api_names) by (simpl; tauto).
  assert (H2 : ~ In "premium" api_names)
    by (simpl; intros [H | [H | [H | [H | []]]]]; discriminate H).
  assert (H3 : ~ In "basic" ui_names)
    by (simpl; intros [H | [H | [H | [H | []]]]]; discriminate H).
  split; [ split; [ exact H1 | exact (proj1 (C7_service_level_round_trip "basic") H1) ] | ].
  split.
  - split; [ exact H2 | ].
    exact (proj1 (proj1 (proj2 (C7_service_level_round_trip "premium")) H2)).
  - split; [ exact H3 | ].
    exact (proj2 (proj2 (proj2 (C7_service_level_round_trip "basic")) H3)).
Defined.

(** C3, at its input: seven matching backups, [count = 3].  The claim has
    the four excess backups deleted oldest first, b1 b2 b3 b4; neither
    class sends these DELETE requests. *)
Lemma C3_counterexample :
  deletes (snd (rotateBackup_of OldClient Fixture.rotation_env 5
                  Fixture.region Fixture.volumeID 3 []))
    <> map (fun id => Sent (mkRequest DELETE (Backup Fixture.region (JStr id)) None))
           ["b1"; "b2"; "b3"; "b4"]
  /\ deletes (snd (rotateBackup_of NewClient Fixture.rotation_env 5
                     Fixture.region Fixture.volumeID 3 []))
    <> map (fun id => Sent (mkRequest DELETE (Backup Fixture.region (JStr id)) None))
           ["b1"; "b2"; "b3"; "b4"].
Proof. split; vm_compute; discriminate. Qed.

(** C3, amended. Whenever the selection returns, the list it returns is
    sorted by creation time, newest first, and the pruning loop takes the
    excess backups in the order of that list from index [count] on: the
    newest excess backup first, the oldest last.  The order is a function
    of the listing. *)
Theorem C3_pruning_walks_newest_excess_first :
  forall s region volumeID volumename count h sortedbackups es,
    rotateBackup_select s region volumeID volumename h = (Ret sortedbackups, es) ->
    0 <= count ->
    (exists keys, mapM created_key sortedbackups = Ret keys /\ descending keys)
    /\ forall h',
         rotateBackup_prune s region count sortedbackups h'
         = for_each (call_deleteBackupbyBackupID s region)
                    (skipn (Z.to_nat count) sortedbackups) h'.
Proof.
  intros s region volumeID volumename count h sorted es Hs Hcount.
  apply select_inv in Hs.
  destruct Hs as (p & listing & items & backups & keys & _ & _ & _ & _ & Hkeys & ->).
  split.
  - exists (map fst (sort_desc (combine keys backups))). split.
    + apply mapM_of_pairs, sort_desc_Forall. apply (mapM_combine _ _ _ Hkeys).
    + apply sort_desc_descending.
  - intros h'. apply prune_for_each, Hcount.
Qed.

Lemma C3_witness :
  let s := self_of NewClient Fixture.rotation_env 5 in
  let h := snd (rotateBackup_create Fixture.rotation_env s Fixture.region Fixture.volumeID 3 []) in
  let sorted :=
    [Fixture.b7; Fixture.b6; Fixture.b5; Fixture.b4; Fixture.b3; Fixture.b2; Fixture.b1] in
  0 <= 3
  /\ (exists keys, mapM created_key sorted = Ret keys /\ descending keys)
  /\ forall h',
       rotateBackup_prune s Fixture.region 3 sorted h'
       = for_each (call_deleteBackupbyBackupID s Fixture.region)
                  [Fixture.b4; Fixture.b3; Fixture.b2; Fixture.b1] h'.
Proof.
  intros s h sorted.
  assert (H3 : 0 <= 3) by (intro H; discriminate H).
  split; [ exact H3 | ].
  apply (C3_pruning_walks_newest_excess_first s Fixture.region Fixture.volumeID "vol1" 3 h
           sorted
           (snd (rotateBackup_select s Fixture.region Fixture.volumeID "vol1" h))).
  - vm_compute. reflexivity.
  - exact H3.
Defined.

(** ** What a [createBackup] that returned [True] has seen *)

Lemma is_str_true s v : is_str s v = true -> v = JStr s.
Proof.
  destruct v; simpl; try discriminate. intros H. apply String.eqb_eq in H. congruence.
Qed.

Lemma send_inv E q h r es :
  send E q h = (Ret r, es) -> respond E h q = Some r /\ es = [Sent q].
Proof.
  unfold send. destruct (respond E h q); intros H; inversion H. auto.
Qed.

Lemma get_inv_old E u h r es :
  GCPCVS._do_api_get E u h = (Ret r, es) ->
  respond E h (mkRequest GET u None) = Some r /\ es = [Sent (mkRequest GET u None)].
Proof.
  unfold GCPCVS._do_api_get, requests_get. intros H. inv_run.
  match goal with Hs : send _ _ _ = _ |- _ => apply send_inv in Hs; destruct Hs as [Hs ->] end.
  split; [ congruence | reflexivity ].
Qed.

Lemma get_inv_new E u h r es :
  gcpcvs._do_api_get E u h = (Ret r, es) ->
  respond E h (mkRequest GET u None) = Some r /\ es = [Sent (mkRequest GET u None)].
Proof.
  unfold gcpcvs._do_api_get, requests_get. intros H. inv_run.
  match goal with Hs : send _ _ _ = _ |- _ => apply send_inv in Hs; destruct Hs as [Hs ->] end.
  split; [ congruence | reflexivity ].
Qed.

Lemma json_of_inv r v : json_of r = Ret v -> body r = Some v.
Proof. unfold json_of. destruct (body r); intros H; inversion H. reflexivity. Qed.

Lemma saw_available_later E region h pre es :
  saw_available E region (h ++ pre) es -> saw_available E region h (pre ++ es).
Proof.
  intros (es' & b & last & v & -> & Hr & Hb & Hs).
  exists (pre ++ es'), b, last, v. rewrite !app_assoc in *. auto.
Qed.

(** Closes the two cases of a wait round, given the inversion of the
    class's [_do_api_get] and the induction hypothesis. *)
Ltac wait_round get_inv IH :=
  match goal with
  | Hg : _ _ (Backup _ _) _ = (Ret ?r, _) |- _ =>
      apply get_inv in Hg; destruct Hg as [Hg ->]
  end;
  rewrite ?app_nil_r in *;
  match goal with
  | Hj : json_of _ = Ret _ |- _ => apply json_of_inv in Hj
  end;
  match goal with
  | Hi : is_str "available" _ = true |- saw_available _ _ ?h _ =>
      apply is_str_true in Hi; subst;
      exists [Slept 5]; do 3 eexists; simpl; eauto
  | Hw : _ = (Ret tt, ?es) |- saw_available ?E ?region ?h (_ ++ ?q ++ _) =>
      apply IH in Hw;
      apply (saw_available_later E region h [Slept 5] (q ++ es));
      apply (saw_available_later E region (h ++ [Slept 5]) q es);
      exact Hw
  end.

Lemma wait_inv_old E region b fuel :
  forall h es,
    GCPCVS.createBackup_wait E fuel region b h = (Ret tt, es) -> saw_available E region h es.
Proof.
  induction fuel as [| fuel IH]; intros h es H; [ discriminate H | ].
  cbn [GCPCVS.createBackup_wait] in H. inv_run; wait_round get_inv_old IH.
Qed.

Lemma wait_inv_new E region b fuel :
  forall h es,
    gcpcvs.createBackup_wait E fuel region b h = (Ret tt, es) -> saw_available E region h es.
Proof.
  induction fuel as [| fuel IH]; intros h es H; [ discriminate H | ].
  cbn [gcpcvs.createBackup_wait] in H. inv_run; wait_round get_inv_new IH.
Qed.

Lemma createBackup_true_inv c E fuel region volumeID name h es :
  createBackup_of c E fuel region volumeID name h = (Ret true, es) ->
  saw_available E region h es.
Proof.
  destruct c; simpl; intros H.
  - unfold GCPCVS.createBackup in H. inv_run; try discriminate.
    rewrite ?app_nil_r in *. simpl.
    match goal with
    | Hw : GCPCVS.createBackup_wait _ _ _ _ (h ++ ?pre) = (Ret ?u, _) |- _ =>
        destruct u; apply wait_inv_old in Hw; apply (saw_available_later E region h pre); exact Hw
    end.
  - unfold gcpcvs.createBackup in H. inv_run; try discriminate.
    rewrite ?app_nil_r in *. simpl.
    match goal with
    | Hw : gcpcvs.createBackup_wait _ _ _ _ (h ++ ?pre) = (Ret ?u, _) |- _ =>
        destruct u; apply wait_inv_new in Hw; apply (saw_available_later E region h pre); exact Hw
    end.
Qed.

Lemma digit_is_digit n : Re.is_digit (Datetime.digit n) = true.
Proof.
  unfold Datetime.digit. pose proof (Z.mod_pos_bound n 10 eq_refl) as Hn.
  destruct (Z.to_nat (n mod 10)) as [| [| [| [| [| [| [| [| [| [| k]]]]]]]]]] eqn:Hk;
    try reflexivity.
  lia.
Qed.

(** Whatever the time, [isoformat(timespec='minutes')] has the shape
    [dddd-dd-ddTdd:dd]. *)
Lemma isoformat_is_timestamp t : is_timestamp (Datetime.isoformat_minutes t) = true.
Proof.
  unfold Datetime.isoformat_minutes.
  destruct (Datetime.civil_of_days (t / Datetime.us_per_day)) as [[y m] d].
  unfold is_timestamp, timestamp_shape, Datetime.pad4, Datetime.pad2.
  cbn -[Datetime.digit Z.div Z.modulo]. rewrite !digit_is_digit. reflexivity.
Qed.

(** A returned creation phase ends with a call of [createBackup], under a
    generated name, that returned [True]. *)
Lemma create_go_inv c E fuel ga region volumeID count h volumename es :
  rotateBackup_create E (with_attrs (self_of c E fuel) ga) region volumeID count h
    = (Ret (Go volumename), es) ->
  exists pre name es_c,
    es = (pre ++ es_c)%list
    /\ generated_name volumename volumeID name
    /\ createBackup_of c E fuel region volumeID name (h ++ pre)%list = (Ret true, es_c).
Proof.
  unfold rotateBackup_create. rewrite createBackup_of_self.
  destruct (negb _); [ intros H; apply ret_inv in H; destruct H; discriminate | ].
  intros H. inv_run; try discriminate.
  rewrite ?app_nil_r in *. simpl. rewrite ?app_nil_r.
  match goal with
  | Hg : Go _ = Go _ |- _ => inversion Hg; subst
  end.
  match goal with
  | Hc : createBackup_of _ _ _ _ _ _ ((h ++ ?a) ++ ?b)%list = (Ret true, ?z) |- _ =>
      exists (a ++ b)%list; eexists; exists z; split; [ apply app_assoc | split ];
        [ | rewrite app_assoc; exact Hc ]
  end.
  eexists. split; [ apply isoformat_is_timestamp | reflexivity ].
Qed.

Lemma create_return_false E s region volumeID count h b es :
  rotateBackup_create E s region volumeID count h = (Ret (Return b), es) -> b = false.
Proof.
  unfold rotateBackup_create.
  destruct (negb _); [ intros H; apply ret_inv in H; destruct H; congruence | ].
  intros H. inv_run; congruence.
Qed.

(** C5. In every execution of rotateBackup the creation of the new backup
    comes before any deletion, whatever the pruning call is bound to: the
    phase that lists, names and creates the backup sends no DELETE
    request; if it ends without [createBackup] having returned [True]
    (creation refused, an exception while creating or polling, a poll
    that never ends), the rotation ends there with [False], that exception
    or no result, and has emitted nothing besides; pruning only follows a
    [createBackup], called with a generated name, that returned [True]
    and whose last event is a read of the new backup answered with the
    state "available". *)
Theorem C5_creation_precedes_pruning :
  forall c E fuel ga region volumeID count h,
    let s := with_attrs (self_of c E fuel) ga in
    let created := rotateBackup_create E s region volumeID count h in
    let run := rotateBackup E s region volumeID count h in
    deletes (snd created) = []
    /\ match fst created with
       | Ret (Go volumename) =>
           (exists rest, snd run = (snd created ++ rest)%list)
           /\ exists pre name es_c,
                snd created = (pre ++ es_c)%list
                /\ generated_name volumename volumeID name
                /\ createBackup_of c E fuel region volumeID name (h ++ pre)%list
                   = (Ret true, es_c)
                /\ saw_available E region (h ++ pre) es_c
       | Ret (Return b) => b = false /\ run = (Ret false, snd created)
       | Raise e => run = (Raise e, snd created)
       | OutOfFuel => run = (OutOfFuel, snd created)
       end.
Proof.
  intros c E fuel ga region volumeID count h s created run.
  split; [ apply quiet_deletes, create_quiet | ].
  subst run created. unfold rotateBackup.
  destruct (rotateBackup_create E s region volumeID count h)
    as [[[b | volumename] | e |] es1] eqn:Hc; cbn [fst snd].
  - pose proof (create_return_false _ _ _ _ _ _ _ _ Hc) as ->.
    split; [ reflexivity | ].
    rewrite (bind_ret_run _ _ _ _ _ Hc). simpl. rewrite app_nil_r. reflexivity.
  - split.
    + rewrite (bind_ret_run _ _ _ _ _ Hc). cbn [snd]. eexists. reflexivity.
    + destruct (create_go_inv _ _ _ _ _ _ _ _ _ _ Hc)
        as (pre & name & es_c & -> & Hname & Hcb).
      exists pre, name, es_c. split; [ reflexivity | ]. split; [ exact Hname | ].
      split; [ exact Hcb | ].
      apply (createBackup_true_inv _ _ _ _ _ _ _ _ Hcb).
  - apply bind_raise_run, Hc.
  - apply bind_fuel_run, Hc.
Qed.

(** The plain instances of the two classes are the case where the
    attribute table is the class's own. *)
Example creation_precedes_pruning_plain :
  let E := Fixture.rotation_env in
  let refused := Fixture.constant_env (mkResponse 404 (Some (Fixture.message "not found"))) in
  rotateBackup E (with_attrs (self_of NewClient E 5) (self_getattr (self_of NewClient E 5)))
                 Fixture.region Fixture.volumeID 3 []
    = rotateBackup_of NewClient E 5 Fixture.region Fixture.volumeID 3 []
  /\ fst (rotateBackup_of OldClient refused 5 Fixture.region Fixture.volumeID 3 [])
     = Raise (HTTPError 404).
Proof. split; vm_compute; reflexivity. Qed.

(** ** The retrying executor *)


Lemma randrange_50_70 z : 50 <= 50 + z mod (70 - 50) < 70.
Proof. pose proof (Z.mod_pos_bound z (70 - 50)). lia. Qed.

Lemma raise_for_status_500 r :
  status_code r = 500 -> raise_for_status r = Raise (HTTPError 500).
Proof. unfold raise_for_status. intros ->. reflexivity. Qed.

Section Executor.
Variable E : Env.
Variables (q : request) (h : trace) (r : response) (reason : json).
Hypothesis Hrespond : respond E h q = Some r.
Hypothesis Hbody : body r = Some reason.

Lemma send_run : send E q h = (Ret r, [Sent q]).
Proof. unfold send. rewrite Hrespond. reflexivity. Qed.

Lemma json_of_run : json_of r = Ret reason.
Proof. unfold json_of. rewrite Hbody. reflexivity. Qed.

Section Status500.
Variables (timeout_seconds target_time : Z).
Hypothesis Hstatus : status_code r = 500.
Hypothesis Hwindow : timeout_seconds <> 0.

Let d : Z := 50 + entropy E (h ++ [Sent q]) mod (70 - 50).

Lemma retry_pass_500 :
  gcpcvs.retry_pass E q timeout_seconds target_time h
  = match gcpcvs.job_queue_full reason with
    | Ret true =>
        (Ret (r, if target_time <=? clock E (h ++ [Sent q; Slept d]) then Break else Continue),
         [Sent q; Slept d])
    | Ret false => (Ret (r, Break), [Sent q])
    | Raise e => (Raise e, [Sent q])
    | OutOfFuel => (OutOfFuel, [Sent q])
    end.
Proof.
  unfold gcpcvs.retry_pass.
  rewrite (bind_ret_run _ _ _ _ _ send_run). rewrite json_of_run, bind_lift_ret.
  apply Z.eqb_neq in Hwindow. rewrite Hwindow, Hstatus. cbn [in_codes existsb Z.eqb orb].
  destruct (gcpcvs.job_queue_full reason) as [[|] | e |]; try reflexivity.
  unfold bind, lift, ret, randrange, sleep, now.
  cbn -[Z.add Z.sub Z.modulo Z.leb].
  rewrite ?app_nil_r, <- ?app_assoc. cbn [app]. fold d.
  destruct (target_time <=? clock E (h ++ [Sent q; Slept d])); reflexivity.
Qed.

Lemma retry_loop_500_fatal fuel :
  gcpcvs.job_queue_full reason = Ret false ->
  gcpcvs.retry_loop E (S fuel) q timeout_seconds target_time h = (Ret r, [Sent q]).
Proof.
  intros Hfull. cbn [gcpcvs.retry_loop]. unfold bind.
  rewrite retry_pass_500, Hfull. reflexivity.
Qed.

Lemma retry_loop_500_error fuel e :
  gcpcvs.job_queue_full reason = Raise e ->
  gcpcvs.retry_loop E (S fuel) q timeout_seconds target_time h = (Raise e, [Sent q]).
Proof.
  intros Hfull. cbn [gcpcvs.retry_loop]. unfold bind.
  rewrite retry_pass_500, Hfull. reflexivity.
Qed.

Lemma retry_loop_500_deadline fuel :
  gcpcvs.job_queue_full reason = Ret true ->
  (target_time <=? clock E (h ++ [Sent q; Slept d])) = true ->
  gcpcvs.retry_loop E (S fuel) q timeout_seconds target_time h
  = (Ret r, [Sent q; Slept d]).
Proof.
  intros Hfull Hlate. cbn [gcpcvs.retry_loop]. unfold bind.
  rewrite retry_pass_500, Hfull, Hlate. reflexivity.
Qed.

Lemma retry_loop_sends_first fuel h1 :
  exists rest, snd (gcpcvs.retry_loop E (S fuel) q timeout_seconds target_time h1)
               = Sent q :: rest.
Proof.
  cbn [gcpcvs.retry_loop].
  destruct (bind_prefix (gcpcvs.retry_pass E q timeout_seconds target_time)
              (fun rc => match snd rc with
                         | Break => ret (fst rc)
                         | Continue => gcpcvs.retry_loop E fuel q timeout_seconds target_time
                         end) h1) as [rest1 ->].
  unfold gcpcvs.retry_pass.
  destruct (bind_prefix (send E q)
              (fun r0 =>
                 reason0 <- lift (json_of r0) ;;
                 (if timeout_seconds =? 0 then ret (r0, Break)
                  else if in_codes (status_code r0) [200; 202] then ret (r0, Break)
                  else
                    stop <-
                      (if in_codes (status_code r0) [429; 409; 500] then
                         leave <-
                           (if status_code r0 =? 500 then
                              full <- lift (gcpcvs.job_queue_full reason0) ;;
                              ret (negb full)
                            else ret false) ;;
                         if leave then ret true
                         else
                           d0 <- randrange E 50 70 ;;
                           sleep d0 ;;;
                           ret false
                       else ret true) ;;
                    if stop then ret (r0, Break)
                    else
                      t <- now E ;;
                      if target_time <=? t then ret (r0, Break) else ret (r0, Continue))) h1)
    as [rest2 ->].
  unfold send. destruct (respond E h1 q); simpl; eexists; reflexivity.
Qed.

Lemma retry_loop_500_again fuel :
  gcpcvs.job_queue_full reason = Ret true ->
  (target_time <=? clock E (h ++ [Sent q; Slept d])) = false ->
  exists rest,
    snd (gcpcvs.retry_loop E (S (S fuel)) q timeout_seconds target_time h)
    = Sent q :: Slept d :: Sent q :: rest.
Proof.
  intros Hfull Hearly.
  change (gcpcvs.retry_loop E (S (S fuel)) q timeout_seconds target_time)
    with (bind (gcpcvs.retry_pass E q timeout_seconds target_time)
            (fun rc => match snd rc with
                       | Break => ret (fst rc)
                       | Continue => gcpcvs.retry_loop E (S fuel) q timeout_seconds target_time
                       end)).
  unfold bind. rewrite retry_pass_500, Hfull, Hearly. cbn [snd fst].
  destruct (retry_loop_sends_first fuel (h ++ [Sent q; Slept d])%list) as [rest Hrest].
  destruct (gcpcvs.retry_loop E (S fuel) q timeout_seconds target_time
              (h ++ [Sent q; Slept d])%list) as [o es].
  simpl in Hrest. subst es. exists rest. reflexivity.
Qed.

End Status500.

Lemma retrying_run fuel timeout_seconds delta target_time :
  Datetime.timedelta_seconds timeout_seconds = Ret delta ->
  Datetime.add (clock E h) delta = Ret target_time ->
  gcpcvs.retrying E fuel q timeout_seconds h
  = bind (gcpcvs.retry_loop E fuel q timeout_seconds target_time)
         (fun r0 => lift (raise_for_status r0) ;;; ret r0) h.
Proof.
  intros Hdelta Htarget. unfold gcpcvs.retrying.
  rewrite bind_now, Hdelta, bind_lift_ret, Htarget, bind_lift_ret. reflexivity.
Qed.

(** With a zero window the pass ends after the exchange. *)
Lemma retry_loop_zero fuel target_time :
  gcpcvs.retry_loop E (S fuel) q 0 target_time h = (Ret r, [Sent q]).
Proof.
  assert (Hpass : gcpcvs.retry_pass E q 0 target_time h = (Ret (r, Break), [Sent q])).
  { unfold gcpcvs.retry_pass. rewrite (bind_ret_run _ _ _ _ _ send_run).
    rewrite json_of_run, bind_lift_ret. reflexivity. }
  cbn [gcpcvs.retry_loop]. rewrite (bind_ret_run _ _ _ _ _ Hpass). reflexivity.
Qed.

End Executor.

Lemma add_zero E h : Datetime.add (clock E h) 0 = Ret (clock E h).
Proof.
  unfold Datetime.add. rewrite Z.add_0_r. pose proof (clock_range E h) as [H0 H1].
  apply Z.leb_le in H0. apply Z.ltb_lt in H1. rewrite H0, H1. reflexivity.
Qed.

Lemma retrying_zero E fuel q h :
  gcpcvs.retrying E (S fuel) q 0 h = (single_attempt E h q, [Sent q]).
Proof.
  rewrite (retrying_run E q h (S fuel) 0 0 (clock E h) eq_refl (add_zero E h)).
  unfold single_attempt.
  destruct (respond E h q) as [r |] eqn:Hr.
  - destruct (body r) as [v |] eqn:Hb.
    + rewrite (bind_ret_run _ _ _ _ _ (retry_loop_zero E q h r v Hr Hb fuel _)).
      unfold raise_for_status.
      destruct ((400 <=? status_code r) && (status_code r <? 600)); reflexivity.
    + cbn [gcpcvs.retry_loop]. unfold gcpcvs.retry_pass, bind, send, lift, json_of.
      rewrite Hr, Hb. reflexivity.
  - cbn [gcpcvs.retry_loop]. unfold gcpcvs.retry_pass, bind, send.
    rewrite Hr. reflexivity.
Qed.


Section CreateVolume.
Variable E : Env.
Variables (region : string) (payload : json) (h : trace) (r : response) (reason : json).
Let q : request := mkRequest POST (Volumes region) (Some payload).
Hypothesis Hrespond : respond E h q = Some r.
Hypothesis Hbody : body r = Some reason.
Hypothesis Hstatus : status_code r = 500.

Lemma createVolume_loop_500 n last :
  GCPCVS.createVolume_loop E (S n) region payload last h
  = match GCPCVS.job_queue_full reason with
    | Ret true =>
        (fst (GCPCVS.createVolume_loop E n region payload (Some r) (h ++ [Sent q; Slept 60])),
         Sent q :: Slept 60
           :: snd (GCPCVS.createVolume_loop E n region payload (Some r)
                     (h ++ [Sent q; Slept 60])))
    | Ret false => (Ret (Some r), [Sent q])
    | Raise e => (Raise e, [Sent q])
    | OutOfFuel => (OutOfFuel, [Sent q])
    end.
Proof.
  cbn [GCPCVS.createVolume_loop]. unfold requests_post. fold q.
  rewrite (bind_ret_run _ _ _ _ _ (send_run E q h r Hrespond)).
  rewrite Hstatus. change (500 =? 500) with true. cbv iota.
  rewrite (json_of_run r reason Hbody), bind_lift_ret.
  destruct (GCPCVS.job_queue_full reason) as [[|] | e |]; try reflexivity.
  rewrite bind_lift_ret, bind_sleep. rewrite <- app_assoc. reflexivity.
Qed.

Lemma createVolume_loop_sends_first n last h1 :
  exists rest,
    snd (GCPCVS.createVolume_loop E (S n) region payload last h1) = Sent q :: rest.
Proof.
  cbn [GCPCVS.createVolume_loop]. unfold requests_post. fold q.
  match goal with
  | |- context [bind (send E q) ?k h1] => destruct (bind_prefix (send E q) k h1) as [rest ->]
  end.
  unfold send. destruct (respond E h1 q); simpl; eexists; reflexivity.
Qed.

Lemma createVolume_500_fatal fuel timeout :
  0 < timeout ->
  GCPCVS.job_queue_full reason = Ret false ->
  GCPCVS.createVolume E fuel region payload timeout h = (Raise (HTTPError 500), [Sent q]).
Proof.
  intros Ht Hfull. unfold GCPCVS.createVolume.
  destruct (Z.to_nat timeout) as [| n] eqn:Hn; [ lia | ].
  unfold bind at 1. rewrite createVolume_loop_500, Hfull.
  cbv iota beta. rewrite (raise_for_status_500 r Hstatus). reflexivity.
Qed.

Lemma createVolume_500_error fuel timeout e :
  0 < timeout ->
  GCPCVS.job_queue_full reason = Raise e ->
  GCPCVS.createVolume E fuel region payload timeout h = (Raise e, [Sent q]).
Proof.
  intros Ht Hfull. unfold GCPCVS.createVolume.
  destruct (Z.to_nat timeout) as [| n] eqn:Hn; [ lia | ].
  unfold bind at 1. rewrite createVolume_loop_500, Hfull. reflexivity.
Qed.

Lemma createVolume_500_last_retry fuel :
  GCPCVS.job_queue_full reason = Ret true ->
  GCPCVS.createVolume E fuel region payload 1 h
  = (Raise (HTTPError 500), [Sent q; Slept 60]).
Proof.
  intros Hfull. unfold GCPCVS.createVolume. change (Z.to_nat 1) with 1%nat.
  unfold bind at 1. rewrite createVolume_loop_500, Hfull.
  cbn [GCPCVS.createVolume_loop ret fst snd]. cbv iota beta.
  rewrite (raise_for_status_500 r Hstatus). reflexivity.
Qed.

Lemma createVolume_500_again fuel timeout :
  1 < timeout ->
  GCPCVS.job_queue_full reason = Ret true ->
  exists rest,
    snd (GCPCVS.createVolume E fuel region payload timeout h)
    = Sent q :: Slept 60 :: Sent q :: rest.
Proof.
  intros Ht Hfull. unfold GCPCVS.createVolume.
  destruct (Z.to_nat timeout) as [| [| n]] eqn:Hn; [ lia | lia | ].
  match goal with
  | |- context [bind ?m ?k h] => destruct (bind_prefix m k h) as [rest ->]
  end.
  rewrite createVolume_loop_500, Hfull. cbn [snd].
  destruct (createVolume_loop_sends_first n (Some r) (h ++ [Sent q; Slept 60])) as [rest' ->].
  eexists. reflexivity.
Qed.

End CreateVolume.

Lemma job_queue_full_new_total reason : gcpcvs.job_queue_full reason <> OutOfFuel.
Proof.
  unfold gcpcvs.job_queue_full.
  destruct (contains "message" reason) as [[|] | e |] eqn:Hc; simpl; try discriminate.
  - destruct (getitem reason "message") as [msg | e |] eqn:Hm; simpl; try discriminate.
    + destruct msg; discriminate.
    + destruct reason; try discriminate. simpl in Hm. destruct (assoc "message" d); discriminate.
  - destruct reason; discriminate.
Qed.

Lemma job_queue_full_old_total reason : GCPCVS.job_queue_full reason <> OutOfFuel.
Proof.
  unfold GCPCVS.job_queue_full.
  destruct (contains "message" reason) as [[|] | e |] eqn:Hc; simpl; try discriminate.
  - destruct (getitem reason "message") as [msg | e |] eqn:Hm; simpl; try discriminate.
    + destruct msg; discriminate.
    + destruct reason; try discriminate. simpl in Hm. destruct (assoc "message" d); discriminate.
  - destruct reason; discriminate.
Qed.

(** C6. A write that is answered 500 has the body's message inspected.
    In [_do_api_post] (window not zero): when the message contains "Cannot
    spawn additional jobs" the executor sleeps 50 to 69 s and, the
    deadline not reached, sends the request again (the deadline reached,
    it raises the 500); for any other message it raises the 500 after
    that single attempt, with no sleep.  In [createVolume] of the older
    class the same holds with the message starting with "Error creating
    volume - Cannot spawn additional jobs", a sleep of 60 s and the retry
    budget [timeout] in place of the deadline.  A message the test cannot
    read ends the call at the first attempt as well. *)
Theorem C6_job_queue_500_retried_other_500_fatal :
  forall E fuel h r reason,
    status_code r = 500 ->
    body r = Some reason ->
    (forall u payload timeout_seconds delta target_time,
        let q := mkRequest POST u (Some payload) in
        respond E h q = Some r ->
        timeout_seconds <> 0 ->
        Datetime.timedelta_seconds timeout_seconds = Ret delta ->
        Datetime.add (clock E h) delta = Ret target_time ->
        match gcpcvs.job_queue_full reason with
        | Ret true =>
            let d := 50 + entropy E (h ++ [Sent q]) mod (70 - 50) in
            50 <= d < 70
            /\ if target_time <=? clock E (h ++ [Sent q; Slept d])
               then gcpcvs._do_api_post E (S fuel) u payload timeout_seconds h
                    = (Raise (HTTPError 500), [Sent q; Slept d])
               else exists rest,
                      snd (gcpcvs._do_api_post E (S (S fuel)) u payload timeout_seconds h)
                      = Sent q :: Slept d :: Sent q :: rest
        | Ret false =>
            gcpcvs._do_api_post E (S fuel) u payload timeout_seconds h
            = (Raise (HTTPError 500), [Sent q])
        | Raise e =>
            gcpcvs._do_api_post E (S fuel) u payload timeout_seconds h = (Raise e, [Sent q])
        | OutOfFuel => False
        end)
    /\ (forall region payload timeout,
          let q := mkRequest POST (Volumes region) (Some payload) in
          respond E h q = Some r ->
          0 < timeout ->
          match GCPCVS.job_queue_full reason with
          | Ret true =>
              if timeout =? 1
              then GCPCVS.createVolume E fuel region payload timeout h
                   = (Raise (HTTPError 500), [Sent q; Slept 60])
              else exists rest,
                     snd (GCPCVS.createVolume E fuel region payload timeout h)
                     = Sent q :: Slept 60 :: Sent q :: rest
          | Ret false =>
              GCPCVS.createVolume E fuel region payload timeout h
              = (Raise (HTTPError 500), [Sent q])
          | Raise e =>
              GCPCVS.createVolume E fuel region payload timeout h = (Raise e, [Sent q])
          | OutOfFuel => False
          end).
Proof.
  intros E fuel h r reason Hstatus Hbody. split.
  - intros u payload timeout_seconds delta target_time q Hr Hw Hdelta Htarget.
    unfold gcpcvs._do_api_post. fold q.
    destruct (gcpcvs.job_queue_full reason) as [[|] | e |] eqn:Hfull.
    + split; [ apply randrange_50_70 | ].
      destruct (target_time <=? clock E (h ++ [Sent q; Slept _])) eqn:Hlate.
      * rewrite (retrying_run E q h _ _ _ _ Hdelta Htarget).
        rewrite (bind_ret_run _ _ _ _ _
                   (retry_loop_500_deadline E q h r reason Hr Hbody _ _ Hstatus Hw fuel
                      Hfull Hlate)).
        rewrite (raise_for_status_500 r Hstatus). reflexivity.
      * rewrite (retrying_run E q h _ _ _ _ Hdelta Htarget).
        match goal with
        | |- context [bind ?m ?k h] => destruct (bind_prefix m k h) as [rest ->]
        end.
        destruct (retry_loop_500_again E q h r reason Hr Hbody _ _ Hstatus Hw fuel
                    Hfull Hlate) as [rest' ->].
        eexists. reflexivity.
    + rewrite (retrying_run E q h _ _ _ _ Hdelta Htarget).
      rewrite (bind_ret_run _ _ _ _ _
                 (retry_loop_500_fatal E q h r reason Hr Hbody _ _ Hstatus Hw fuel Hfull)).
      rewrite (raise_for_status_500 r Hstatus). reflexivity.
    + rewrite (retrying_run E q h _ _ _ _ Hdelta Htarget).
      apply bind_raise_run.
      apply (retry_loop_500_error E q h r reason Hr Hbody _ _ Hstatus Hw fuel e Hfull).
    + exact (job_queue_full_new_total reason Hfull).
  - intros region payload timeout q Hr Ht.
    destruct (GCPCVS.job_queue_full reason) as [[|] | e |] eqn:Hfull.
    + destruct (timeout =? 1) eqn:H1.
      * apply Z.eqb_eq in H1. subst timeout.
        apply (createVolume_500_last_retry E region payload h r reason Hr Hbody Hstatus fuel
                 Hfull).
      * apply Z.eqb_neq in H1.
        apply (createVolume_500_again E region payload h r reason Hr Hbody Hstatus fuel
                 timeout); [ lia | exact Hfull ].
    + apply (createVolume_500_fatal E region payload h r reason Hr Hbody Hstatus fuel
               timeout Ht Hfull).
    + apply (createVolume_500_error E region payload h r reason Hr Hbody Hstatus fuel
               timeout e Ht Hfull).
    + exact (job_queue_full_old_total reason Hfull).
Qed.

Lemma C6_witness :
  let full := Fixture.constant_env Fixture.queue_full_500 in
  let other := Fixture.constant_env Fixture.other_500 in
  let q := mkRequest POST (Volumes Fixture.region) (Some (JDict [])) in
  (status_code Fixture.queue_full_500 = 500 /\ 600 <> 0 /\ 0 < 10)
  /\ (exists rest,
        snd (gcpcvs._do_api_post full 2 (Volumes Fixture.region) (JDict []) 600 [])
        = Sent q :: Slept 50 :: Sent q :: rest)
  /\ (exists rest,
        snd (GCPCVS.createVolume full 0 Fixture.region (JDict []) 10 [])
        = Sent q :: Slept 60 :: Sent q :: rest)
  /\ gcpcvs._do_api_post other 1 (Volumes Fixture.region) (JDict []) 600 []
     = (Raise (HTTPError 500), [Sent q])
  /\ GCPCVS.createVolume other 0 Fixture.region (JDict []) 10 []
     = (Raise (HTTPError 500), [Sent q]).
Proof.
  intros full other q.
  assert (H600 : 600 <> 0) by discriminate.
  assert (H10 : 0 < 10) by reflexivity.
  split; [ split; [ reflexivity | split; [ exact H600 | exact H10 ] ] | ].
  destruct (C6_job_queue_500_retried_other_500_fatal full 0 [] Fixture.queue_full_500
              (Fixture.message "Error creating volume - Cannot spawn additional jobs")
              eq_refl eq_refl) as [Hnew Hold].
  destruct (C6_job_queue_500_retried_other_500_fatal other 0 [] Fixture.other_500
              (Fixture.message "Internal error") eq_refl eq_refl) as [Hnew' Hold'].
  specialize (Hnew (Volumes Fixture.region) (JDict []) 600 600000000
                (Fixture.noon + 600000000) eq_refl H600 eq_refl eq_refl).
  specialize (Hold Fixture.region (JDict []) 10 eq_refl H10).
  specialize (Hnew' (Volumes Fixture.region) (JDict []) 600 600000000
                (Fixture.noon + 600000000) eq_refl H600 eq_refl eq_refl).
  specialize (Hold' Fixture.region (JDict []) 10 eq_refl H10).
  split; [ exact (proj2 Hnew) | ].
  split; [ exact Hold | ].
  split; [ exact Hnew' | exact Hold' ].
Defined.

(** C10, at its input: with a zero window, a 201 is neither 200 nor 202,
    yet [_do_api_post] and [_do_api_delete] return the response to the
    caller instead of failing. *)
Lemma C10_counterexample :
  let r := mkResponse 201 (Some (JDict [])) in
  in_codes (status_code r) [200; 202] = false
  /\ gcpcvs._do_api_post (Fixture.constant_env r) 1 (Backups Fixture.region) (JDict []) 0 []
     = (Ret r, [Sent (mkRequest POST (Backups Fixture.region) (Some (JDict [])))])
  /\ gcpcvs._do_api_delete (Fixture.constant_env r) 1 (Backup Fixture.region (JStr "b1")) 0 []
     = (Ret r, [Sent (mkRequest DELETE (Backup Fixture.region (JStr "b1")) None)]).
Proof. vm_compute. repeat split. Qed.

(** C10, amended. With [timeout_seconds = 0], [_do_api_post] and
    [_do_api_delete] make exactly one exchange, never sleep and never
    retry, and what they do depends on the status only, not on the
    message: an [HTTPError] for a 4xx or 5xx status, the response handed
    back for every other status (a status other than 200 and 202 that is
    not 4xx or 5xx is logged, not raised). *)
Theorem C10_zero_window_single_attempt :
  forall E fuel u payload h,
    gcpcvs._do_api_post E (S fuel) u payload 0 h
    = (single_attempt E h (mkRequest POST u (Some payload)),
       [Sent (mkRequest POST u (Some payload))])
    /\ gcpcvs._do_api_delete E (S fuel) u 0 h
       = (single_attempt E h (mkRequest DELETE u None), [Sent (mkRequest DELETE u None)]).
Proof.
  intros E fuel u payload h. split; apply retrying_zero.
Qed.

Lemma failing_wait_old n :
  forall h,
    GCPCVS.createBackup_wait Fixture.failing_env n Fixture.region (JStr "b9") h
    = (OutOfFuel, Fixture.polls n).
Proof.
  induction n as [| n IH]; intros h; [ reflexivity | ].
  cbn [GCPCVS.createBackup_wait]. rewrite bind_sleep.
  unfold bind at 1 2. cbn -[GCPCVS.createBackup_wait Fixture.polls].
  rewrite IH. reflexivity.
Qed.

Lemma failing_wait_new n :
  forall h,
    gcpcvs.createBackup_wait Fixture.failing_env n Fixture.region (JStr "b9") h
    = (OutOfFuel, Fixture.polls n).
Proof.
  induction n as [| n IH]; intros h; [ reflexivity | ].
  cbn [gcpcvs.createBackup_wait]. rewrite bind_sleep.
  unfold bind at 1 2. cbn -[gcpcvs.createBackup_wait Fixture.polls].
  rewrite IH. reflexivity.
Qed.

(** C8, on the failing input: a backup that the service accepts and then
    reports in state "error" at every poll.  The wait of [createBackup]
    has no exit for that state in either class: whatever the number of
    rounds allowed, it is still polling and has raised nothing.  The wait
    of [breakVolumeReplicationByID] on the same answers raises a
    RuntimeError carrying the reported detail at its first poll. *)
Theorem C8_backup_wait_polls_on_error_state :
  forall fuel,
    GCPCVS.createBackup Fixture.failing_env fuel Fixture.region Fixture.volumeID "nightly" []
    = (OutOfFuel,
       Sent (mkRequest POST (Backups Fixture.region)
               (Some (JDict [("name", JStr "nightly"); ("volumeId", JStr Fixture.volumeID)])))
         :: Fixture.polls fuel)
    /\ gcpcvs.createBackup Fixture.failing_env (S fuel) Fixture.region Fixture.volumeID
         "nightly" []
       = (OutOfFuel,
          Sent (mkRequest POST (Backups Fixture.region)
                  (Some (JDict [("name", JStr "nightly"); ("volumeId", JStr Fixture.volumeID)])))
            :: Fixture.polls (S fuel))
    /\ gcpcvs.breakVolumeReplicationByID Fixture.failing_env (S fuel) Fixture.region "r1" true []
       = (Raise (RuntimeError (JStr "Backup failed")),
          [Sent (mkRequest POST (VolumeReplicationBreak Fixture.region "r1")
                   (Some (JDict [("force", JBool true)])));
           Slept 15;
           Sent (mkRequest GET (VolumeReplication Fixture.region "r1") None)]).
Proof.
  intros fuel. split; [ | split ].
  - unfold GCPCVS.createBackup, bind.
    cbn -[GCPCVS.createBackup_wait Fixture.polls Fixture.region Fixture.volumeID].
    rewrite failing_wait_old. reflexivity.
  - unfold gcpcvs.createBackup, bind.
    cbn -[gcpcvs.createBackup_wait Fixture.polls Fixture.region Fixture.volumeID].
    rewrite failing_wait_new. reflexivity.
  - reflexivity.
Qed.

(** * Further properties of the modelled code *)

(** ** The retrying executor beyond the 500 *)

Lemma slept_app es es' : slept (es ++ es') = slept es + slept es'.
Proof.
  induction es as [| [q | d] es IH]; simpl; [ reflexivity | exact IH | rewrite IH; lia ].
Qed.

Lemma attempts_app es es' : (attempts (es ++ es') = attempts es + attempts es')%nat.
Proof. unfold attempts. rewrite filter_app, length_app. reflexivity. Qed.

Lemma bind_run_events {A B} (m : M A) (k : A -> M B) h :
  snd (bind m k h)
  = snd (m h) ++ match fst (m h) with
                 | Ret a => snd (k a (h ++ snd (m h)))
                 | _ => []
                 end.
Proof.
  unfold bind. destruct (m h) as [[a | e |] es]; simpl; rewrite ?app_nil_r; auto.
  destruct (k a (h ++ es)); reflexivity.
Qed.

Lemma bind_run_outcome {A B} (m : M A) (k : A -> M B) h :
  fst (bind m k h)
  = match fst (m h) with
    | Ret a => fst (k a (h ++ snd (m h)))
    | Raise e => Raise e
    | OutOfFuel => OutOfFuel
    end.
Proof.
  unfold bind. destruct (m h) as [[a | e |] es]; simpl; auto.
  destruct (k a (h ++ es)); reflexivity.
Qed.

Section Backoff.
Variable E : Env.
Variables (q : request) (h : trace) (r : response) (reason : json).
Variables (timeout_seconds target_time : Z).
Hypothesis Hrespond : respond E h q = Some r.
Hypothesis Hbody : body r = Some reason.
Hypothesis Hwindow : timeout_seconds <> 0.
Hypothesis Hstatus : status_code r = 429 \/ status_code r = 409.

Let d : Z := 50 + entropy E (h ++ [Sent q]) mod (70 - 50).

Lemma retry_pass_backoff :
  gcpcvs.retry_pass E q timeout_seconds target_time h
  = (Ret (r, if target_time <=? clock E (h ++ [Sent q; Slept d]) then Break else Continue),
     [Sent q; Slept d]).
Proof.
  unfold gcpcvs.retry_pass.
  rewrite (bind_ret_run _ _ _ _ _ (send_run E q h r Hrespond)).
  rewrite (json_of_run r reason Hbody), bind_lift_ret.
  apply Z.eqb_neq in Hwindow. rewrite Hwindow.
  assert (Hcodes : in_codes (status_code r) [200; 202] = false
                   /\ in_codes (status_code r) [429; 409; 500] = true
                   /\ (status_code r =? 500) = false)
    by (destruct Hstatus as [-> | ->]; repeat split).
  destruct Hcodes as (-> & -> & ->).
  unfold bind, lift, ret, randrange, sleep, now.
  cbn -[Z.add Z.sub Z.modulo Z.leb].
  rewrite ?app_nil_r, <- ?app_assoc. cbn [app]. fold d.
  destruct (target_time <=? clock E (h ++ [Sent q; Slept d])); reflexivity.
Qed.

Lemma retry_loop_backoff_deadline fuel :
  (target_time <=? clock E (h ++ [Sent q; Slept d])) = true ->
  gcpcvs.retry_loop E (S fuel) q timeout_seconds target_time h = (Ret r, [Sent q; Slept d]).
Proof.
  intros Hlate. cbn [gcpcvs.retry_loop]. unfold bind.
  rewrite retry_pass_backoff, Hlate. reflexivity.
Qed.

Lemma retry_loop_backoff_again fuel :
  (target_time <=? clock E (h ++ [Sent q; Slept d])) = false ->
  exists rest,
    snd (gcpcvs.retry_loop E (S (S fuel)) q timeout_seconds target_time h)
    = Sent q :: Slept d :: Sent q :: rest.
Proof.
  intros Hearly.
  change (gcpcvs.retry_loop E (S (S fuel)) q timeout_seconds target_time)
    with (bind (gcpcvs.retry_pass E q timeout_seconds target_time)
            (fun rc => match snd rc with
                       | Break => ret (fst rc)
                       | Continue => gcpcvs.retry_loop E (S fuel) q timeout_seconds target_time
                       end)).
  unfold bind. rewrite retry_pass_backoff, Hearly. cbn [snd fst].
  destruct (retry_loop_sends_first E q timeout_seconds target_time fuel
              (h ++ [Sent q; Slept d])) as [rest Hrest].
  destruct (gcpcvs.retry_loop E (S fuel) q timeout_seconds target_time
              (h ++ [Sent q; Slept d])) as [o es].
  simpl in Hrest. subst es. exists rest. reflexivity.
Qed.

End Backoff.

(** A pass on a status outside 429, 409 and 500 always leaves the loop. *)
Lemma retry_pass_final E q h r reason timeout_seconds target_time :
  respond E h q = Some r ->
  body r = Some reason ->
  in_codes (status_code r) [429; 409; 500] = false ->
  gcpcvs.retry_pass E q timeout_seconds target_time h = (Ret (r, Break), [Sent q]).
Proof.
  intros Hr Hb Hcodes. unfold gcpcvs.retry_pass.
  rewrite (bind_ret_run _ _ _ _ _ (send_run E q h r Hr)).
  rewrite (json_of_run r reason Hb), bind_lift_ret.
  destruct (timeout_seconds =? 0); [ reflexivity | ].
  destruct (in_codes (status_code r) [200; 202]); [ reflexivity | ].
  rewrite Hcodes. reflexivity.
Qed.

Lemma retrying_final E fuel q timeout_seconds delta target_time h :
  Datetime.timedelta_seconds timeout_seconds = Ret delta ->
  Datetime.add (clock E h) delta = Ret target_time ->
  (forall r, respond E h q = Some r -> in_codes (status_code r) [429; 409; 500] = false) ->
  gcpcvs.retrying E (S fuel) q timeout_seconds h = (single_attempt E h q, [Sent q]).
Proof.
  intros Hdelta Htarget Hcodes.
  rewrite (retrying_run E q h (S fuel) _ _ _ Hdelta Htarget).
  unfold single_attempt.
  destruct (respond E h q) as [r |] eqn:Hr.
  - destruct (body r) as [v |] eqn:Hb.
    + assert (Hloop : gcpcvs.retry_loop E (S fuel) q timeout_seconds target_time h
                      = (Ret r, [Sent q])).
      { cbn [gcpcvs.retry_loop].
        rewrite (bind_ret_run _ _ _ _ _
                   (retry_pass_final E q h r v _ _ Hr Hb (Hcodes r eq_refl))).
        reflexivity. }
      rewrite (bind_ret_run _ _ _ _ _ Hloop). unfold raise_for_status.
      destruct ((400 <=? status_code r) && (status_code r <? 600)); reflexivity.
    + cbn [gcpcvs.retry_loop]. unfold gcpcvs.retry_pass, bind, send, lift, json_of.
      rewrite Hr, Hb. reflexivity.
  - cbn [gcpcvs.retry_loop]. unfold gcpcvs.retry_pass, bind, send.
    rewrite Hr. reflexivity.
Qed.

(** X1. In [_do_api_post] and [_do_api_delete], whatever the window, an
    answer whose status is none of 429, 409 and 500 ends the call at that
    attempt: one request, no sleep, [HTTPError] for a 4xx or 5xx status
    and the response handed back otherwise (200 and 202 included). *)
Theorem executor_final_statuses_end_the_call :
  forall E fuel u payload timeout_seconds delta target_time h,
    Datetime.timedelta_seconds timeout_seconds = Ret delta ->
    Datetime.add (clock E h) delta = Ret target_time ->
    ((forall r, respond E h (mkRequest POST u (Some payload)) = Some r ->
                in_codes (status_code r) [429; 409; 500] = false) ->
     gcpcvs._do_api_post E (S fuel) u payload timeout_seconds h
     = (single_attempt E h (mkRequest POST u (Some payload)),
        [Sent (mkRequest POST u (Some payload))]))
    /\ ((forall r, respond E h (mkRequest DELETE u None) = Some r ->
                   in_codes (status_code r) [429; 409; 500] = false) ->
        gcpcvs._do_api_delete E (S fuel) u timeout_seconds h
        = (single_attempt E h (mkRequest DELETE u None), [Sent (mkRequest DELETE u None)])).
Proof.
  intros E fuel u payload timeout_seconds delta target_time h Hdelta Htarget.
  split; intros Hcodes; apply (retrying_final E fuel _ _ _ _ h Hdelta Htarget Hcodes).
Qed.

Lemma executor_final_statuses_end_the_call_witness :
  let E := Fixture.constant_env (mkResponse 404 (Some (Fixture.message "not found"))) in
  let p := mkRequest POST (Backups Fixture.region) (Some (JDict [])) in
  let d := mkRequest DELETE (Backups Fixture.region) None in
  gcpcvs._do_api_post E 1 (Backups Fixture.region) (JDict []) 600 []
  = (Raise (HTTPError 404), [Sent p])
  /\ gcpcvs._do_api_delete E 1 (Backups Fixture.region) 600 []
     = (Raise (HTTPError 404), [Sent d]).
Proof.
  intros E p d.
  destruct (executor_final_statuses_end_the_call E 0 (Backups Fixture.region) (JDict []) 600
              600000000 (Fixture.noon + 600000000) [] eq_refl eq_refl) as [Hpost Hdelete].
  split; [ apply Hpost | apply Hdelete ]; intros r Hr; inversion Hr; reflexivity.
Defined.

(** X2. In [_do_api_post] and [_do_api_delete] with a window that is not
    zero, a 429 or a 409 is backed off whatever its body says: the
    executor sleeps 50 to 69 s and then, the deadline not reached, sends
    the request again; the deadline reached, it raises the [HTTPError] of
    that status. *)
Theorem executor_backs_off_on_429_and_409 :
  forall E fuel (post : bool) u payload h r reason timeout_seconds delta target_time,
    let q := if post then mkRequest POST u (Some payload) else mkRequest DELETE u None in
    let run n :=
      if post then gcpcvs._do_api_post E n u payload timeout_seconds h
      else gcpcvs._do_api_delete E n u timeout_seconds h in
    respond E h q = Some r ->
    body r = Some reason ->
    status_code r = 429 \/ status_code r = 409 ->
    timeout_seconds <> 0 ->
    Datetime.timedelta_seconds timeout_seconds = Ret delta ->
    Datetime.add (clock E h) delta = Ret target_time ->
    let d := 50 + entropy E (h ++ [Sent q]) mod (70 - 50) in
    50 <= d < 70
    /\ if target_time <=? clock E (h ++ [Sent q; Slept d])
       then run (S fuel) = (Raise (HTTPError (status_code r)), [Sent q; Slept d])
       else exists rest, snd (run (S (S fuel))) = Sent q :: Slept d :: Sent q :: rest.
Proof.
  intros E fuel post u payload h r reason timeout_seconds delta target_time q run
    Hr Hb Hs Hw Hdelta Htarget d.
  assert (Hrun : forall n, run n = gcpcvs.retrying E n q timeout_seconds h)
    by (intros n; subst run q; destruct post; reflexivity).
  rewrite !Hrun. clear Hrun run.
  split; [ apply randrange_50_70 | ].
  destruct (target_time <=? clock E (h ++ [Sent q; Slept d])) eqn:Hlate.
  - rewrite (retrying_run E q h _ _ _ _ Hdelta Htarget).
    rewrite (bind_ret_run _ _ _ _ _
               (retry_loop_backoff_deadline E q h r reason _ _ Hr Hb Hw Hs fuel Hlate)).
    assert (Hraise : raise_for_status r = Raise (HTTPError (status_code r)))
      by (unfold raise_for_status; destruct Hs as [-> | ->]; reflexivity).
    rewrite Hraise. reflexivity.
  - rewrite (retrying_run E q h _ _ _ _ Hdelta Htarget).
    match goal with
    | |- context [bind ?m ?k h] => destruct (bind_prefix m k h) as [rest ->]
    end.
    destruct (retry_loop_backoff_again E q h r reason _ _ Hr Hb Hw Hs fuel Hlate)
      as [rest' ->].
    eexists. reflexivity.
Qed.

Lemma executor_backs_off_on_429_and_409_witness :
  let q := mkRequest DELETE (Backup Fixture.region (JStr "b1")) None in
  (50 <= 50 < 70
   /\ gcpcvs._do_api_delete (busy_env too_many_requests) 1 (Backup Fixture.region (JStr "b1"))
        30 []
      = (Raise (HTTPError 429), [Sent q; Slept 50]))
  /\ (50 <= 50 < 70
      /\ exists rest,
           snd (gcpcvs._do_api_delete (busy_env too_many_requests) 2
                  (Backup Fixture.region (JStr "b1")) 600 [])
           = Sent q :: Slept 50 :: Sent q :: rest).
Proof.
  intros q.
  assert (H30 : 30 <> 0) by discriminate.
  assert (H600 : 600 <> 0) by discriminate.
  split.
  - exact (executor_backs_off_on_429_and_409 (busy_env too_many_requests) 0 false
             (Backup Fixture.region (JStr "b1")) JNull [] too_many_requests
             (Fixture.message "Too many requests") 30 30000000 (Fixture.noon + 30000000)
             eq_refl eq_refl (or_introl eq_refl) H30 eq_refl eq_refl).
  - exact (executor_backs_off_on_429_and_409 (busy_env too_many_requests) 0 false
             (Backup Fixture.region (JStr "b1")) JNull [] too_many_requests
             (Fixture.message "Too many requests") 600 600000000 (Fixture.noon + 600000000)
             eq_refl eq_refl (or_introl eq_refl) H600 eq_refl eq_refl).
Defined.

(** ** The deadline bounds the attempts *)

Lemma randrange_inv E lo hi h z es :
  randrange E lo hi h = (Ret z, es) -> z = lo + entropy E h mod (hi - lo) /\ es = [].
Proof. unfold randrange. intros H. inversion H. auto. Qed.

(** A pass that goes round again has sent the request, slept 50 to 69 s
    and read a clock that is short of the deadline. *)
Lemma retry_pass_continue_inv E q timeout_seconds target_time h r es :
  gcpcvs.retry_pass E q timeout_seconds target_time h = (Ret (r, Continue), es) ->
  exists d, 50 <= d < 70 /\ es = [Sent q; Slept d] /\ clock E (h ++ es) < target_time.
Proof.
  unfold gcpcvs.retry_pass. intros H. inv_run; try discriminate.
  all: match goal with
       | Hs : send _ _ _ = _ |- _ => apply send_inv in Hs; destruct Hs as [_ ->]
       end.
  all: match goal with
       | Hz : randrange _ _ _ _ = _ |- _ => apply randrange_inv in Hz; destruct Hz as [-> ->]
       end.
  all: match goal with
       | Hc : (_ <=? _) = false |- _ => apply Z.leb_gt in Hc
       end.
  all: rewrite ?app_nil_r in *; cbn [app] in *; rewrite ?app_nil_r in *.
  all: eexists; split; [ apply randrange_50_70 | split; [ reflexivity | ] ].
  all: rewrite <- app_assoc in *; cbn [app] in *; assumption.
Qed.

Lemma silent_attempts es : forallb silent es = true -> attempts es = 0%nat.
Proof.
  unfold attempts. induction es as [| [q | d] es IH]; simpl; intros H;
    [ reflexivity | discriminate H | exact (IH H) ].
Qed.

Lemma retry_pass_attempts E q timeout_seconds target_time h :
  attempts (snd (gcpcvs.retry_pass E q timeout_seconds target_time h)) = 1%nat.
Proof.
  unfold gcpcvs.retry_pass. rewrite bind_run_events, attempts_app.
  assert (Hsend : snd (send E q h) = [Sent q])
    by (unfold send; destruct (respond E h q); reflexivity).
  rewrite Hsend. cbn [attempts filter is_sent List.length].
  destruct (fst (send E q h)) as [r | e |]; [ | reflexivity | reflexivity ].
  rewrite silent_attempts; [ reflexivity | ].
  match goal with
  | |- forallb silent (snd (?m ?x)) = true => generalize x; change (emits silent m)
  end.
  emits_walk.
Qed.

Lemma retry_loop_attempts E q timeout_seconds target_time fuel :
  forall h, (attempts (snd (gcpcvs.retry_loop E fuel q timeout_seconds target_time h))
             <= fuel)%nat.
Proof.
  induction fuel as [| fuel IH]; intros h; [ cbv; lia | ].
  cbn [gcpcvs.retry_loop]. rewrite bind_run_events, attempts_app, retry_pass_attempts.
  destruct (fst (gcpcvs.retry_pass E q timeout_seconds target_time h)) as [[r c] | e |];
    cbn [fst snd]; [ | cbv [attempts]; simpl; lia | cbv [attempts]; simpl; lia ].
  destruct c; [ cbv [attempts]; simpl; lia | ].
  match goal with |- context [gcpcvs.retry_loop E fuel _ _ _ ?x] => specialize (IH x) end.
  lia.
Qed.

Lemma job_queue_full_finishes reason : gcpcvs.job_queue_full reason <> OutOfFuel.
Proof.
  unfold gcpcvs.job_queue_full, contains, getitem.
  destruct reason as [| b | n | s | l | d]; cbn [obind]; try discriminate.
  - destruct (substring_in "message" s); discriminate.
  - destruct (existsb (is_str "message") l); discriminate.
  - destruct (assoc "message" d) as [msg |]; [ | discriminate ].
    destruct msg; discriminate.
Qed.

Lemma retry_pass_finishes E q timeout_seconds target_time h :
  fst (gcpcvs.retry_pass E q timeout_seconds target_time h) <> OutOfFuel.
Proof.
  unfold gcpcvs.retry_pass. rewrite bind_run_outcome.
  unfold send. destruct (respond E h q) as [r |]; cbn [fst snd]; [ | discriminate ].
  rewrite bind_run_outcome. unfold lift at 1. cbn [fst snd].
  destruct (json_of r) as [reason | e |] eqn:Hj; [ | discriminate | ].
  2: { unfold json_of in Hj. destruct (body r); discriminate. }
  destruct (timeout_seconds =? 0); [ discriminate | ].
  destruct (in_codes (status_code r) [200; 202]); [ discriminate | ].
  rewrite bind_run_outcome.
  destruct (in_codes (status_code r) [429; 409; 500]).
  - rewrite bind_run_outcome.
    destruct (status_code r =? 500).
    + rewrite bind_run_outcome. unfold lift at 1. cbn [fst snd].
      pose proof (job_queue_full_finishes reason) as Hq.
      destruct (gcpcvs.job_queue_full reason) as [[|] | e |]; try congruence;
        cbn; try destruct (_ <=? _); discriminate.
    + cbn. destruct (_ <=? _); discriminate.
  - cbn. discriminate.
Qed.

(** What a pass emits: the request, then at most one sleep of 50 to 69 s. *)
Lemma retry_pass_events E q timeout_seconds target_time h :
  snd (gcpcvs.retry_pass E q timeout_seconds target_time h) = [Sent q]
  \/ exists d, 50 <= d < 70
               /\ snd (gcpcvs.retry_pass E q timeout_seconds target_time h) = [Sent q; Slept d].
Proof.
  unfold gcpcvs.retry_pass, bind, send, lift, ret, randrange, sleep, now.
  destruct (respond E h q) as [r |]; [ | left; reflexivity ].
  destruct (json_of r) as [reason | e |]; [ | left; reflexivity | left; reflexivity ].
  destruct (timeout_seconds =? 0); [ left; reflexivity | ].
  destruct (in_codes (status_code r) [200; 202]); [ left; reflexivity | ].
  destruct (in_codes (status_code r) [429; 409; 500]); [ | left; reflexivity ].
  destruct (status_code r =? 500);
    [ destruct (gcpcvs.job_queue_full reason) as [[|] | e |];
      [ | left; reflexivity | left; reflexivity | left; reflexivity ] | ].
  all: right; eexists; split; [ apply randrange_50_70 | ].
  all: cbn -[Z.add Z.sub Z.modulo Z.leb].
  all: match goal with |- context [if ?c then _ else _] => destruct c end; reflexivity.
Qed.

Lemma retry_pass_slept E q timeout_seconds target_time h :
  0 <= slept (snd (gcpcvs.retry_pass E q timeout_seconds target_time h)) < 70.
Proof.
  destruct (retry_pass_events E q timeout_seconds target_time h) as [-> | (d & Hd & ->)];
    simpl; lia.
Qed.

Section Deadline.
Variable E : Env.
Variables (q : request) (h : trace) (timeout_seconds target_time : Z).
Hypothesis Hclock :
  forall es, slept es < timeout_seconds + 70 ->
             clock E h + 1000000 * slept es <= clock E (h ++ es).
Hypothesis Htarget : target_time = clock E h + 1000000 * timeout_seconds.

(** [budget] passes are enough once the time slept is within
    [50 * budget] seconds of the window. *)
Lemma retry_loop_within_budget :
  forall budget fuel es0,
    (budget <= fuel)%nat ->
    slept es0 < timeout_seconds ->
    timeout_seconds - slept es0 <= 50 * Z.of_nat budget ->
    let run := gcpcvs.retry_loop E fuel q timeout_seconds target_time (h ++ es0) in
    fst run <> OutOfFuel
    /\ (attempts (snd run) <= budget)%nat
    /\ slept es0 + slept (snd run) < timeout_seconds + 70.
Proof.
  induction budget as [| budget IH]; intros fuel es0 Hfuel Hs Hb; [ lia | ].
  destruct fuel as [| fuel]; [ lia | ].
  cbn [gcpcvs.retry_loop]. cbv zeta.
  rewrite bind_run_outcome, bind_run_events, attempts_app, slept_app, retry_pass_attempts.
  pose proof (retry_pass_finishes E q timeout_seconds target_time (h ++ es0)) as Hfin.
  pose proof (retry_pass_slept E q timeout_seconds target_time (h ++ es0)) as Hsl.
  destruct (gcpcvs.retry_pass E q timeout_seconds target_time (h ++ es0))
    as [[[r c] | e |] es] eqn:Hpass; cbn [fst snd] in *.
  - destruct c.
    + split; [ discriminate | cbv [attempts]; simpl; lia ].
    + apply retry_pass_continue_inv in Hpass. destruct Hpass as (d & Hd & -> & Hlt).
      rewrite <- app_assoc in *.
      assert (Hs' : slept (es0 ++ [Sent q; Slept d]) = slept es0 + d)
        by (rewrite slept_app; simpl; lia).
      pose proof (Hclock (es0 ++ [Sent q; Slept d])) as Hc. rewrite Hs' in Hc.
      assert (Hle : clock E h + 1000000 * (slept es0 + d)
                    <= clock E (h ++ es0 ++ [Sent q; Slept d])) by (apply Hc; lia).
      destruct (IH fuel (es0 ++ [Sent q; Slept d])) as (H1 & H2 & H3); try lia.
      split; [ exact H1 | ]. simpl slept in *. lia.
  - split; [ discriminate | cbv [attempts]; simpl; lia ].
  - congruence.
Qed.

End Deadline.

Lemma retrying_within_deadline E fuel q timeout_seconds h :
  0 < timeout_seconds ->
  (forall es, slept es < timeout_seconds + 70 ->
              clock E h + 1000000 * slept es <= clock E (h ++ es)) ->
  (timeout_seconds - 1) / 50 + 1 <= Z.of_nat fuel ->
  let run := gcpcvs.retrying E fuel q timeout_seconds h in
  fst run <> OutOfFuel
  /\ Z.of_nat (attempts (snd run)) <= (timeout_seconds - 1) / 50 + 1
  /\ slept (snd run) < timeout_seconds + 70.
Proof.
  intros Hpos Hclock Hfuel run. subst run.
  pose proof (Z.div_pos (timeout_seconds - 1) 50 ltac:(lia) ltac:(lia)) as Hdiv.
  pose proof (Z.mul_succ_div_gt (timeout_seconds - 1) 50 ltac:(lia)) as Hgt.
  unfold gcpcvs.retrying. rewrite bind_now.
  destruct (Datetime.timedelta_seconds timeout_seconds) as [delta | e |] eqn:Hdelta;
    [ | cbn; repeat split; [ discriminate | lia | lia ]
      | unfold Datetime.timedelta_seconds in Hdelta;
        destruct (_ && _) in Hdelta; discriminate ].
  assert (delta = 1000000 * timeout_seconds) as ->.
  { unfold Datetime.timedelta_seconds in Hdelta.
    destruct (_ && _) in Hdelta; inversion Hdelta. lia. }
  rewrite bind_lift_ret.
  destruct (Datetime.add (clock E h) (1000000 * timeout_seconds)) as [target | e |] eqn:Hadd;
    [ | cbn; repeat split; [ discriminate | lia | lia ]
      | unfold Datetime.add in Hadd; destruct (_ && _) in Hadd; discriminate ].
  assert (target = clock E h + 1000000 * timeout_seconds) as ->.
  { unfold Datetime.add in Hadd. destruct (_ && _) in Hadd; inversion Hadd. reflexivity. }
  rewrite bind_lift_ret.
  set (budget := Z.to_nat ((timeout_seconds - 1) / 50 + 1)).
  destruct (retry_loop_within_budget E q h timeout_seconds _ Hclock eq_refl budget fuel [])
    as (Hfin & Hatt & Hsl); try (subst budget; simpl slept; lia).
  rewrite app_nil_r in Hfin, Hatt, Hsl. change (slept []) with 0 in Hsl.
  rewrite bind_run_outcome, bind_run_events, attempts_app, slept_app.
  destruct (gcpcvs.retry_loop E fuel q timeout_seconds
              (clock E h + 1000000 * timeout_seconds) h) as [[r | e |] es];
    cbn [fst snd] in *; [ | | congruence ].
  - assert (Hend : fst ((lift (raise_for_status r) ;;; ret r) (h ++ es)) <> OutOfFuel
                   /\ snd ((lift (raise_for_status r) ;;; ret r) (h ++ es)) = []).
    { unfold lift, raise_for_status, bind, ret.
      destruct ((400 <=? status_code r) && (status_code r <? 600)); cbn;
        (split; [ discriminate | reflexivity ]). }
    destruct Hend as [Hend ->]. split; [ exact Hend | ].
    change (attempts []) with 0%nat. change (slept []) with 0. subst budget. lia.
  - change (attempts []) with 0%nat. change (slept []) with 0.
    split; [ discriminate | subst budget; lia ].
Qed.

Lemma retry_loop_events E q timeout_seconds target_time fuel :
  forall h,
    Forall (fun e => e = Sent q \/ exists d, e = Slept d /\ 50 <= d < 70)
           (snd (gcpcvs.retry_loop E fuel q timeout_seconds target_time h)).
Proof.
  induction fuel as [| fuel IH]; intros h; [ constructor | ].
  cbn [gcpcvs.retry_loop]. rewrite bind_run_events. apply Forall_app. split.
  - destruct (retry_pass_events E q timeout_seconds target_time h) as [-> | (d & Hd & ->)].
    + constructor; [ left; reflexivity | constructor ].
    + constructor; [ left; reflexivity | ].
      constructor; [ right; exists d; split; [ reflexivity | exact Hd ] | constructor ].
  - destruct (fst (gcpcvs.retry_pass E q timeout_seconds target_time h)) as [[r c] | e |];
      [ | constructor | constructor ].
    destruct c; cbn [snd fst]; [ constructor | apply IH ].
Qed.

(** X3. With a window that is not zero, [_do_api_post] and
    [_do_api_delete] keep to their deadline when the clock advances by at
    least the time slept: whatever the service answers, the call ends (the
    loop needs no more than [(timeout_seconds - 1) / 50 + 1] passes), it
    sends the request at most that many times, and it sleeps less than
    [timeout_seconds + 70] seconds in all. *)
Theorem executor_deadline_bounds_attempts :
  forall E fuel (post : bool) u payload timeout_seconds h,
    let run :=
      if post then gcpcvs._do_api_post E fuel u payload timeout_seconds h
      else gcpcvs._do_api_delete E fuel u timeout_seconds h in
    0 < timeout_seconds ->
    (forall es, slept es < timeout_seconds + 70 ->
                clock E h + 1000000 * slept es <= clock E (h ++ es)) ->
    (timeout_seconds - 1) / 50 + 1 <= Z.of_nat fuel ->
    fst run <> OutOfFuel
    /\ Z.of_nat (attempts (snd run)) <= (timeout_seconds - 1) / 50 + 1
    /\ slept (snd run) < timeout_seconds + 70.
Proof.
  intros E fuel post u payload timeout_seconds h run Hpos Hclock Hfuel.
  subst run. destruct post; apply retrying_within_deadline; assumption.
Qed.

Lemma executor_deadline_bounds_attempts_witness :
  let run := gcpcvs._do_api_post (busy_env too_many_requests) 12 (Backups Fixture.region)
               (JDict []) 600 [] in
  fst run <> OutOfFuel /\ Z.of_nat (attempts (snd run)) <= 12 /\ slept (snd run) < 670.
Proof.
  assert (Hpos : 0 < 600) by reflexivity.
  assert (Hfuel : (600 - 1) / 50 + 1 <= Z.of_nat 12) by discriminate.
  refine (executor_deadline_bounds_attempts (busy_env too_many_requests) 12 true
            (Backups Fixture.region) (JDict []) 600 [] Hpos _ Hfuel).
  intros es Hes. cbn [clock busy_env app]. unfold ticking. change (slept []) with 0.
  unfold Fixture.noon, Datetime.span, Datetime.us_per_day. lia.
Defined.

(** X4. Whatever the service answers and however long the loop runs,
    [_do_api_post] and [_do_api_delete] send nothing but the request they
    were given, unchanged at every attempt, and never sleep less than 50
    or more than 69 seconds at a time. *)
Theorem executor_only_repeats_its_request :
  forall E fuel (post : bool) u payload timeout_seconds h,
    let q := if post then mkRequest POST u (Some payload) else mkRequest DELETE u None in
    let run :=
      if post then gcpcvs._do_api_post E fuel u payload timeout_seconds h
      else gcpcvs._do_api_delete E fuel u timeout_seconds h in
    Forall (fun e => e = Sent q \/ exists d, e = Slept d /\ 50 <= d < 70) (snd run).
Proof.
  intros E fuel post u payload timeout_seconds h q run.
  assert (Hrun : run = gcpcvs.retrying E fuel q timeout_seconds h)
    by (subst run q; destruct post; reflexivity).
  rewrite Hrun. clear Hrun run. unfold gcpcvs.retrying.
  rewrite bind_now.
  destruct (Datetime.timedelta_seconds timeout_seconds) as [delta | e |];
    [ | constructor | constructor ].
  rewrite bind_lift_ret.
  destruct (Datetime.add (clock E h) delta) as [target | e |];
    [ | constructor | constructor ].
  rewrite bind_lift_ret, bind_run_events. apply Forall_app. split.
  - apply retry_loop_events.
  - destruct (fst (gcpcvs.retry_loop E fuel q timeout_seconds target h)) as [r | e |];
      [ | constructor | constructor ].
    unfold lift, raise_for_status, bind, ret.
    destruct ((400 <=? status_code r) && (status_code r <? 600)); constructor.
Qed.

(** ** The retry loops of the older class *)

Section JobQueueStaysFull.
Variable E : Env.
Variables (q : request) (r : response) (reason : json).
Hypothesis Hrespond : forall h, respond E h q = Some r.
Hypothesis Hstatus : status_code r = 500.
Hypothesis Hbody : body r = Some reason.

Lemma createVolume_loop_exhausted region payload :
  q = mkRequest POST (Volumes region) (Some payload) ->
  GCPCVS.job_queue_full reason = Ret true ->
  forall n last h,
    GCPCVS.createVolume_loop E n region payload last h
    = (Ret (match n with O => last | S _ => Some r end), rounds n q 60).
Proof.
  intros Hq Hfull. induction n as [| n IH]; intros last h; [ reflexivity | ].
  rewrite (createVolume_loop_500 E region payload h r reason); rewrite <- ?Hq; auto.
  rewrite Hfull, IH. destruct n; reflexivity.
Qed.

Lemma deleteVolume_loop_exhausted region volumeID :
  q = mkRequest DELETE (Volume region (JStr volumeID)) None ->
  GCPCVS.delete_queue_full reason = Ret true ->
  forall n last h,
    GCPCVS.deleteVolume_loop E n region volumeID last h
    = (Ret (match n with O => last | S _ => Some r end), rounds n q 60).
Proof.
  intros Hq Hfull. induction n as [| n IH]; intros last h; [ reflexivity | ].
  cbn [GCPCVS.deleteVolume_loop]. unfold requests_delete. rewrite <- Hq.
  rewrite (bind_ret_run _ _ _ _ _ (send_run E q h r (Hrespond h))).
  rewrite Hstatus. change (500 =? 500) with true. cbv iota.
  rewrite (json_of_run r reason Hbody), bind_lift_ret, Hfull, bind_lift_ret, bind_sleep.
  rewrite <- app_assoc, IH. destruct n; reflexivity.
Qed.

End JobQueueStaysFull.

(** X5. [createVolume] of the older class counts [timeout] in attempts,
    not in minutes of waiting for the volume: while every POST is answered
    with the job-queue 500 it sends the request [timeout] times, sleeping
    60 s after each one (the last included), and then raises the 500. *)
Theorem createVolume_gives_up_after_timeout_attempts :
  forall E fuel region payload timeout h r reason,
    let q := mkRequest POST (Volumes region) (Some payload) in
    0 < timeout ->
    (forall h', respond E h' q = Some r) ->
    status_code r = 500 ->
    body r = Some reason ->
    GCPCVS.job_queue_full reason = Ret true ->
    GCPCVS.createVolume E fuel region payload timeout h
    = (Raise (HTTPError 500), rounds (Z.to_nat timeout) q 60).
Proof.
  intros E fuel region payload timeout h r reason q Ht Hr Hs Hb Hfull.
  unfold GCPCVS.createVolume.
  rewrite (bind_ret_run _ _ _ _ _
             (createVolume_loop_exhausted E q r reason Hr Hs Hb region payload eq_refl Hfull
                (Z.to_nat timeout) None h)).
  destruct (Z.to_nat timeout) as [| n] eqn:Hn; [ lia | ].
  rewrite (raise_for_status_500 r Hs). cbn [bind lift fst snd]. rewrite app_nil_r. reflexivity.
Qed.

Lemma createVolume_gives_up_after_timeout_attempts_witness :
  let q := mkRequest POST (Volumes Fixture.region) (Some (JDict [])) in
  GCPCVS.createVolume
    (no_job_slot "Error creating volume - Cannot spawn additional jobs") 0
    Fixture.region (JDict []) 3 []
  = (Raise (HTTPError 500), [Sent q; Slept 60; Sent q; Slept 60; Sent q; Slept 60]).
Proof.
  assert (H3 : 0 < 3) by reflexivity.
  exact (createVolume_gives_up_after_timeout_attempts
           (no_job_slot "Error creating volume - Cannot spawn additional jobs") 0
           Fixture.region (JDict []) 3 [] _ _ H3 (fun _ => eq_refl) eq_refl eq_refl eq_refl).
Defined.

(** X6. Called with a [timeout] that is zero or negative, [createVolume]
    of the older class never enters its loop: it sends nothing and fails
    on the unassigned response with [UnboundLocalError]. *)
Theorem createVolume_without_attempt_is_unbound :
  forall E fuel region payload timeout h,
    timeout <= 0 ->
    GCPCVS.createVolume E fuel region payload timeout h = (Raise UnboundLocalError, []).
Proof.
  intros E fuel region payload timeout h Ht. unfold GCPCVS.createVolume.
  replace (Z.to_nat timeout) with 0%nat by lia. reflexivity.
Qed.

Lemma createVolume_without_attempt_is_unbound_witness :
  GCPCVS.createVolume Fixture.rotation_env 0 Fixture.region (JDict []) 0 []
  = (Raise UnboundLocalError, []).
Proof.
  assert (H0 : 0 <= 0) by discriminate.
  exact (createVolume_without_attempt_is_unbound Fixture.rotation_env 0 Fixture.region
           (JDict []) 0 [] H0).
Defined.

(** X7. [deleteVolumeByVolumeID] of the older class gives up after ten
    attempts: while every DELETE is answered with the job-queue 500 it
    sends the request ten times, sleeping 60 s after each one, and then
    raises the 500. *)
Theorem deleteVolume_gives_up_after_ten_attempts :
  forall E region volumeID h r reason,
    let q := mkRequest DELETE (Volume region (JStr volumeID)) None in
    (forall h', respond E h' q = Some r) ->
    status_code r = 500 ->
    body r = Some reason ->
    GCPCVS.delete_queue_full reason = Ret true ->
    GCPCVS.deleteVolumeByVolumeID E region volumeID h
    = (Raise (HTTPError 500), rounds 10 q 60).
Proof.
  intros E region volumeID h r reason q Hr Hs Hb Hfull.
  unfold GCPCVS.deleteVolumeByVolumeID.
  rewrite (bind_ret_run _ _ _ _ _
             (deleteVolume_loop_exhausted E q r reason Hr Hs Hb region volumeID eq_refl Hfull
                10%nat None h)).
  rewrite (raise_for_status_500 r Hs). cbn [bind lift fst snd]. rewrite app_nil_r. reflexivity.
Qed.

Lemma deleteVolume_gives_up_after_ten_attempts_witness :
  let q := mkRequest DELETE (Volume Fixture.region (JStr Fixture.volumeID)) None in
  GCPCVS.deleteVolumeByVolumeID
    (no_job_slot "Error deleting volume - Cannot spawn additional jobs")
    Fixture.region Fixture.volumeID []
  = (Raise (HTTPError 500), rounds 10 q 60).
Proof.
  exact (deleteVolume_gives_up_after_ten_attempts
           (no_job_slot "Error deleting volume - Cannot spawn additional jobs")
           Fixture.region Fixture.volumeID [] _ _ (fun _ => eq_refl) eq_refl eq_refl eq_refl).
Defined.

(** ** Deleting and creating one backup *)

Lemma deleteBackup_loop_step E region backupID fuel h :
  let q := mkRequest DELETE (Backup region backupID) None in
  GCPCVS.deleteBackup_loop E (S fuel) region backupID h
  = match respond E h q with
    | None => (Raise ConnectionError, [Sent q])
    | Some r =>
        if status_code r =? 429
        then (fst (GCPCVS.deleteBackup_loop E fuel region backupID (h ++ [Sent q; Slept 5])),
              Sent q :: Slept 5
                :: snd (GCPCVS.deleteBackup_loop E fuel region backupID
                          (h ++ [Sent q; Slept 5])))
        else (Ret r, [Sent q])
    end.
Proof.
  intros q. cbn [GCPCVS.deleteBackup_loop]. unfold requests_delete. fold q.
  unfold bind at 1, send. destruct (respond E h q) as [r |]; [ | reflexivity ].
  destruct (status_code r =? 429); cbn [negb]; [ | reflexivity ].
  rewrite bind_sleep, <- app_assoc. reflexivity.
Qed.

(** The whole run of the loop: [n] attempts answered 429, each followed
    by a sleep of 5 s, and then the attempt that ends it. *)
Lemma deleteBackup_loop_runs E region backupID fuel :
  forall h,
    let q := mkRequest DELETE (Backup region backupID) None in
    let run := GCPCVS.deleteBackup_loop E fuel region backupID h in
    exists n,
      (forall i, (i < n)%nat ->
         exists r, respond E (h ++ rounds i q 5) q = Some r /\ status_code r = 429)
      /\ ((n = fuel /\ run = (OutOfFuel, rounds n q 5))
          \/ ((n < fuel)%nat
              /\ respond E (h ++ rounds n q 5) q = None
              /\ run = (Raise ConnectionError, rounds n q 5 ++ [Sent q]))
          \/ ((n < fuel)%nat
              /\ exists r,
                   respond E (h ++ rounds n q 5) q = Some r
                   /\ status_code r <> 429
                   /\ run = (Ret r, rounds n q 5 ++ [Sent q]))).
Proof.
  induction fuel as [| fuel IH]; intros h q run; subst run.
  - exists 0%nat. split; [ intros i Hi; lia | ]. left. split; reflexivity.
  - rewrite deleteBackup_loop_step. fold q.
    destruct (respond E h q) as [r |] eqn:Hr.
    + destruct (status_code r =? 429) eqn:Hs.
      * apply Z.eqb_eq in Hs.
        destruct (IH (h ++ [Sent q; Slept 5])) as (n & Hbefore & Hend).
        fold q in Hbefore, Hend.
        assert (Hshift : forall k, (h ++ [Sent q; Slept 5]) ++ rounds k q 5
                                   = h ++ rounds (S k) q 5)
          by (intros k; rewrite <- app_assoc; reflexivity).
        exists (S n). split.
        { intros [| i] Hi.
          - exists r. cbn [rounds]. rewrite app_nil_r. auto.
          - destruct (Hbefore i ltac:(lia)) as (r' & Hr' & Hs').
            exists r'. rewrite <- Hshift. auto. }
        rewrite Hshift in Hend.
        destruct Hend as [(-> & Hrun) | [(Hn & Hnone & Hrun) | (Hn & r' & Hr' & Hs' & Hrun)]];
          rewrite Hrun; cbn [fst snd].
        -- left. split; reflexivity.
        -- right. left. split; [ lia | ]. split; [ exact Hnone | reflexivity ].
        -- right. right. split; [ lia | ]. exists r'. auto.
      * apply Z.eqb_neq in Hs. exists 0%nat. split; [ intros i Hi; lia | ].
        right. right. split; [ lia | ]. exists r. cbn [rounds app]. rewrite app_nil_r. auto.
    + exists 0%nat. split; [ intros i Hi; lia | ].
      right. left. split; [ lia | ]. cbn [rounds app]. rewrite app_nil_r. auto.
Qed.

(** X8. [deleteBackupByBackupID] of the older class never raises for a
    status: the only exception it lets out is the transport's.  Its run
    is [n] DELETEs of that backup, each answered 429 and followed by a
    sleep of 5 s, and then one more DELETE: when the transport fails
    there, [ConnectionError]; otherwise that answer is the first that is
    not a 429 and the result is whether its status is 200 or 202, a 4xx or
    5xx giving [False].  Nothing else is sent and nothing else ends the
    loop. *)
Theorem deleteBackup_old_reports_status_as_bool :
  forall E fuel region backupID h,
    let q := mkRequest DELETE (Backup region backupID) None in
    let run := GCPCVS.deleteBackupByBackupID E fuel region backupID h in
    exists n,
      (forall i, (i < n)%nat ->
         exists r, respond E (h ++ rounds i q 5) q = Some r /\ status_code r = 429)
      /\ ((n = fuel /\ run = (OutOfFuel, rounds n q 5))
          \/ ((n < fuel)%nat
              /\ respond E (h ++ rounds n q 5) q = None
              /\ run = (Raise ConnectionError, rounds n q 5 ++ [Sent q]))
          \/ ((n < fuel)%nat
              /\ exists r,
                   respond E (h ++ rounds n q 5) q = Some r
                   /\ status_code r <> 429
                   /\ run = (Ret ((status_code r =? 200) || (status_code r =? 202)),
                             rounds n q 5 ++ [Sent q]))).
Proof.
  intros E fuel region backupID h q run. subst run.
  destruct (deleteBackup_loop_runs E region backupID fuel h) as (n & Hbefore & Hend).
  fold q in Hbefore, Hend. exists n. split; [ exact Hbefore | ].
  unfold GCPCVS.deleteBackupByBackupID.
  destruct Hend as [(Hn & Hrun) | [(Hn & Hnone & Hrun) | (Hn & r & Hr & Hs & Hrun)]].
  - left. split; [ exact Hn | ]. rewrite (bind_fuel_run _ _ _ _ Hrun). reflexivity.
  - right. left. split; [ exact Hn | ]. split; [ exact Hnone | ].
    rewrite (bind_raise_run _ _ _ _ _ Hrun). reflexivity.
  - right. right. split; [ exact Hn | ]. exists r. split; [ exact Hr | ].
    split; [ exact Hs | ].
    rewrite (bind_ret_run _ _ _ _ _ Hrun). cbn [ret fst snd]. rewrite app_nil_r. reflexivity.
Qed.

(** X9. [createBackup] of the older class never looks at the kind of
    refusal: any answer whose status is neither 201 nor 202, a 4xx or 5xx
    included and whatever its body, makes it return [False] after that one
    POST, with no exception and no poll. *)
Theorem createBackup_old_refusal_is_false :
  forall E fuel region volumeID name h r,
    let q := mkRequest POST (Backups region)
               (Some (JDict [("name", JStr name); ("volumeId", JStr volumeID)])) in
    respond E h q = Some r ->
    status_code r <> 201 ->
    status_code r <> 202 ->
    GCPCVS.createBackup E fuel region volumeID name h = (Ret false, [Sent q]).
Proof.
  intros E fuel region volumeID name h r q Hr H201 H202.
  unfold GCPCVS.createBackup, requests_post. fold q.
  rewrite (bind_ret_run _ _ _ _ _ (send_run E q h r Hr)).
  apply Z.eqb_neq in H201, H202. rewrite H201, H202. reflexivity.
Qed.

Lemma createBackup_old_refusal_is_false_witness :
  GCPCVS.createBackup (Fixture.constant_env Fixture.other_500) 0 Fixture.region
    Fixture.volumeID "nightly" []
  = (Ret false,
     [Sent (mkRequest POST (Backups Fixture.region)
              (Some (JDict [("name", JStr "nightly"); ("volumeId", JStr Fixture.volumeID)])))]).
Proof.
  assert (H201 : 500 <> 201) by discriminate.
  assert (H202 : 500 <> 202) by discriminate.
  exact (createBackup_old_refusal_is_false (Fixture.constant_env Fixture.other_500) 0
           Fixture.region Fixture.volumeID "nightly" [] Fixture.other_500 eq_refl H201 H202).
Defined.

(** X10. [createBackup] of the newer class accepts less than the executor
    under it: a POST answered 200, which [_do_api_post] hands back as a
    success, is neither 201 nor 202, so the method returns [False] after
    that one request without polling the backup. *)
Theorem createBackup_new_rejects_200 :
  forall E fuel region volumeID name h r v target_time,
    let q := mkRequest POST (Backups region)
               (Some (JDict [("name", JStr name); ("volumeId", JStr volumeID)])) in
    respond E h q = Some r ->
    body r = Some v ->
    status_code r = 200 ->
    Datetime.add (clock E h) 600000000 = Ret target_time ->
    gcpcvs.createBackup E (S fuel) region volumeID name h = (Ret false, [Sent q]).
Proof.
  intros E fuel region volumeID name h r v target_time q Hr Hb Hs Htarget.
  unfold gcpcvs.createBackup, gcpcvs._do_api_post. fold q.
  assert (Hpost : gcpcvs.retrying E (S fuel) q (10 * 60) h = (Ret r, [Sent q])).
  { rewrite (retrying_final E fuel q (10 * 60) 600000000 target_time h eq_refl Htarget).
    - unfold single_attempt. rewrite Hr, Hb, Hs. reflexivity.
    - intros r' Hr'. rewrite Hr in Hr'. inversion Hr'; subst r'. rewrite Hs. reflexivity. }
  rewrite (bind_ret_run _ _ _ _ _ Hpost), Hs. reflexivity.
Qed.

Lemma createBackup_new_rejects_200_witness :
  gcpcvs.createBackup (Fixture.constant_env (mkResponse 200 (Some (JDict [])))) 1
    Fixture.region Fixture.volumeID "nightly" []
  = (Ret false,
     [Sent (mkRequest POST (Backups Fixture.region)
              (Some (JDict [("name", JStr "nightly"); ("volumeId", JStr Fixture.volumeID)])))]).
Proof.
  exact (createBackup_new_rejects_200 (Fixture.constant_env (mkResponse 200 (Some (JDict []))))
           0 Fixture.region Fixture.volumeID "nightly" [] (mkResponse 200 (Some (JDict [])))
           (JDict []) (Fixture.noon + 600000000) eq_refl eq_refl eq_refl eq_refl).
Defined.

(** ** Methods that look an object up by name *)

(** X11. In both classes [deleteBackupByName] asks [self] for
    [getBackupsByVolume], a name no class binds (the method is
    [getBackupsByVolumeID]): whatever its arguments and whatever the
    service would answer, the call raises [AttributeError] before a single
    request is sent. *)
Theorem deleteBackupByName_never_reaches_the_service :
  forall c E fuel region volumeID name h,
    deleteBackupByName (self_of c E fuel) region volumeID name h = (Raise AttributeError, []).
Proof. intros [|] E fuel region volumeID name h; reflexivity. Qed.

Lemma for_each_unbound c E fuel region items h :
  for_each (call_deleteBackupbyBackupID (self_of c E fuel) region) items h
  = (match items with [] => Ret tt | _ :: _ => Raise AttributeError end, []).
Proof.
  destruct items as [| b items]; [ reflexivity | ].
  cbn [for_each]. apply bind_raise_run, call_unbound.
Qed.

(** The read at the head of both methods: one GET, then the status, then
    the body. *)
Lemma listing_run c E fuel region volumeID h :
  self_getBackupsByVolumeID (self_of c E fuel) region volumeID h
  = (match respond E h (mkRequest GET (VolumeBackups region volumeID) None) with
     | None => Raise ConnectionError
     | Some r => obind (raise_for_status r) (fun _ => json_of r)
     end,
     [Sent (mkRequest GET (VolumeBackups region volumeID) None)]).
Proof.
  destruct c; cbn [self_of self_getBackupsByVolumeID GCPCVS.self gcpcvs.self];
    [ unfold GCPCVS.getBackupsByVolumeID, GCPCVS._do_api_get
    | unfold gcpcvs.getBackupsByVolumeID, gcpcvs._do_api_get ];
    unfold requests_get, bind, send, lift, ret;
    (destruct (respond E h _) as [r |]; [ | reflexivity ]);
    (destruct (raise_for_status r) as [[] | e |]; [ | reflexivity | reflexivity ]);
    cbn [obind app]; destruct (json_of r); reflexivity.
Qed.

(** X12. In both classes [deleteAllBackupsByVolumeID] deletes nothing: it
    reads the backups of the volume once and sends no other request; on an
    empty listing it returns, and on any listing with a first item it
    raises [AttributeError], the loop body calling the unbound
    [deleteBackupbyBackupID]. *)
Theorem deleteAllBackups_deletes_nothing :
  forall c E fuel region volumeID h,
    let q := mkRequest GET (VolumeBackups region volumeID) None in
    let run := deleteAllBackupsByVolumeID (self_of c E fuel) region volumeID h in
    snd run = [Sent q]
    /\ forall r v items,
         respond E h q = Some r ->
         raise_for_status r = Ret tt ->
         body r = Some v ->
         iter v = Ret items ->
         fst run = match items with [] => Ret tt | _ :: _ => Raise AttributeError end.
Proof.
  intros c E fuel region volumeID h q run. subst run.
  unfold deleteAllBackupsByVolumeID.
  rewrite bind_run_events, bind_run_outcome, listing_run. fold q. cbn [fst snd].
  split.
  - destruct (respond E h q) as [r |]; [ | reflexivity ].
    destruct (obind (raise_for_status r) (fun _ => json_of r)) as [v | e |];
      [ | reflexivity | reflexivity ].
    unfold bind, lift. destruct (iter v) as [items | e |]; [ | reflexivity | reflexivity ].
    rewrite for_each_unbound. reflexivity.
  - intros r v items Hr Hs Hb Hi. rewrite Hr, Hs. cbn [obind]. unfold json_of. rewrite Hb.
    unfold bind, lift. rewrite Hi, for_each_unbound. reflexivity.
Qed.

Lemma deleteAllBackups_deletes_nothing_witness :
  let q := mkRequest GET (VolumeBackups Fixture.region Fixture.volumeID) None in
  deleteAllBackupsByVolumeID (self_of NewClient Fixture.rotation_env 3) Fixture.region
    Fixture.volumeID []
  = (Raise AttributeError, [Sent q]).
Proof.
  intros q.
  destruct (deleteAllBackups_deletes_nothing NewClient Fixture.rotation_env 3 Fixture.region
              Fixture.volumeID []) as [Hevents Hout].
  specialize (Hout _ _ _ eq_refl eq_refl eq_refl eq_refl).
  fold q in Hevents.
  destruct (deleteAllBackupsByVolumeID (self_of NewClient Fixture.rotation_env 3)
              Fixture.region Fixture.volumeID []) as [o es].
  cbn [fst snd] in *. subst. reflexivity.
Defined.

Lemma has_name_named volname v b :
  named volname v = Ret b -> has_name volname v = b.
Proof.
  unfold named, has_name. destruct (getitem v "name") as [n | e |]; simpl; intros H;
    inversion H; reflexivity.
Qed.

(** X13. [getVolumesByName] of the older class makes one GET of the
    region's volumes and, when it returns, returns exactly the entries of
    that listing whose "name" is [volname], in the order of the listing
    and as often as they are listed: each of them, however many share the
    name, and nothing else.  Every entry of the listing then had a
    "name". *)
Theorem getVolumesByName_old_returns_every_match :
  forall E region volname h vols es,
    GCPCVS.getVolumesByName E region volname h = (Ret vols, es) ->
    let q := mkRequest GET (Volumes region) None in
    es = [Sent q]
    /\ exists r listing items,
         respond E h q = Some r
         /\ body r = Some listing
         /\ iter listing = Ret items
         /\ Forall (fun v => exists n, getitem v "name" = Ret n) items
         /\ vols = filter (has_name volname) items.
Proof.
  intros E region volname h vols es H q. unfold GCPCVS.getVolumesByName in H. inv_run.
  match goal with Hg : GCPCVS._do_api_get _ _ _ = _ |- _ =>
    apply get_inv_old in Hg; destruct Hg as [Hg ->] end.
  match goal with Hj : json_of _ = _ |- _ => apply json_of_inv in Hj end.
  split; [ reflexivity | ].
  match goal with
  | Hf : filterM (named volname) ?items = Ret vols |- _ =>
      destruct (filterM_filter _ _ _ Hf) as [Hall Heq]
  end.
  do 3 eexists. repeat split; eauto.
  - eapply Forall_impl; [ | exact Hall ]. intros v [b Hb]. unfold named in Hb.
    destruct (getitem v "name") as [n | e |]; try discriminate. eauto.
  - rewrite Heq. apply filter_ext_in. intros v Hv.
    rewrite Forall_forall in Hall. destruct (Hall v Hv) as [b Hb].
    rewrite Hb. symmetry. rewrite (has_name_named _ _ _ Hb). destruct b; reflexivity.
Qed.

Lemma getVolumesByName_old_returns_every_match_witness :
  let twin := JDict [("name", JStr "vol1"); ("volumeId", JStr "0001")] in
  let other := JDict [("name", JStr "vol2"); ("volumeId", JStr "0002")] in
  let E := Fixture.constant_env (mkResponse 200 (Some (JList [twin; other; twin]))) in
  let q := mkRequest GET (Volumes Fixture.region) None in
  [Sent q] = [Sent q]
  /\ exists r listing items,
       respond E [] q = Some r
       /\ body r = Some listing
       /\ iter listing = Ret items
       /\ Forall (fun v => exists n, getitem v "name" = Ret n) items
       /\ [twin; twin] = filter (has_name "vol1") items.
Proof.
  intros twin other E q.
  exact (getVolumesByName_old_returns_every_match E Fixture.region "vol1" [] [twin; twin]
           [Sent q] eq_refl).
Defined.

(** X14. [getVolumesByName] of the newer class returns at most one
    volume.  Exactly one entry of the listing named [name] is looked up by
    its "volumeId" with a second GET and that answer is the single element
    returned; no entry of that name, or two and more of them, both give
    the empty list after the one GET of the listing. *)
Theorem getVolumesByName_new_needs_a_unique_name :
  forall E region name h vols es,
    gcpcvs.getVolumesByName E region name h = (Ret vols, es) ->
    let q := mkRequest GET (Volumes region) None in
    exists r listing items matching,
      respond E h q = Some r
      /\ body r = Some listing
      /\ iter listing = Ret items
      /\ filterM (named name) items = Ret matching
      /\ match matching with
         | [v0] =>
             exists volumeId r1 volume,
               getitem v0 "volumeId" = Ret volumeId
               /\ respond E (h ++ [Sent q]) (mkRequest GET (Volume region volumeId) None)
                  = Some r1
               /\ body r1 = Some volume
               /\ vols = [volume]
               /\ es = [Sent q; Sent (mkRequest GET (Volume region volumeId) None)]
         | _ => vols = [] /\ es = [Sent q]
         end.
Proof.
  intros E region name h vols es H q. unfold gcpcvs.getVolumesByName in H.
  apply bind_inv_ret in H. destruct H as (r & es1 & es2 & Hget & H & ->).
  apply get_inv_new in Hget. destruct Hget as [Hr ->].
  apply bind_inv_ret in H. destruct H as (listing & ? & es3 & Hj & H & ->).
  apply lift_inv_ret in Hj. destruct Hj as [Hj ->]. apply json_of_inv in Hj.
  apply bind_inv_ret in H. destruct H as (items & ? & es4 & Hi & H & ->).
  apply lift_inv_ret in Hi. destruct Hi as [Hi ->].
  apply bind_inv_ret in H. destruct H as (matching & ? & es5 & Hf & H & ->).
  apply lift_inv_ret in Hf. destruct Hf as [Hf ->].
  rewrite ?app_nil_r in H. cbn [app].
  exists r, listing, items, matching. do 4 (split; [ assumption | ]).
  destruct matching as [| v0 [| v1 rest]]; cbn [List.length Nat.eqb] in H.
  - apply ret_inv in H. destruct H as [<- ->]. auto.
  - unfold gcpcvs.volume_by_id in H. inv_run.
    match goal with Hg : gcpcvs._do_api_get _ _ _ = _ |- _ =>
      apply get_inv_new in Hg; destruct Hg as [Hg ->] end.
    match goal with Hj' : json_of _ = _ |- _ => apply json_of_inv in Hj' end.
    rewrite ?app_nil_r in *. do 3 eexists. repeat split; eauto.
  - apply ret_inv in H. destruct H as [<- ->]. auto.
Qed.

Lemma getVolumesByName_new_needs_a_unique_name_witness :
  let twin := JDict [("name", JStr "vol1"); ("volumeId", JStr "0001")] in
  let E := Fixture.constant_env (mkResponse 200 (Some (JList [twin; twin]))) in
  let q := mkRequest GET (Volumes Fixture.region) None in
  exists r listing items matching,
    respond E [] q = Some r
    /\ body r = Some listing
    /\ iter listing = Ret items
    /\ filterM (named "vol1") items = Ret matching
    /\ match matching with
       | [v0] =>
           exists volumeId r1 volume,
             getitem v0 "volumeId" = Ret volumeId
             /\ respond E ([] ++ [Sent q]) (mkRequest GET (Volume Fixture.region volumeId) None)
                = Some r1
             /\ body r1 = Some volume
             /\ @nil json = [volume]
             /\ [Sent q] = [Sent q; Sent (mkRequest GET (Volume Fixture.region volumeId) None)]
       | _ => @nil json = [] /\ [Sent q] = [Sent q]
       end.
Proof.
  intros twin E q.
  exact (getVolumesByName_new_needs_a_unique_name E Fixture.region "vol1" [] [] [Sent q]
           eq_refl).
Defined.

(** ** Service types by region *)

(** X15. No region is of both service types: [is_type_cvs] and
    [is_type_cvs_performance] are never both [True] for the same region
    name. *)
Theorem service_types_are_disjoint :
  forall region,
    gcpcvs.is_type_cvs region && gcpcvs.is_type_cvs_performance region = false.
Proof.
  intros region. destruct (gcpcvs.is_type_cvs region) eqn:Hsw; [ | reflexivity ].
  unfold gcpcvs.is_type_cvs in Hsw. apply existsb_exists in Hsw.
  destruct Hsw as (x & Hin & Heq). apply String.eqb_eq in Heq. subst x.
  unfold gcpcvs.available_sw_regions in Hin. cbn [In] in Hin.
  repeat (destruct Hin as [<- | Hin]; [ reflexivity | ]). destruct Hin.
Qed.

(** ** More on [rotateBackup] *)

Lemma volume_run c E fuel region volumeID h :
  self_getVolumesByVolumeID (self_of c E fuel) region volumeID h
  = (match respond E h (mkRequest GET (Volume region (JStr volumeID)) None) with
     | None => Raise ConnectionError
     | Some r => obind (raise_for_status r) (fun _ => json_of r)
     end,
     [Sent (mkRequest GET (Volume region (JStr volumeID)) None)]).
Proof.
  destruct c; cbn [self_of self_getVolumesByVolumeID GCPCVS.self gcpcvs.self];
    [ unfold GCPCVS.getVolumesByVolumeID, GCPCVS._do_api_get
    | unfold gcpcvs.getVolumesByVolumeID, gcpcvs._do_api_get ];
    unfold requests_get, bind, send, lift, ret;
    (destruct (respond E h _) as [r |]; [ | reflexivity ]);
    (destruct (raise_for_status r) as [[] | e |]; [ | reflexivity | reflexivity ]);
    cbn [obind app]; destruct (json_of r); reflexivity.
Qed.

Section FirstListing.
Variables (c : client) (E : Env) (fuel : nat).
Variables (region volumeID : string) (count : Z) (h : trace).
Variables (r : response) (listing : json) (n : Z).
Let q : request := mkRequest GET (VolumeBackups region volumeID) None.
Hypothesis Hcount : 1 <= count <= 30.
Hypothesis Hrespond : respond E h q = Some r.
Hypothesis Hstatus : raise_for_status r = Ret tt.
Hypothesis Hbody : body r = Some listing.
Hypothesis Hlen : len listing = Ret n.

Lemma create_after_first_listing :
  if n =? 32
  then rotateBackup_create E (self_of c E fuel) region volumeID count h
       = (Ret (Return false), [Sent q])
  else exists rest,
         snd (rotateBackup_create E (self_of c E fuel) region volumeID count h)
         = Sent q :: Sent (mkRequest GET (Volume region (JStr volumeID)) None) :: rest.
Proof.
  unfold rotateBackup_create, max_backups.
  replace ((1 <=? count) && (count <=? 32 - 2)) with true
    by (symmetry; apply andb_true_iff; split; apply Z.leb_le; lia).
  cbn [negb].
  assert (Hlist : self_getBackupsByVolumeID (self_of c E fuel) region volumeID h
                  = (Ret listing, [Sent q])).
  { rewrite listing_run. fold q. rewrite Hrespond, Hstatus. cbn [obind].
    unfold json_of. rewrite Hbody. reflexivity. }
  rewrite (bind_ret_run _ _ _ _ _ Hlist), Hlen, bind_lift_ret.
  destruct (n =? 32); [ reflexivity | ].
  cbn [snd].
  match goal with
  | |- context [bind ?m ?k (h ++ [Sent q])] =>
      destruct (bind_prefix m k (h ++ [Sent q])) as [rest ->]
  end.
  rewrite volume_run. cbn [snd app]. eexists. reflexivity.
Qed.

End FirstListing.

(** X16. With [count] in 1..30, [rotateBackup] refuses to create a backup
    only when the first listing has exactly 32 entries: it then returns
    [False] after that one GET.  With any other length, a longer listing
    included, it goes on to read the volume. *)
Theorem rotateBackup_refuses_at_exactly_32 :
  forall c E fuel region volumeID count h r listing n,
    let q := mkRequest GET (VolumeBackups region volumeID) None in
    let run := rotateBackup_of c E fuel region volumeID count h in
    1 <= count <= 30 ->
    respond E h q = Some r ->
    raise_for_status r = Ret tt ->
    body r = Some listing ->
    len listing = Ret n ->
    if n =? 32 then run = (Ret false, [Sent q])
    else exists rest,
           snd run = Sent q :: Sent (mkRequest GET (Volume region (JStr volumeID)) None) :: rest.
Proof.
  intros c E fuel region volumeID count h r listing n q run Hcount Hr Hs Hb Hlen.
  pose proof (create_after_first_listing c E fuel region volumeID count h r listing n
                Hcount Hr Hs Hb Hlen) as Hcreate.
  subst run. rewrite rotateBackup_of_eq. unfold rotateBackup.
  destruct (n =? 32).
  - rewrite (bind_ret_run _ _ _ _ _ Hcreate). reflexivity.
  - destruct Hcreate as [rest Hrest].
    match goal with
    | |- context [bind ?m ?k h] => destruct (bind_prefix m k h) as [rest' ->]
    end.
    rewrite Hrest. eexists. reflexivity.
Qed.

Lemma rotateBackup_refuses_at_exactly_32_witness :
  let full := JList (repeat Fixture.b1 32) in
  let over := JList (repeat Fixture.b1 33) in
  let q := mkRequest GET (VolumeBackups Fixture.region Fixture.volumeID) None in
  rotateBackup_of NewClient (Fixture.constant_env (mkResponse 200 (Some full))) 1
    Fixture.region Fixture.volumeID 3 []
  = (Ret false, [Sent q])
  /\ exists rest,
       snd (rotateBackup_of NewClient (Fixture.constant_env (mkResponse 200 (Some over))) 1
              Fixture.region Fixture.volumeID 3 [])
       = Sent q :: Sent (mkRequest GET (Volume Fixture.region (JStr Fixture.volumeID)) None)
           :: rest.
Proof.
  intros full over q.
  assert (H3 : 1 <= 3 <= 30) by (split; discriminate).
  split.
  - exact (rotateBackup_refuses_at_exactly_32 NewClient
             (Fixture.constant_env (mkResponse 200 (Some full))) 1 Fixture.region
             Fixture.volumeID 3 [] (mkResponse 200 (Some full)) full 32
             H3 eq_refl eq_refl eq_refl eq_refl).
  - exact (rotateBackup_refuses_at_exactly_32 NewClient
             (Fixture.constant_env (mkResponse 200 (Some over))) 1 Fixture.region
             Fixture.volumeID 3 [] (mkResponse 200 (Some over)) over 33
             H3 eq_refl eq_refl eq_refl eq_refl).
Defined.

(** X17. The selection of [rotateBackup] loses and duplicates nothing:
    the list it sorts is a rearrangement of the entries of the second
    listing whose name the pattern matches, so every such entry is in it,
    as often as it is listed. *)
Theorem selection_rearranges_the_matches :
  forall s region volumeID volumename h sortedbackups es,
    rotateBackup_select s region volumeID volumename h = (Ret sortedbackups, es) ->
    exists p listing items backups,
      Re.compile (pattern_text volumename) = Ret p
      /\ self_getBackupsByVolumeID s region volumeID h = (Ret listing, es)
      /\ iter listing = Ret items
      /\ filterM (name_matches p) items = Ret backups
      /\ Permutation sortedbackups backups
      /\ forall b, In b items -> name_matches p b = Ret true -> In b sortedbackups.
Proof.
  intros s region volumeID volumename h sorted es Hs. apply select_inv in Hs.
  destruct Hs as (p & listing & items & backups & keys & Hp & Hl & Hi & Hf & Hk & ->).
  assert (Hperm : Permutation (map snd (sort_desc (combine keys backups))) backups).
  { rewrite <- (map_snd_combine_same keys backups) at 2
      by (apply (mapM_combine _ _ _ Hk)).
    apply Permutation_map, sort_desc_perm. }
  exists p, listing, items, backups. repeat (split; [ assumption | ]).
  intros b Hin Hm. apply (Permutation_in b (Permutation_sym Hperm)).
  apply (filterM_complete _ _ _ Hf b Hin Hm).
Qed.

Lemma selection_rearranges_the_matches_witness :
  let s := self_of OldClient Fixture.rotation_env 5 in
  let sorted := [Fixture.b6; Fixture.b5; Fixture.b4; Fixture.b3; Fixture.b2; Fixture.b1] in
  exists p listing items backups,
    Re.compile (pattern_text "vol1") = Ret p
    /\ self_getBackupsByVolumeID s Fixture.region Fixture.volumeID [] = (Ret listing,
         [Sent (mkRequest GET (VolumeBackups Fixture.region Fixture.volumeID) None)])
    /\ iter listing = Ret items
    /\ filterM (name_matches p) items = Ret backups
    /\ Permutation sorted backups
    /\ forall b, In b items -> name_matches p b = Ret true -> In b sorted.
Proof.
  intros s sorted.
  apply (selection_rearranges_the_matches s Fixture.region Fixture.volumeID "vol1" [] sorted).
  vm_compute. reflexivity.
Defined.

(** ** The pattern and the names [rotateBackup] generates *)

(** X18. [rotateBackup] recognises the backups it names.  For a volume
    name without regex metacharacters and a volume id of at least six
    characters on one line, the pattern compiled from the volume name
    matches the name generated from that volume name, the first six
    characters of the id and the minute timestamp of any time. *)
Theorem rotation_pattern_matches_generated_names :
  forall volumename volumeID t,
    plain volumename = true ->
    (6 <= String.length volumeID)%nat ->
    one_line volumeID = true ->
    exists p,
      Re.compile (pattern_text volumename) = Ret p
      /\ Re.pmatch p
           (JStr (volumename ++ "-" ++ substring 0 6 volumeID ++ "-"
                    ++ Datetime.isoformat_minutes t)%string)
         = Ret true.
Proof.
  intros volumename volumeID t Hplain Hlen Hline.
  unfold pattern_text. rewrite (compile_plain _ _ Hplain).
  eexists. split; [ reflexivity | ].
  cbn [Re.pmatch]. rewrite prefix_match_literal.
  pose proof (isoformat_is_timestamp t) as Hts.
  unfold is_timestamp in Hts. apply andb_prop in Hts. destruct Hts as [_ Hts].
  destruct volumeID as [| c1 [| c2 [| c3 [| c4 [| c5 [| c6 tail]]]]]];
    cbn [String.length] in Hlen; try lia.
  cbn [one_line] in Hline.
  repeat (apply andb_prop in Hline; destruct Hline as [? Hline]).
  cbn -[Datetime.isoformat_minutes timestamp_shape].
  repeat match goal with
         | H : negb (Ascii.eqb _ _) = true |- _ => rewrite H; clear H
         end.
  cbn [andb]. destruct tail; cbn [substring]; cbn [andb]; f_equal; exact Hts.
Qed.

Lemma rotation_pattern_matches_generated_names_witness :
  exists p,
    Re.compile (pattern_text "vol1") = Ret p
    /\ Re.pmatch p (JStr ("vol1" ++ "-" ++ substring 0 6 Fixture.volumeID ++ "-"
                            ++ Datetime.isoformat_minutes Fixture.noon)%string)
       = Ret true.
Proof.
  assert (Hlen : (6 <= String.length Fixture.volumeID)%nat) by (cbv; lia).
  exact (rotation_pattern_matches_generated_names "vol1" Fixture.volumeID Fixture.noon
           eq_refl Hlen eq_refl).
Defined.

(** ** The waits for a state *)

Section BreakWait.
Variable E : Env.
Variables (destination_region relationshipID : string) (start : Z).
Let g : request := mkRequest GET (VolumeReplication destination_region relationshipID) None.

(** One round of the wait: sleep, read, and then either the round ends
    the wait or, five minutes not yet over, the wait goes on. *)
Lemma break_wait_step fuel h :
  exists o rest,
    gcpcvs.break_wait E (S fuel) destination_region relationshipID start h
    = (o, Slept 15 :: Sent g :: rest)
    /\ ((rest = [] /\ o <> OutOfFuel
         /\ forall v, o = Ret v ->
              exists res, respond E (h ++ [Slept 15]) g = Some res
                          /\ body res = Some v
                          /\ getitem v "lifeCycleState" = Ret (JStr "available"))
        \/ (clock E (h ++ [Slept 15; Sent g]) <= start + 300000000
            /\ gcpcvs.break_wait E fuel destination_region relationshipID start
                 (h ++ [Slept 15; Sent g]) = (o, rest))).
Proof.
  cbn [gcpcvs.break_wait].
  unfold gcpcvs._do_api_get, requests_get. fold g.
  unfold bind, send, lift, ret, now, sleep, raise.
  destruct (respond E (h ++ [Slept 15]) g) as [res |] eqn:Hres.
  2: { do 2 eexists. split; [ reflexivity | left ].
       repeat split; discriminate. }
  destruct (raise_for_status res) as [[] | e |] eqn:Hs.
  3: { unfold raise_for_status in Hs. destruct (_ && _) in Hs; discriminate. }
  2: { do 2 eexists. split; [ reflexivity | left ]. repeat split; discriminate. }
  cbn [app]. rewrite ?app_nil_r. rewrite <- app_assoc. cbn [app].
  unfold json_of. destruct (body res) as [v |] eqn:Hb.
  2: { do 2 eexists. split; [ reflexivity | left ]. repeat split; discriminate. }
  destruct (getitem v "lifeCycleState") as [state | e |] eqn:Hstate.
  3: { destruct v; try discriminate. simpl in Hstate. destruct (assoc _ _); discriminate. }
  2: { do 2 eexists. split; [ reflexivity | left ]. repeat split; discriminate. }
  destruct (is_str "available" state) eqn:Hav.
  { apply is_str_true in Hav. subst state.
    do 2 eexists. split; [ reflexivity | left ].
    split; [ reflexivity | ]. split; [ discriminate | ].
    intros v' Hv'. inversion Hv'; subst v'. exists res. auto. }
  destruct (is_str "error" state).
  { destruct (getitem v "lifeCycleStateDetails") as [details | e |] eqn:Hd.
    3: { destruct v; try discriminate. simpl in Hd. destruct (assoc _ _); discriminate. }
    all: do 2 eexists; (split; [ reflexivity | left ]); repeat split; discriminate. }
  destruct (start + 5 * 60 * 1000000 <? clock E (h ++ [Slept 15; Sent g])) eqn:Hlate.
  { do 2 eexists. split; [ reflexivity | left ]. repeat split; discriminate. }
  apply Z.ltb_ge in Hlate. rewrite ?app_nil_r.
  destruct (gcpcvs.break_wait E fuel destination_region relationshipID start
              (h ++ [Slept 15; Sent g])) as [o rest] eqn:Hrec.
  exists o, rest. split; [ reflexivity | right ]. split; [ lia | reflexivity ].
Qed.

Lemma break_wait_available fuel :
  forall h v es,
    gcpcvs.break_wait E fuel destination_region relationshipID start h = (Ret v, es) ->
    exists pre res,
      es = pre ++ [Slept 15; Sent g]
      /\ respond E (h ++ pre ++ [Slept 15]) g = Some res
      /\ body res = Some v
      /\ getitem v "lifeCycleState" = Ret (JStr "available").
Proof.
  induction fuel as [| fuel IH]; intros h v es H; [ discriminate H | ].
  destruct (break_wait_step fuel h) as (o & rest & Heq & [(-> & _ & Hv) | (_ & Hrec)]);
    rewrite Heq in H; inversion H; subst.
  - destruct (Hv v eq_refl) as (res & Hr & Hb & Hst). exists [], res. auto.
  - apply IH in Hrec. destruct Hrec as (pre & res & -> & Hr & Hb & Hst).
    exists (Slept 15 :: Sent g :: pre), res. rewrite <- app_assoc in Hr. auto.
Qed.

Section FiveMinutes.
Variable h : trace.
Hypothesis Hclock :
  forall es, slept es <= 315 -> start + 1000000 * slept es <= clock E (h ++ es).

Lemma break_wait_within_budget :
  forall budget fuel es0,
    (budget <= fuel)%nat ->
    0 <= slept es0 <= 300 ->
    315 - slept es0 <= 15 * Z.of_nat budget ->
    let run := gcpcvs.break_wait E fuel destination_region relationshipID start (h ++ es0) in
    fst run <> OutOfFuel
    /\ (attempts (snd run) <= budget)%nat
    /\ slept es0 + slept (snd run) <= 315.
Proof.
  induction budget as [| budget IH]; intros fuel es0 Hfuel Hs Hb; [ lia | ].
  destruct fuel as [| fuel]; [ lia | ]. cbv zeta.
  destruct (break_wait_step fuel (h ++ es0))
    as (o & rest & -> & [(-> & Hfin & _) | (Hc & Hrec)]); cbn [fst snd].
  - split; [ exact Hfin | ]. cbv [attempts]. simpl. lia.
  - rewrite <- app_assoc in Hc, Hrec.
    assert (Hs' : slept (es0 ++ [Slept 15; Sent g]) = slept es0 + 15)
      by (rewrite slept_app; simpl; lia).
    pose proof (Hclock (es0 ++ [Slept 15; Sent g])) as Hle. rewrite Hs' in Hle.
    assert (Hle' : start + 1000000 * (slept es0 + 15)
                   <= clock E (h ++ es0 ++ [Slept 15; Sent g])) by (apply Hle; lia).
    destruct (IH fuel (es0 ++ [Slept 15; Sent g])) as (H1 & H2 & H3); try lia.
    rewrite Hrec in H1, H2, H3. cbn [fst snd] in *.
    split; [ exact H1 | ].
    change (Slept 15 :: Sent g :: rest) with ([Slept 15; Sent g] ++ rest).
    rewrite attempts_app, slept_app. rewrite Hs' in H3.
    change (attempts [Slept 15; Sent g]) with 1%nat.
    change (slept [Slept 15; Sent g]) with 15. lia.
Qed.

End FiveMinutes.

End BreakWait.

(** X19. [breakVolumeReplicationByID] returns nothing but a relationship
    in the state "available": a returned value is the body of the last
    read of the relationship, that read follows a sleep of 15 s, and its
    "lifeCycleState" is "available". *)
Theorem break_returns_only_available :
  forall E fuel destination_region relationshipID force h v es,
    gcpcvs.breakVolumeReplicationByID E fuel destination_region relationshipID force h
    = (Ret v, es) ->
    let g := mkRequest GET (VolumeReplication destination_region relationshipID) None in
    exists pre res,
      es = pre ++ [Slept 15; Sent g]
      /\ respond E (h ++ pre ++ [Slept 15]) g = Some res
      /\ body res = Some v
      /\ getitem v "lifeCycleState" = Ret (JStr "available").
Proof.
  intros E fuel destination_region relationshipID force h v es H g.
  unfold gcpcvs.breakVolumeReplicationByID in H.
  apply bind_inv_ret in H. destruct H as (r & es1 & es2 & _ & H & ->).
  apply bind_inv_ret in H. destruct H as (start & es3 & es4 & Hnow & H & ->).
  apply now_inv in Hnow. destruct Hnow as [-> ->]. rewrite app_nil_r in H.
  apply break_wait_available in H. destruct H as (pre & res & -> & Hr & Hb & Hst).
  exists (es1 ++ pre), res. cbn [app]. rewrite <- !app_assoc in *. auto.
Qed.

Lemma break_returns_only_available_witness :
  let v := JDict [("lifeCycleState", JStr "available")] in
  let E := Fixture.constant_env (mkResponse 200 (Some v)) in
  let p := mkRequest POST (VolumeReplicationBreak Fixture.region "r1")
             (Some (JDict [("force", JBool true)])) in
  let g := mkRequest GET (VolumeReplication Fixture.region "r1") None in
  exists pre res,
    [Sent p; Slept 15; Sent g] = pre ++ [Slept 15; Sent g]
    /\ respond E ([] ++ pre ++ [Slept 15]) g = Some res
    /\ body res = Some v
    /\ getitem v "lifeCycleState" = Ret (JStr "available").
Proof.
  intros v E p g.
  exact (break_returns_only_available E 1 Fixture.region "r1" true [] v
           [Sent p; Slept 15; Sent g] eq_refl).
Defined.

(** X20. The wait of [breakVolumeReplicationByID] gives up.  When the
    clock advances by at least the time slept, the loop that follows the
    POST ends within 21 rounds whatever the service answers: it has then
    returned or raised (at the latest its [TimeoutError]), having read the
    relationship at most 21 times and slept at most 315 s. *)
Theorem break_wait_gives_up_after_five_minutes :
  forall E fuel destination_region relationshipID h,
    (forall es, slept es <= 315 -> clock E h + 1000000 * slept es <= clock E (h ++ es)) ->
    (21 <= fuel)%nat ->
    let run := gcpcvs.break_wait E fuel destination_region relationshipID (clock E h) h in
    fst run <> OutOfFuel
    /\ (attempts (snd run) <= 21)%nat
    /\ slept (snd run) <= 315.
Proof.
  intros E fuel destination_region relationshipID h Hclock Hfuel.
  pose proof (break_wait_within_budget E destination_region relationshipID (clock E h) h
                Hclock 21%nat fuel [] Hfuel) as H.
  rewrite app_nil_r in H. change (slept []) with 0 in H. apply H; lia.
Qed.

Lemma break_wait_gives_up_after_five_minutes_witness :
  let run := gcpcvs.break_wait (stuck_env "updating") 21 Fixture.region "r1"
               (clock (stuck_env "updating") []) [] in
  fst run <> OutOfFuel /\ (attempts (snd run) <= 21)%nat /\ slept (snd run) <= 315.
Proof.
  assert (Hfuel : (21 <= 21)%nat) by lia.
  refine (break_wait_gives_up_after_five_minutes (stuck_env "updating") 21 Fixture.region
            "r1" [] _ Hfuel).
  intros es Hes. cbn [clock stuck_env app]. unfold ticking. change (slept []) with 0.
  unfold Fixture.noon, Datetime.span, Datetime.us_per_day. lia.
Defined.

(** X21. [createVolume] of the older class does not judge the volume it
    waited for.  After a POST answered 202 it reads the volume every 20 s
    and returns the first body whose state is not "creating", whatever
    that state is: a volume in the state "error" is returned like a
    created one, with no exception. *)
Theorem createVolume_old_hands_back_any_final_state :
  forall E fuel region payload timeout h r v a b volumeID res vol state,
    let q := mkRequest POST (Volumes region) (Some payload) in
    let g := mkRequest GET (Volume region volumeID) None in
    0 < timeout ->
    respond E h q = Some r ->
    status_code r = 202 ->
    body r = Some v ->
    getitem v "response" = Ret a ->
    getitem a "AnyValue" = Ret b ->
    getitem b "volumeId" = Ret volumeID ->
    respond E (h ++ [Sent q; Slept 20]) g = Some res ->
    raise_for_status res = Ret tt ->
    body res = Some vol ->
    getitem vol "lifeCycleState" = Ret state ->
    is_str "creating" state = false ->
    GCPCVS.createVolume E (S fuel) region payload timeout h
    = (Ret vol, [Sent q; Slept 20; Sent g]).
Proof.
  intros E fuel region payload timeout h r v a b volumeID res vol state q g
    Ht Hr Hs Hb Ha Hb' Hid Hres Hok Hvol Hstate Hdone.
  unfold GCPCVS.createVolume.
  destruct (Z.to_nat timeout) as [| n] eqn:Hn; [ lia | ].
  assert (Hloop : GCPCVS.createVolume_loop E (S n) region payload None h
                  = (Ret (Some r), [Sent q])).
  { cbn [GCPCVS.createVolume_loop]. unfold requests_post. fold q.
    rewrite (bind_ret_run _ _ _ _ _ (send_run E q h r Hr)), Hs. reflexivity. }
  rewrite (bind_ret_run _ _ _ _ _ Hloop). cbv iota beta.
  assert (Hstatus : raise_for_status r = Ret tt)
    by (unfold raise_for_status; rewrite Hs; reflexivity).
  rewrite Hstatus, bind_lift_ret, (json_of_run r v Hb), bind_lift_ret,
    Ha, bind_lift_ret, Hb', bind_lift_ret, Hid, bind_lift_ret, Hs.
  change (202 =? 200) with false. change (202 =? 202) with true. cbv iota.
  assert (Hwait : GCPCVS.createVolume_wait E (S fuel) region volumeID (h ++ [Sent q])
                  = (Ret res, [Slept 20; Sent g])).
  { cbn [GCPCVS.createVolume_wait]. rewrite bind_sleep, <- app_assoc. cbn [app].
    unfold GCPCVS._do_api_get, requests_get. fold g.
    unfold bind, send, lift, ret. rewrite Hres, Hok. unfold json_of. rewrite Hvol, Hstate, Hdone.
    reflexivity. }
  rewrite (bind_ret_run _ _ _ _ _ Hwait). unfold lift, json_of. rewrite Hvol. reflexivity.
Qed.

Lemma createVolume_old_hands_back_any_final_state_witness :
  let q := mkRequest POST (Volumes Fixture.region) (Some (JDict [])) in
  let g := mkRequest GET (Volume Fixture.region (JStr "v9")) None in
  GCPCVS.createVolume (stuck_env "error") 1 Fixture.region (JDict []) 10 []
  = (Ret (JDict [("lifeCycleState", JStr "error")]), [Sent q; Slept 20; Sent g]).
Proof.
  assert (H10 : 0 < 10) by reflexivity.
  exact (createVolume_old_hands_back_any_final_state (stuck_env "error") 0 Fixture.region
           (JDict []) 10 [] _ _ _ _ (JStr "v9") _ _ (JStr "error")
           H10 eq_refl eq_refl eq_refl eq_refl eq_refl eq_refl eq_refl eq_refl eq_refl
           eq_refl eq_refl).
Defined.

(** ** What a returned call has seen *)

Lemma retry_pass_ret_inv E q timeout_seconds target_time h r c es :
  gcpcvs.retry_pass E q timeout_seconds target_time h = (Ret (r, c), es) ->
  respond E h q = Some r.
Proof.
  unfold gcpcvs.retry_pass. intros H.
  apply bind_inv_ret in H. destruct H as (r0 & es1 & es2 & Hs & H & ->).
  apply send_inv in Hs. destruct Hs as [Hs ->].
  assert (r0 = r); [ | congruence ].
  inv_run; try discriminate;
    match goal with Hp : (_, _) = (_, _) |- _ => inversion Hp; reflexivity end.
Qed.

Lemma retry_loop_ret_inv E q timeout_seconds target_time fuel :
  forall h r es,
    gcpcvs.retry_loop E fuel q timeout_seconds target_time h = (Ret r, es) ->
    exists pre tail,
      es = pre ++ tail
      /\ respond E (h ++ pre) q = Some r
      /\ (tail = [Sent q] \/ exists d, 50 <= d < 70 /\ tail = [Sent q; Slept d]).
Proof.
  induction fuel as [| fuel IH]; intros h r es H; [ discriminate H | ].
  cbn [gcpcvs.retry_loop] in H.
  apply bind_inv_ret in H. destruct H as ([r0 c] & es1 & es2 & Hpass & H & ->).
  cbn [fst snd] in H. destruct c.
  - apply ret_inv in H. destruct H as [-> ->].
    pose proof (retry_pass_events E q timeout_seconds target_time h) as Hev.
    rewrite Hpass in Hev. cbn [snd] in Hev.
    apply retry_pass_ret_inv in Hpass.
    exists [], es1. rewrite !app_nil_r. auto.
  - apply IH in H. destruct H as (pre & tail & -> & Hr & Htail).
    exists (es1 ++ pre), tail. rewrite <- !app_assoc in *. auto.
Qed.

Lemma retrying_ret_inv E fuel q timeout_seconds h r es :
  gcpcvs.retrying E fuel q timeout_seconds h = (Ret r, es) ->
  raise_for_status r = Ret tt
  /\ exists pre tail,
       es = pre ++ tail
       /\ respond E (h ++ pre) q = Some r
       /\ (tail = [Sent q] \/ exists d, 50 <= d < 70 /\ tail = [Sent q; Slept d]).
Proof.
  unfold gcpcvs.retrying. intros H.
  apply bind_inv_ret in H. destruct H as (t0 & ? & ? & Hnow & H & ->).
  apply now_inv in Hnow. destruct Hnow as [-> ->].
  apply bind_inv_ret in H. destruct H as (delta & ? & ? & Hd & H & ->).
  apply lift_inv_ret in Hd. destruct Hd as [_ ->].
  apply bind_inv_ret in H. destruct H as (target & ? & ? & Ht & H & ->).
  apply lift_inv_ret in Ht. destruct Ht as [_ ->].
  apply bind_inv_ret in H. destruct H as (r0 & es1 & ? & Hloop & H & ->).
  apply bind_inv_ret in H. destruct H as ([] & ? & ? & Hs & H & ->).
  apply lift_inv_ret in Hs. destruct Hs as [Hs ->].
  apply ret_inv in H. destruct H as [-> ->].
  rewrite ?app_nil_r in *. cbn [app]. split; [ exact Hs | ].
  apply (retry_loop_ret_inv _ _ _ _ _ _ _ _ Hloop).
Qed.

(** X22. What [_do_api_post] and [_do_api_delete] return is the answer to
    their last attempt, and never a 4xx or 5xx: a returned response is the
    one the service gave to the final sending of the request, at most one
    back-off sleep follows it, and [raise_for_status] accepts it. *)
Theorem executor_returns_its_last_answer :
  forall E fuel (post : bool) u payload timeout_seconds h r es,
    let q := if post then mkRequest POST u (Some payload) else mkRequest DELETE u None in
    let run :=
      if post then gcpcvs._do_api_post E fuel u payload timeout_seconds h
      else gcpcvs._do_api_delete E fuel u timeout_seconds h in
    run = (Ret r, es) ->
    raise_for_status r = Ret tt
    /\ exists pre tail,
         es = pre ++ tail
         /\ respond E (h ++ pre) q = Some r
         /\ (tail = [Sent q] \/ exists d, 50 <= d < 70 /\ tail = [Sent q; Slept d]).
Proof.
  intros E fuel post u payload timeout_seconds h r es q run H.
  apply (retrying_ret_inv E fuel q timeout_seconds h r es).
  rewrite <- H. subst run q. destruct post; reflexivity.
Qed.

Lemma executor_returns_its_last_answer_witness :
  let r := mkResponse 202 (Some (JDict [])) in
  let q := mkRequest DELETE (Backup Fixture.region (JStr "b1")) None in
  raise_for_status r = Ret tt
  /\ exists pre tail,
       [Sent q] = pre ++ tail
       /\ respond (Fixture.constant_env r) ([] ++ pre) q = Some r
       /\ (tail = [Sent q] \/ exists d, 50 <= d < 70 /\ tail = [Sent q; Slept d]).
Proof.
  intros r q.
  exact (executor_returns_its_last_answer (Fixture.constant_env r) 1 false
           (Backup Fixture.region (JStr "b1")) JNull 600 [] r [Sent q] eq_refl).
Defined.

(** X23. [deleteBackupByBackupID] of the newer class answers [False] only
    for a status it has no name for: a failed deletion with a 4xx or 5xx
    status is an exception of the executor, so a returned [False] means
    the last answer had a status outside 400..599 that is neither 200 nor
    202. *)
Theorem deleteBackup_new_false_is_not_an_error_status :
  forall E fuel region backupID h es,
    gcpcvs.deleteBackupByBackupID E fuel region backupID h = (Ret false, es) ->
    let q := mkRequest DELETE (Backup region backupID) None in
    exists pre tail r,
      es = pre ++ tail
      /\ respond E (h ++ pre) q = Some r
      /\ (tail = [Sent q] \/ exists d, 50 <= d < 70 /\ tail = [Sent q; Slept d])
      /\ (status_code r < 400 \/ 600 <= status_code r)
      /\ status_code r <> 200
      /\ status_code r <> 202.
Proof.
  intros E fuel region backupID h es H q. unfold gcpcvs.deleteBackupByBackupID in H.
  apply bind_inv_ret in H. destruct H as (r & es1 & ? & Hdel & H & ->).
  apply ret_inv in H. destruct H as [Hcodes ->]. rewrite app_nil_r.
  destruct (retrying_ret_inv E fuel q (10 * 60) h r es1 Hdel)
    as (Hs & pre & tail & -> & Hr & Htail).
  exists pre, tail, r. repeat (split; [ assumption | ]).
  unfold raise_for_status in Hs. unfold in_codes in Hcodes. cbn [existsb] in Hcodes.
  destruct ((400 <=? status_code r) && (status_code r <? 600)) eqn:Herr; [ discriminate | ].
  apply andb_false_iff in Herr. rewrite orb_false_r in Hcodes.
  apply orb_false_iff in Hcodes. destruct Hcodes as [H200 H202].
  apply Z.eqb_neq in H200, H202.
  repeat split; try assumption.
  destruct Herr as [Herr | Herr]; [ left; apply Z.leb_gt in Herr | right; apply Z.ltb_ge in Herr ];
    lia.
Qed.

Lemma deleteBackup_new_false_is_not_an_error_status_witness :
  let r := mkResponse 204 (Some (JDict [])) in
  let q := mkRequest DELETE (Backup Fixture.region (JStr "b1")) None in
  exists pre tail r',
    [Sent q] = pre ++ tail
    /\ respond (Fixture.constant_env r) ([] ++ pre) q = Some r'
    /\ (tail = [Sent q] \/ exists d, 50 <= d < 70 /\ tail = [Sent q; Slept d])
    /\ (status_code r' < 400 \/ 600 <= status_code r')
    /\ status_code r' <> 200
    /\ status_code r' <> 202.
Proof.
  intros r q.
  exact (deleteBackup_new_false_is_not_an_error_status (Fixture.constant_env r) 1
           Fixture.region (JStr "b1") [] [Sent q] eq_refl).
Defined.

(** ** When [rotateBackup] succeeds *)

(** X24. On an instance of either class, [rotateBackup] returns [True]
    exactly when there is nothing to prune: once the backup is created
    and the matching backups are selected, the call returns [True] if
    they are at most [count] and raises [AttributeError] if they are more;
    either way it has sent what the two phases sent and nothing else. *)
Theorem rotateBackup_succeeds_without_excess :
  forall c E fuel region volumeID count h volumename es1 sortedbackups es2,
    rotateBackup_create E (self_of c E fuel) region volumeID count h
      = (Ret (Go volumename), es1) ->
    rotateBackup_select (self_of c E fuel) region volumeID volumename (h ++ es1)
      = (Ret sortedbackups, es2) ->
    rotateBackup_of c E fuel region volumeID count h
    = (if count <? Z.of_nat (List.length sortedbackups)
       then Raise AttributeError else Ret true,
       es1 ++ es2).
Proof.
  intros c E fuel region volumeID count h volumename es1 sorted es2 Hc Hs.
  pose proof (create_go_count _ _ _ _ _ _ _ _ Hc) as Hcount.
  rewrite rotateBackup_of_eq. unfold rotateBackup.
  rewrite (bind_ret_run _ _ _ _ _ Hc). cbn match.
  rewrite (bind_ret_run _ _ _ _ _ Hs).
  assert (Hprune : forall h',
             rotateBackup_prune (self_of c E fuel) region count sorted h'
             = (if count <? Z.of_nat (List.length sorted)
                then Raise AttributeError else Ret tt, [])).
  { intros h'. rewrite prune_for_each, for_each_unbound by lia.
    destruct (count <? Z.of_nat (List.length sorted)) eqn:Hlt.
    - apply Z.ltb_lt in Hlt.
      destruct (skipn (Z.to_nat count) sorted) as [| b rest] eqn:Hskip; [ | reflexivity ].
      apply (f_equal (@List.length json)) in Hskip. rewrite length_skipn in Hskip.
      simpl in Hskip. lia.
    - apply Z.ltb_ge in Hlt. rewrite skipn_all2 by lia. reflexivity. }
  destruct (count <? Z.of_nat (List.length sorted)).
  - rewrite (bind_raise_run _ _ _ _ _ (Hprune _)). cbn [fst snd]. rewrite app_nil_r.
    reflexivity.
  - rewrite (bind_ret_run _ _ _ _ _ (Hprune _)). cbn [fst snd ret]. rewrite !app_nil_r.
    reflexivity.
Qed.

Lemma rotateBackup_succeeds_without_excess_witness :
  let E := Fixture.rotation_env in
  let s := self_of OldClient E 5 in
  let es1 := snd (rotateBackup_create E s Fixture.region Fixture.volumeID 7 []) in
  let es2 := snd (rotateBackup_select s Fixture.region Fixture.volumeID "vol1" es1) in
  rotateBackup_of OldClient E 5 Fixture.region Fixture.volumeID 7 [] = (Ret true, es1 ++ es2).
Proof.
  intros E s es1 es2.
  apply (rotateBackup_succeeds_without_excess OldClient E 5 Fixture.region Fixture.volumeID 7
           [] "vol1" es1
           [Fixture.b7; Fixture.b6; Fixture.b5; Fixture.b4; Fixture.b3; Fixture.b2; Fixture.b1]
           es2).
  - vm_compute. reflexivity.
  - vm_compute. reflexivity.
Defined.

(** ** Bodies and statuses *)

(** X25. [_do_api_post] and [_do_api_delete] need a JSON body in every
    answer: the loop parses the body before it looks at the status, so an
    answer without one, a success included, ends the call at that attempt
    with [JSONDecodeError], whatever the status and whatever the window. *)
Theorem executor_needs_a_json_body :
  forall E fuel (post : bool) u payload timeout_seconds delta target_time h r,
    let q := if post then mkRequest POST u (Some payload) else mkRequest DELETE u None in
    let run :=
      if post then gcpcvs._do_api_post E (S fuel) u payload timeout_seconds h
      else gcpcvs._do_api_delete E (S fuel) u timeout_seconds h in
    Datetime.timedelta_seconds timeout_seconds = Ret delta ->
    Datetime.add (clock E h) delta = Ret target_time ->
    respond E h q = Some r ->
    body r = None ->
    run = (Raise JSONDecodeError, [Sent q]).
Proof.
  intros E fuel post u payload timeout_seconds delta target_time h r q run
    Hdelta Htarget Hr Hb.
  assert (Hrun : run = gcpcvs.retrying E (S fuel) q timeout_seconds h)
    by (subst run q; destruct post; reflexivity).
  rewrite Hrun. clear Hrun run.
  rewrite (retrying_run E q h (S fuel) _ _ _ Hdelta Htarget).
  cbn [gcpcvs.retry_loop]. unfold gcpcvs.retry_pass, bind, send, lift, json_of.
  rewrite Hr, Hb. reflexivity.
Qed.

Lemma executor_needs_a_json_body_witness :
  gcpcvs._do_api_delete (Fixture.constant_env (mkResponse 204 None)) 1
    (Backup Fixture.region (JStr "b1")) 600 []
  = (Raise JSONDecodeError, [Sent (mkRequest DELETE (Backup Fixture.region (JStr "b1")) None)]).
Proof.
  exact (executor_needs_a_json_body (Fixture.constant_env (mkResponse 204 None)) 0 false
           (Backup Fixture.region (JStr "b1")) JNull 600 600000000
           (Fixture.noon + 600000000) [] (mkResponse 204 None)
           eq_refl eq_refl eq_refl eq_refl).
Defined.

(** X26. The read methods of both classes ([getVolumesByRegion],
    [getVolumesByVolumeID], [getBackups], [getBackupsByVolumeID],
    [getVolumeReplicationByID]) all have one shape: exactly one GET of
    their URL, never repeated; the status is judged before the body, so a
    4xx or 5xx is an [HTTPError] even when the body is not JSON; otherwise
    the parsed body is returned. *)
Theorem reads_judge_the_status_before_the_body :
  forall E x h,
    let q := mkRequest GET (read_url x) None in
    read_call E x h
    = (match respond E h q with
       | None => Raise ConnectionError
       | Some r => obind (raise_for_status r) (fun _ => json_of r)
       end,
       [Sent q]).
Proof.
  intros E x h q. subst q.
  destruct x as [[|] region | [|] region volumeID | [|] region | [|] region volumeID
                | region relationshipID];
    cbn [read_call read_url];
    unfold GCPCVS.getVolumesByRegion, gcpcvs.getVolumesByRegion,
      GCPCVS.getVolumesByVolumeID, gcpcvs.getVolumesByVolumeID,
      GCPCVS.getBackups, gcpcvs.getBackups,
      GCPCVS.getBackupsByVolumeID, gcpcvs.getBackupsByVolumeID,
      gcpcvs.getVolumeReplicationByID, GCPCVS._do_api_get, gcpcvs._do_api_get,
      requests_get, bind, send, lift, ret;
    (destruct (respond E h _) as [r |]; [ | reflexivity ]);
    (destruct (raise_for_status r) as [[] | e |]; [ | reflexivity | reflexivity ]);
    cbn [obind app]; destruct (json_of r); reflexivity.
Qed.

(** X27. [deleteVolumeByVolumeID] and [deleteVolumeReplicationByID] of
    the newer class run [_do_api_delete] with a window of ten minutes,
    not its default of two: with a clock that advances by at least the
    time slept they end, whatever the service answers, within 12 DELETE
    requests and less than 670 s of sleep. *)
Theorem removals_end_within_twelve_attempts :
  forall E fuel x h,
    (forall es, slept es < 670 -> clock E h + 1000000 * slept es <= clock E (h ++ es)) ->
    (12 <= fuel)%nat ->
    let run := removal_call E fuel x h in
    fst run <> OutOfFuel
    /\ (attempts (snd run) <= 12)%nat
    /\ slept (snd run) < 670.
Proof.
  intros E fuel x h Hclock Hfuel run.
  assert (Hshape : exists q,
             run = bind (gcpcvs.retrying E fuel q (10 * 60)) (fun r => lift (json_of r)) h).
  { subst run. destruct x; eexists; reflexivity. }
  destruct Hshape as [q ->].
  assert (H600 : 0 < 10 * 60) by reflexivity.
  assert (Hwindow : (10 * 60 - 1) / 50 + 1 <= Z.of_nat fuel)
    by (change ((10 * 60 - 1) / 50 + 1) with 12; lia).
  destruct (retrying_within_deadline E fuel q (10 * 60) h H600 Hclock Hwindow)
    as (Hfin & Hatt & Hsl).
  change ((10 * 60 - 1) / 50 + 1) with 12 in Hatt. change (10 * 60 + 70) with 670 in Hsl.
  rewrite bind_run_outcome, bind_run_events, attempts_app, slept_app.
  destruct (gcpcvs.retrying E fuel q (10 * 60) h) as [[r | e |] es]; cbn [fst snd] in *.
  - unfold lift, json_of. cbn [fst snd]. change (attempts []) with 0%nat.
    change (slept []) with 0.
    split; [ destruct (body r); discriminate | lia ].
  - change (attempts []) with 0%nat. change (slept []) with 0.
    split; [ discriminate | lia ].
  - congruence.
Qed.

Lemma removals_end_within_twelve_attempts_witness :
  let run := removal_call (busy_env too_many_requests) 12
               (RemoveVolume Fixture.region Fixture.volumeID) [] in
  fst run <> OutOfFuel /\ (attempts (snd run) <= 12)%nat /\ slept (snd run) < 670.
Proof.
  assert (Hfuel : (12 <= 12)%nat) by lia.
  refine (removals_end_within_twelve_attempts (busy_env too_many_requests) 12
            (RemoveVolume Fixture.region Fixture.volumeID) [] _ Hfuel).
  intros es Hes. cbn [clock busy_env app]. unfold ticking. change (slept []) with 0.
  unfold Fixture.noon, Datetime.span, Datetime.us_per_day. lia.
Defined.

(** * The selection of [rotateBackup] and what becomes of it *)

(** ** The selection, the pattern and the pruning call once it is bound *)
















(** ** The claims on what a rotation selects and deletes *)





